(** * Loan lifecycle engine (loans.py, loan_templates.py): a shallow embedding

    The engine is a batch job: it queries a hosted store, decides which loans
    become overdue, which overdue loans get a penalty, what amount and due
    date a notification shows, and sends e-mails.  The embedding follows the
    Python source function by function.

    - Amounts are Python floats: binary64 ([PrimFloat]), with Python's
      [round(x, 2)] written out on the exact value of the double.
    - Records fetched from the store are Python dicts: [gmap string value].
    - The remote store and the SMTP server are outside the program.  Every
      remote attempt consumes the next entry of a script held in the world:
      an exception to raise or a response to return.  The requests issued
      are logged in the world, so is every [time.sleep].
    - Exceptions are an error monad over that world. *)

From Stdlib Require Import ZArith Floats Lia Bool List String Ascii.
From stdpp Require Import base option list gmap strings pretty.

Set Warnings "-inexact-float,-register-all".
Open Scope Z_scope.

(** ** Python values *)

Inductive value :=
| VNone
| VInt (z : Z)
| VFloat (f : float)
| VStr (s : string)
| VDict (d : gmap string value).

Abbreviation dict := (gmap string value).

(** Exceptions the engine can meet.  All are subclasses of [Exception];
    [APIError] stands for any error of the store client that is none of the
    built-in ones. *)
Inductive exn :=
| ValueError | TypeError | KeyError | AttributeError | ZeroDivisionError
| OverflowError | ConnectionError | TimeoutError | SMTPException | APIError.

#[global] Instance exn_eq_dec : EqDecision exn.
Proof. solve_decision. Defined.

(** One entry of an [except (...)] tuple. *)
Inductive exn_class :=
| Exception
| Class (e : exn).

Definition isinstance (e : exn) (c : exn_class) : bool :=
  match c with
  | Exception => true
  | Class e' => bool_decide (e = e')
  end.

Definition caught_by (classes : list exn_class) (e : exn) : bool :=
  existsb (isinstance e) classes.

(** Truth value of a Python object ([if x:], [not x]). *)
Definition truthy (v : value) : bool :=
  match v with
  | VNone => false
  | VInt z => negb (z =? 0)
  | VFloat f => negb (PrimFloat.eqb f 0)
  | VStr s => negb (String.eqb s "")
  | VDict d => negb (bool_decide (d = ∅))
  end.

Definition is_none (v : value) : bool :=
  match v with VNone => true | _ => false end.

(** [key in d and d[key] is not None] *)
Definition present (d : dict) (key : string) : bool :=
  match d !! key with
  | Some v => negb (is_none v)
  | None => false
  end.

(** ** Floats *)

(** [float(z)] for an int: the nearest double. *)
Definition float_of_Z (z : Z) : float :=
  SF2Prim (binary_normalize prec emax z 0 false).

Definition round_half_even (num den : Z) : Z :=
  let q := num / den in
  let r := num mod den in
  match 2 * r ?= den with
  | Lt => q
  | Gt => q + 1
  | Eq => if Z.even q then q else q + 1
  end.

(** The double nearest to [cents / 100], with sign [s]. *)
Definition float_of_cents (s : bool) (cents : Z) : float :=
  match cents with
  | Zpos c =>
      SF2Prim (SFdiv prec emax (S754_finite s c 0) (S754_finite false 100 0))
  | _ => SF2Prim (S754_zero s)
  end.

(** [round(x, 2)] of CPython: the exact value m * 2^e of the double is
    rounded half-to-even to a whole number of hundredths, and that decimal is
    converted back to the nearest double.  A double with e >= 0 is an integer
    and is returned as it is, like zeros, infinities and NaN. *)
Definition py_round2 (x : float) : float :=
  match Prim2SF x with
  | S754_finite s m e =>
      if 0 <=? e then x
      else float_of_cents s (round_half_even (Z.pos m * 100) (2 ^ (- e)))
  | _ => x
  end.

(** [a >= b] on floats. *)
Definition fge (a b : float) : bool := PrimFloat.leb b a.
(** [a > b] on floats. *)
Definition fgt (a b : float) : bool := PrimFloat.ltb b a.

(** ** Dates: [datetime] and [calendar] *)

Record datetime := mk_datetime {
  year : Z; month : Z; day : Z;
  hour : Z; minute : Z; second : Z; microsecond : Z;
  tzoffset : option Z
}.

Definition isleap (y : Z) : bool :=
  ((y mod 4 =? 0) && negb (y mod 100 =? 0)) || (y mod 400 =? 0).

(** [calendar.monthrange(y, m)[1]]; [None] is [IllegalMonthError], a
    [ValueError]. *)
Definition monthrange (y m : Z) : option Z :=
  if (1 <=? m) && (m <=? 12) then
    Some (if m =? 2 then (if isleap y then 29 else 28)
          else if (m =? 4) || (m =? 6) || (m =? 9) || (m =? 11) then 30
          else 31)
  else None.

Definition valid_date (y m d : Z) : bool :=
  (1 <=? y) && (y <=? 9999) &&
  match monthrange y m with
  | Some last => (1 <=? d) && (d <=? last)
  | None => false
  end.

Definition valid_datetime (t : datetime) : bool :=
  valid_date (year t) (month t) (day t).

(** [t.replace(year=y, month=m, day=d)]: the other fields are kept; an
    impossible date is a [ValueError] ([None]). *)
Definition replace_ymd (t : datetime) (y m d : Z) : option datetime :=
  if valid_date y m d then
    Some (mk_datetime y m d (hour t) (minute t) (second t) (microsecond t)
            (tzoffset t))
  else None.

Definition replace_day (t : datetime) (d : Z) : option datetime :=
  replace_ymd t (year t) (month t) d.

(** [t + timedelta(days=28)]: at most one month is crossed. *)
Definition plus_28_days (t : datetime) : datetime :=
  match monthrange (year t) (month t) with
  | Some last =>
      if day t + 28 <=? last then
        mk_datetime (year t) (month t) (day t + 28) (hour t) (minute t)
          (second t) (microsecond t) (tzoffset t)
      else if month t <? 12 then
        mk_datetime (year t) (month t + 1) (day t + 28 - last) (hour t)
          (minute t) (second t) (microsecond t) (tzoffset t)
      else
        mk_datetime (year t + 1) 1 (day t + 28 - last) (hour t) (minute t)
          (second t) (microsecond t) (tzoffset t)
  | None => t
  end.

(** [datetime(y, m, 1)] *)
Definition first_of_month (y m : Z) : datetime :=
  mk_datetime y m 1 0 0 0 0 None.

(** [s.replace('Z', '+00:00')] *)
Fixpoint replace_Z (s : string) : string :=
  match s with
  | EmptyString => EmptyString
  | String c s' =>
      if Ascii.eqb c "Z"%char then ("+00:00" ++ replace_Z s')%string
      else String c (replace_Z s')
  end.

(** ** The world outside the program *)

(** [response.data] and [response.count] of the store client. *)
Record response := mk_response { data : list dict; count : Z }.

Definition empty_response : response := mk_response [] 0.

(** What one remote attempt does: raise, or answer. *)
Inductive outcome :=
| Fail (e : exn)
| Reply (r : response).

Inductive filter_op := op_eq | op_lt | op_gte | op_lte.

(** A filter argument: a value, or a time sent as [t.isoformat()]. *)
Inductive operand :=
| arg_value (v : value)
| arg_time (t : datetime).

Record filter := mk_filter {
  f_op : filter_op; f_column : string; f_arg : operand
}.

(** What [create_invoice_email] puts into the page.  [due_date] is the
    normalised due date behind [formatted_due_date]; [shown_payment_amount]
    is the figure under "Payment Amount". *)
Record invoice_email := mk_invoice_email {
  document_type : string;
  email_subject_prefix : string;
  due_date : datetime;
  base_payment : float;
  payment_amount : float;
  shown_payment_amount : float;
  first_payment_month : datetime;
  second_payment_month : datetime;
  third_payment_month : datetime;
  weapon_description : string;
  shown_remaining_balance : float;
  deposit_amount : value;
  payment_per_period : float
}.

(** What a mail carries.  A notification is the page of
    [create_invoice_email]; the reminders put a banner on top of it, and
    [banner_due_date] is the [formatted_due_date] written into that banner.
    The mails to the administrator are reports. *)
Inductive mail_body :=
| notification (banner_due_date : option string) (page : invoice_email)
| report.

(** The requests the program sends: to the store
    ([supabase.table(t).select(..)/.update(..) ... .execute()]) and to the
    SMTP server ([server.sendmail]). *)
Inductive request :=
| Select (table columns : string) (filters : list filter)
| SelectCount (table : string)
| Update (table : string) (changes : list (string * value))
    (filters : list filter)
| SendMail (recipient : value) (subject : string) (body : mail_body).

(** [clock] is what [datetime.now()] returns during the run; [script] holds
    the outcomes of the remote attempts to come, in order; [sent] and [slept]
    log the requests and the sleeps so far, newest first. *)
Record world := mk_world {
  clock : datetime;
  script : list outcome;
  sent : list request;
  slept : list Z
}.

(** ** The error monad over the world *)

Inductive res (A : Type) :=
| Ok (a : A)
| Raise (e : exn).
Arguments Ok {A} a.
Arguments Raise {A} e.

Definition M (A : Type) : Type := world -> res A * world.

Definition ret {A} (a : A) : M A := fun w => (Ok a, w).

Definition raise {A} (e : exn) : M A := fun w => (Raise e, w).

Definition bind {A B} (m : M A) (k : A -> M B) : M B :=
  fun w =>
    match m w with
    | (Ok a, w') => k a w'
    | (Raise e, w') => (Raise e, w')
    end.

Notation "'let*' x := m 'in' k" := (bind m (fun x => k))
  (at level 10, x name, m at level 100, k at level 200).
Notation "'do' m 'then' k" := (bind m (fun _ => k))
  (at level 10, m at level 100, k at level 200).

(** [try: body  except classes as e: handler e] *)
Definition try_except {A} (body : M A) (classes : list exn_class)
    (handler : exn -> M A) : M A :=
  fun w =>
    match body w with
    | (Ok a, w') => (Ok a, w')
    | (Raise e, w') =>
        if caught_by classes e then handler e w' else (Raise e, w')
    end.

Definition now : M datetime := fun w => (Ok (clock w), w).

(** [time.sleep(seconds)]: a negative length is a [ValueError]. *)
Definition sleep (seconds : Z) : M unit :=
  fun w =>
    if seconds <? 0 then (Raise ValueError, w)
    else (Ok tt, mk_world (clock w) (script w) (sent w) (seconds :: slept w)).

(** One remote attempt: the request goes out, the next scripted outcome
    comes back.  An exhausted script answers with an empty response. *)
Definition execute (r : request) : M response :=
  fun w =>
    match script w with
    | [] => (Ok empty_response, mk_world (clock w) [] (r :: sent w) (slept w))
    | Fail e :: rest =>
        (Raise e, mk_world (clock w) rest (r :: sent w) (slept w))
    | Reply resp :: rest =>
        (Ok resp, mk_world (clock w) rest (r :: sent w) (slept w))
    end.

(** ** retry_with_backoff (loans.py 112-166) *)

(** The [while retries < max_retries] loop; [remaining] is
    [max_retries - retries], the number of iterations left. *)
Fixpoint retry_loop {A} (func : M A)
    (max_retries initial_delay backoff_factor : Z)
    (exceptions_to_retry : list exn_class)
    (remaining : nat) (retries : Z) (last_exception : option exn)
    : M (option A) :=
  match remaining with
  | O =>
      match last_exception with
      | Some e => raise e
      | None => ret None
      end
  | S k =>
      try_except (let* a := func in ret (Some a)) exceptions_to_retry
        (fun e =>
           let retries := retries + 1 in
           if max_retries <=? retries then raise e
           else
             let wait_time := initial_delay * backoff_factor ^ (retries - 1) in
             do sleep wait_time then
             retry_loop func max_retries initial_delay backoff_factor
               exceptions_to_retry k retries (Some e))
  end.

Definition retry_with_backoff {A} (func : M A)
    (max_retries initial_delay backoff_factor : Z)
    (exceptions_to_retry : list exn_class) : M (option A) :=
  retry_loop func max_retries initial_delay backoff_factor
    exceptions_to_retry (Z.to_nat max_retries) 0 None.

(** A store call as every call site writes it:
    [retry_with_backoff(query, max_retries=3, initial_delay=1)], with the
    defaults [backoff_factor=2] and [exceptions_to_retry=(Exception,)]. *)
Definition with_retry {A} (query : M A) : M (option A) :=
  retry_with_backoff query 3 1 2 [Exception].

(** [response.data] when [response] may be [None]. *)
Definition data_of (r : option response) : M (list dict) :=
  match r with
  | Some resp => ret (data resp)
  | None => raise AttributeError
  end.

(** ** Computations that only raise *)

Definition rbind {A B} (r : res A) (k : A -> res B) : res B :=
  match r with
  | Ok a => k a
  | Raise e => Raise e
  end.

Notation "'let?' x := r 'in' k" := (rbind r (fun x => k))
  (at level 10, x name, r at level 100, k at level 200).

(** [try: body  except classes: handler] without effects. *)
Definition rcatch {A} (body : res A) (classes : list exn_class)
    (handler : exn -> res A) : res A :=
  match body with
  | Ok a => Ok a
  | Raise e => if caught_by classes e then handler e else Raise e
  end.

Definition lift {A} (r : res A) : M A := fun w => (r, w).

(** [d[key]] *)
Definition getitem (d : dict) (key : string) : res value :=
  match d !! key with
  | Some v => Ok v
  | None => Raise KeyError
  end.

(** [v[key]] where [v] should be a dict. *)
Definition subscript (v : value) (key : string) : res value :=
  match v with
  | VDict d => getitem d key
  | _ => Raise TypeError
  end.

(** [d.get(key, default)] *)
Definition get (d : dict) (key : string) (default : value) : value :=
  match d !! key with
  | Some v => v
  | None => default
  end.

(** [v > 0] *)
Definition gt_zero (v : value) : res bool :=
  match v with
  | VInt z => Ok (0 <? z)
  | VFloat f => Ok (fgt f 0)
  | _ => Raise TypeError
  end.

(** [v == 0] *)
Definition eq_zero (v : value) : bool :=
  match v with
  | VInt z => z =? 0
  | VFloat f => PrimFloat.eqb f 0
  | _ => false
  end.

(** [float(z)] of an int, which overflows beyond the doubles. *)
Definition float_of_int (z : Z) : res float :=
  let f := float_of_Z z in
  if is_infinity f then Raise OverflowError else Ok f.

(** [v * f] for a float [f] *)
Definition mul_float (v : value) (f : float) : res float :=
  match v with
  | VInt z => let? x := float_of_int z in Ok (PrimFloat.mul x f)
  | VFloat x => Ok (PrimFloat.mul x f)
  | _ => Raise TypeError
  end.

(** [a - b] on numbers *)
Definition py_sub (a b : value) : res value :=
  match a, b with
  | VInt x, VInt y => Ok (VInt (x - y))
  | VInt x, VFloat y => let? fx := float_of_int x in Ok (VFloat (PrimFloat.sub fx y))
  | VFloat x, VInt y => let? fy := float_of_int y in Ok (VFloat (PrimFloat.sub x fy))
  | VFloat x, VFloat y => Ok (VFloat (PrimFloat.sub x y))
  | _, _ => Raise TypeError
  end.

(** The outcome of the [i]-th remote attempt from [w] on. *)
Definition outcome_at (w : world) (i : nat) : outcome :=
  nth i (script w) (Reply empty_response).

(** ** Loops and counters *)

(** [for x in l: body], threading the local variables [s]. *)
Fixpoint for_each {A S} (body : A -> S -> M S) (l : list A) (s : S) : M S :=
  match l with
  | [] => ret s
  | x :: rest => let* s' := body x s in for_each body rest s'
  end.

(** The counters of a batch loop: [done_count] is [updated_count],
    [penalty_count] or [success_count], as the function names it. *)
Record counters := mk_counters {
  done_count : Z; skipped_count : Z; error_count : Z
}.

Definition no_counts : counters := mk_counters 0 0 0.

Definition count_done (c : counters) : counters :=
  mk_counters (done_count c + 1) (skipped_count c) (error_count c).
Definition count_skipped (c : counters) : counters :=
  mk_counters (done_count c) (skipped_count c + 1) (error_count c).
Definition count_error (c : counters) : counters :=
  mk_counters (done_count c) (skipped_count c) (error_count c + 1).

(** Python's [0.1]. *)
Definition one_tenth : float := 0x1.999999999999ap-4%float.

(** What the payment test of a loan decides: [Sufficient] skips the loan
    ([skipped_count += 1; continue]), [Insufficient] lets it through,
    [Invalid] is [error_count += 1; continue]. *)
Inductive verdict :=
| Sufficient
| Insufficient (total_payments_this_month expected_payment : float)
| Invalid.

(** [calendar.monthrange] where the source calls it: an illegal month is a
    [ValueError]. *)
Definition last_day_of (t : datetime) : res Z :=
  match monthrange (year t) (month t) with
  | Some last_day => Ok last_day
  | None => Raise ValueError
  end.

(** [t.replace(day=d)] *)
Definition with_day (t : datetime) (d : Z) : res datetime :=
  match replace_day t d with
  | Some t' => Ok t'
  | None => Raise ValueError
  end.

(** [t.replace(month=t.month+1 if t.month < 12 else 1,
               year=t.year if t.month < 12 else t.year+1)]
    (loan_templates.py 54-59) *)
Definition next_payment_month (t : datetime) : res datetime :=
  match replace_ymd t
          (if month t <? 12 then year t else year t + 1)
          (if month t <? 12 then month t + 1 else 1)
          (day t) with
  | Some t' => Ok t'
  | None => Raise ValueError
  end.

(** [f"{v:,.2f}"] succeeds on numbers only; an int is converted to a
    float first, which overflows beyond the doubles. *)
Definition format_2f (v : value) : res unit :=
  match v with
  | VInt z => let? f := float_of_int z in Ok tt
  | VFloat _ => Ok tt
  | VStr _ => Raise ValueError
  | VNone | VDict _ => Raise TypeError
  end.

(** [round(x)] of a float: only whether it raises matters here. *)
Definition round_to_int (x : float) : res unit :=
  if is_nan x then Raise ValueError
  else if is_infinity x then Raise OverflowError
  else Ok tt.

(** [a / b] on floats *)
Definition float_div (a b : float) : res float :=
  if PrimFloat.eqb b 0 then Raise ZeroDivisionError
  else Ok (PrimFloat.div a b).

(** [.eq(column, v)] *)
Definition eq_ (column : string) (v : value) : filter :=
  mk_filter op_eq column (arg_value v).

(** ** Vocabulary of the properties *)

(** [m] only sends requests that satisfy [P], and leaves the clock alone. *)
Definition emits {A} (P : request -> Prop) (m : M A) : Prop :=
  forall w,
    clock (snd (m w)) = clock w /\
    exists l, sent (snd (m w)) = l ++ sent w /\ Forall P l.

(** [m] returns a value from every world: no exception leaves it. *)
Definition never_raises {A} (m : M A) : Prop :=
  forall w, exists a, fst (m w) = Ok a.

Definition is_write (r : request) : bool :=
  match r with
  | Update _ _ _ => true
  | _ => false
  end.

Definition read_only (r : request) : Prop := is_write r = false.

(** [map] on results. *)
Definition res_map {A B} (f : A -> B) (r : res A) : res B :=
  match r with
  | Ok a => Ok (f a)
  | Raise e => Raise e
  end.

(** ** Months of the payment schedule *)

(** The month after [(y, m)]. *)
Definition next_ym (ym : Z * Z) : Z * Z :=
  if snd ym <? 12 then (fst ym, snd ym + 1) else (fst ym + 1, 1).

(** Day [d] does not exist in month [ym]. *)
Definition lacks_day (ym : Z * Z) (d : Z) : bool :=
  match monthrange (fst ym) (snd ym) with
  | Some last => last <? d
  | None => true
  end.

(** The day of [t] does not exist in one of the three months after the
    month of [t]. *)
Definition day_missing_ahead (t : datetime) : bool :=
  let m1 := next_ym (year t, month t) in
  let m2 := next_ym m1 in
  let m3 := next_ym m2 in
  lacks_day m1 (day t) || lacks_day m2 (day t) || lacks_day m3 (day t).

(** ** Stand-ins for the library's text functions

    The engine is parametric in [float(s)], [fromisoformat], [isoformat],
    [str] and [strftime].  These small versions serve to run it on data:
    dates are written [YYYY-MM-DD] or [YYYY-MM-DDTHH:MM:SS]. *)

Definition digit_of (c : ascii) : option Z :=
  let n := Z.of_nat (nat_of_ascii c) in
  if (48 <=? n) && (n <=? 57) then Some (n - 48) else None.

Fixpoint number_of (s : string) (acc : Z) : option Z :=
  match s with
  | EmptyString => Some acc
  | String c s' =>
      match digit_of c with
      | Some d => number_of s' (10 * acc + d)
      | None => None
      end
  end.

Definition field (s : string) (start len : nat) : option Z :=
  let part := substring start len s in
  if (String.length part =? len)%nat then number_of part 0 else None.

Definition sample_fromisoformat (s : string) : option datetime :=
  match field s 0 4, field s 5 2, field s 8 2 with
  | Some y, Some m, Some d =>
      if negb (String.eqb (substring 4 1 s) "-" && String.eqb (substring 7 1 s) "-")
      then None
      else if negb (valid_date y m d) then None
      else if (String.length s =? 10)%nat then
        Some (mk_datetime y m d 0 0 0 0 None)
      else
        match field s 11 2, field s 14 2, field s 17 2 with
        | Some h, Some mi, Some se =>
            if (String.length s =? 19)%nat && String.eqb (substring 10 1 s) "T"
               && String.eqb (substring 13 1 s) ":"
               && String.eqb (substring 16 1 s) ":"
               && (h <? 24) && (mi <? 60) && (se <? 60)
            then Some (mk_datetime y m d h mi se 0 None)
            else None
        | _, _, _ => None
        end
  | _, _, _ => None
  end.

Definition two_digits (n : Z) : string :=
  String (ascii_of_nat (Z.to_nat (48 + n / 10 mod 10)))
    (String (ascii_of_nat (Z.to_nat (48 + n mod 10))) EmptyString).

Definition four_digits (n : Z) : string :=
  (two_digits (n / 100) ++ two_digits n)%string.

Definition sample_date (t : datetime) : string :=
  (four_digits (year t) ++ "-" ++ two_digits (month t) ++ "-"
     ++ two_digits (day t))%string.

Definition sample_isoformat (t : datetime) : string :=
  (sample_date t ++ "T" ++ two_digits (hour t) ++ ":" ++ two_digits (minute t)
     ++ ":" ++ two_digits (second t))%string.

Definition month_name (m : Z) : string :=
  nth (Z.to_nat (m - 1))
    ["January"; "February"; "March"; "April"; "May"; "June"; "July";
     "August"; "September"; "October"; "November"; "December"] "".

(** The three formats the program prints dates in. *)
Definition sample_strftime (format : string) (t : datetime) : string :=
  if String.eqb format "%Y-%m-%d" then sample_date t
  else if String.eqb format "%d %B %Y" then
    (two_digits (day t) ++ " " ++ month_name (month t) ++ " "
       ++ four_digits (year t))%string
  else if String.eqb format "%B %d, %Y" then
    (month_name (month t) ++ " " ++ two_digits (day t) ++ ", "
       ++ four_digits (year t))%string
  else sample_isoformat t.

Definition sample_str (v : value) : string :=
  match v with
  | VStr s => s
  | VInt z => pretty z
  | VNone => "None"
  | VFloat _ => "<float>"
  | VDict _ => "<dict>"
  end.

Definition sample_float (s : string) : option float :=
  match s with
  | EmptyString => None
  | _ => option_map float_of_Z (number_of s 0)
  end.

(** ** Sample data *)

Definition noon : datetime := mk_datetime 2024 5 3 12 0 0 0 None.

Definition sample_client : dict :=
  list_to_map
    [("id", VInt 7); ("first_name", VStr "Thandi"); ("last_name", VStr "Mokoena");
     ("email", VStr "thandi@example.org"); ("phone", VNone)].

(** A loan as the queries return it, with its client attached. *)
Definition sample_loan (loan_amount remaining_balance penalties : value)
    (payment_due_date start_date : string) : dict :=
  list_to_map
    [("id", VInt 1); ("invoice_number", VStr "INV-001");
     ("loan_amount", loan_amount); ("remaining_balance", remaining_balance);
     ("penalties", penalties); ("interest_rate", VNone);
     ("payment_due_date", VStr payment_due_date);
     ("client_id", VInt 7); ("status", VStr "active");
     ("start_date", VStr start_date); ("weapon_cost", VNone);
     ("license_id", VNone); ("client", VDict sample_client);
     ("deposit_amount", VInt 0)].

(** A payment row. *)
Definition sample_payment (payment_date : string) (amount : value) : dict :=
  list_to_map [("payment_date", VStr payment_date); ("amount", amount)].

(** A payment row carries its [payment_date] as text, as every row that
    passed the date filter of the payments query does. *)
Definition has_date (payment : dict) : bool :=
  match payment !! "payment_date" with
  | Some (VStr _) => true
  | _ => false
  end.

(** The payment rows that the next call, of at most three attempts, can be
    answered with carry their dates. *)
Definition dated_script (w : world) : bool :=
  forallb
    (fun o =>
       match o with
       | Reply r => forallb has_date (data r)
       | Fail _ => true
       end)
    (take 3 (script w)).

(** The month of [noon] starts here. *)
Definition first_of_may : datetime := first_of_month 2024 5.

(** The loan of the examples: 9000 lent, due on 28 April 2024. *)
Definition april_loan (penalties : value) : dict :=
  sample_loan (VFloat 9000) (VFloat 6000) penalties "2024-04-28" "2024-01-15".

(** A loan of 5000 with the given penalties. *)
Definition loan_of_5000 (penalties : value) : dict :=
  sample_loan (VFloat 5000) (VFloat 5000) penalties "2024-04-28" "2024-01-15".

(** The answer of the payments query: one payment on 2 May. *)
Definition paid_in_may (amount : value) : response :=
  mk_response [sample_payment "2024-05-02" amount] 1.

(** A world at [noon] in which the store answers with [answers], in order. *)
Definition world_answering (answers : list response) : world :=
  mk_world noon (map Reply answers) [] [].

(** The subjects of the mails sent so far, oldest first. *)
Definition mail_subjects (w : world) : list string :=
  rev (omap (fun r => match r with
                      | SendMail _ subject _ => Some subject
                      | _ => None
                      end) (sent w)).

(** A loan due next July, with the given remaining balance. *)
Definition july_loan (remaining_balance : value) : dict :=
  sample_loan (VFloat 9000) remaining_balance (VInt 0) "2024-07-28"
    "2024-04-15".

(** What the store answers during a run of [main] on a 22nd with one loan
    due next month: the probe, no overdue loan, then twice the loan and its
    client (for the reminder, then for the statement), with the count of
    loans in between; each mail is accepted. *)
Definition answers_on_the_22nd (loan : dict) : list response :=
  [mk_response [] 1; mk_response [] 0;
   mk_response [loan] 1; mk_response [sample_client] 1;
   empty_response; empty_response;
   mk_response [] 1;
   mk_response [loan] 1; mk_response [sample_client] 1;
   empty_response; empty_response].

Definition on_june_22nd (answers : list response) : world :=
  mk_world (mk_datetime 2024 6 22 9 0 0 0 None) (map Reply answers) [] [].

Definition on_june_10th (answers : list response) : world :=
  mk_world (mk_datetime 2024 6 10 9 0 0 0 None) (map Reply answers) [] [].

Definition on_june_28th (answers : list response) : world :=
  mk_world (mk_datetime 2024 6 28 9 0 0 0 None) (map Reply answers) [] [].



(** What the notifications sent so far say about the due date, oldest
    first: the date in the banner, and the date of the page. *)
Definition mail_due_dates (w : world) : list (option string * datetime) :=
  rev (omap (fun r => match r with
                      | SendMail _ _ (notification banner page) =>
                          Some (banner, due_date page)
                      | _ => None
                      end) (sent w)).

(** [m] returns a value from every world and leaves the clock alone. *)
Definition safe {A} (m : M A) : Prop :=
  forall w, exists a w', m w = (Ok a, w') /\ clock w' = clock w.

(** * The engine *)

Section Engine.

(** Library functions on text, taken as they are: [float(s)] and
    [datetime.fromisoformat(s)], with [None] for their [ValueError];
    [t.isoformat()], [str(v)] and [t.strftime(format)]. *)
Variable str_to_float : string -> option float.
Variable fromisoformat : string -> option datetime.
Variable isoformat : datetime -> string.
Variable py_str : value -> string.
Variable strftime : string -> datetime -> string.

(** [float(v)] *)
Definition py_float (v : value) : res float :=
  match v with
  | VInt z => float_of_int z
  | VFloat f => Ok f
  | VStr s =>
      match str_to_float s with
      | Some f => Ok f
      | None => Raise ValueError
      end
  | VNone | VDict _ => Raise TypeError
  end.

(** [datetime.fromisoformat(v.replace('Z', '+00:00'))] *)
Definition parse_date (v : value) : res datetime :=
  match v with
  | VStr s =>
      match fromisoformat (replace_Z s) with
      | Some t => Ok t
      | None => Raise ValueError
      end
  | _ => Raise AttributeError
  end.

(** [send_email] (loans.py 192-246): the SMTP exchange is retried on
    transport errors with an initial delay of 2; the handler logs and
    re-raises. *)
Definition send_email (recipient_email : value) (email_subject : string)
    (email_body : mail_body) : M unit :=
  try_except
    (do retry_with_backoff
          (execute (SendMail recipient_email email_subject email_body))
          3 2 2 [Class SMTPException; Class ConnectionError; Class TimeoutError]
     then ret tt)
    [Exception] (fun e => raise e).

Definition is_3rd_of_month : M bool :=
  let* today := now in ret (day today =? 3).

Definition is_22nd_of_month : M bool :=
  let* today := now in ret (day today =? 22).

Definition is_28th_of_month : M bool :=
  let* today := now in ret (day today =? 28).

(** [check_loans_table] (loans.py 268-291) *)
Definition check_loans_table : M bool :=
  try_except
    (let* response := with_retry (execute (SelectCount "loans")) in
     match response with
     | Some r => ret (0 <? count r)
     | None => raise AttributeError
     end)
    [Exception] (fun _ => ret false).

(** ** The requests of the batch operations *)

(** loans.py 699-704 *)
Definition query_overdue_loans (now_ : datetime) : request :=
  Select "loans"
    "id, payment_due_date, client_id, invoice_number, loan_amount, remaining_balance"
    [eq_ "status" (VStr "active");
     mk_filter op_lt "payment_due_date" (arg_time now_)].

(** loans.py 750-757, 975-982, 1219-1226, 1786-1793 *)
Definition query_payments (loan_id : value)
    (first_day_of_month now_ : datetime) : request :=
  Select "loan_payments" "payment_date, amount"
    [eq_ "loan_id" loan_id;
     mk_filter op_gte "payment_date" (arg_time first_day_of_month);
     mk_filter op_lte "payment_date" (arg_time now_)].

(** loans.py 784-787 *)
Definition update_loan_status (loan_id : value) : request :=
  Update "loans" [("status", VStr "overdue")] [eq_ "id" loan_id].

(** loans.py 1272-1275 *)
Definition update_loan_penalty (loan_id : value) (penalties : float)
    : request :=
  Update "loans" [("penalties", VFloat penalties)] [eq_ "id" loan_id].

(** loans.py 799-802, 1286-1289 *)
Definition get_client_names (client_id : value) : request :=
  Select "clients" "first_name, last_name, email" [eq_ "id" client_id].

(** loans.py 333-336, 894-897, 1707-1710 *)
Definition get_client_info (client_id : value) : request :=
  Select "clients" "id, first_name, last_name, email, phone"
    [eq_ "id" client_id].

(** loans.py 354-357, 937-940, 1750-1753 *)
Definition get_licence_info (license_id : value) : request :=
  Select "gun_licences" "make, type, caliber, serial_number"
    [eq_ "id" license_id].

(** ** The payment test *)

(** [all(key in loan and loan[key] is not None for key in keys)] *)
Definition has_fields (loan : dict) (keys : list string) : bool :=
  forallb (present loan) keys.

(** The parse of [payment_due_date] under
    [except (ValueError, TypeError)]; [None] is the handler. *)
Definition due_date_of (loan : dict) : res (option datetime) :=
  rcatch
    (let? v := getitem loan "payment_due_date" in
     let? due_date := parse_date v in
     Ok (Some due_date))
    [Class ValueError; Class TypeError] (fun _ => Ok None).

(** [formatted_due_date] of the reminders (loans.py 1564-1570, 1767-1775):
    the stored due date as [strftime('%d %B %Y')] prints it, and the
    handler's words when it does not parse. *)
Definition formatted_due_date_of (loan : dict) (fallback : string)
    : res string :=
  rcatch
    (let? v := getitem loan "payment_due_date" in
     let? due_date := parse_date v in
     Ok (strftime "%d %B %Y" due_date))
    [Class ValueError; Class TypeError] (fun _ => Ok fallback).

(** [expected_payment = round(float(loan['loan_amount']) / 3, 2)] under
    [except (ValueError, TypeError)]; [None] is the handler. *)
Definition expected_payment_of (loan : dict) : res (option float) :=
  rcatch
    (let? v := getitem loan "loan_amount" in
     let? loan_amount := py_float v in
     Ok (Some (py_round2 (PrimFloat.div loan_amount 3))))
    [Class ValueError; Class TypeError] (fun _ => Ok None).

(** The loop of loans.py 769-775 (also 993-999, 1804-1810). *)
Fixpoint sum_payments (payments : list dict) (total_payments_this_month : float)
    : res float :=
  match payments with
  | [] => Ok total_payments_this_month
  | payment :: rest =>
      let? total :=
        rcatch
          (let? v := getitem payment "amount" in
           let? amount := py_float v in
           Ok (PrimFloat.add total_payments_this_month amount))
          [Class ValueError; Class TypeError]
          (fun _ => Ok total_payments_this_month) in
      sum_payments rest total
  end.

(** The loop of loans.py 1238-1253, which also collects the payment dates
    for the log. *)
Fixpoint sum_payments_dated (payments : list dict)
    (total_payments_this_month : float) (payment_dates : list datetime)
    : res (float * list datetime) :=
  match payments with
  | [] => Ok (total_payments_this_month, payment_dates)
  | payment :: rest =>
      let? st :=
        rcatch
          (let? v := getitem payment "amount" in
           let? payment_amount := py_float v in
           let total := PrimFloat.add total_payments_this_month payment_amount in
           rcatch
             (let? d := getitem payment "payment_date" in
              let? payment_date := parse_date d in
              Ok (total, payment_dates ++ [payment_date]))
             [Class ValueError; Class TypeError]
             (fun _ => Ok (total, payment_dates)))
          [Class ValueError; Class TypeError]
          (fun _ => Ok (total_payments_this_month, payment_dates)) in
      sum_payments_dated rest (fst st) (snd st)
  end.

(** The payments query under [except Exception]; [None] is the handler. *)
Definition payments_of (loan_id : value) (first_day_of_month now_ : datetime)
    : M (option (option response)) :=
  try_except
    (let* payment_response :=
       with_retry (execute (query_payments loan_id first_day_of_month now_)) in
     ret (Some payment_response))
    [Exception] (fun _ => ret None).

(** update_overdue_loans, loans.py 740-781. *)
Definition overdue_payment_test (loan : dict)
    (first_day_of_month now_ : datetime) : M verdict :=
  let* expected := lift (expected_payment_of loan) in
  match expected with
  | None => ret Invalid
  | Some expected_payment =>
      let* loan_id := lift (getitem loan "id") in
      let* queried := payments_of loan_id first_day_of_month now_ in
      match queried with
      | None => ret Invalid
      | Some payment_response =>
          let* payments := data_of payment_response in
          let* total_payments_this_month := lift (sum_payments payments 0) in
          if fge total_payments_this_month expected_payment then
            do lift (getitem loan "invoice_number") then
            ret Sufficient
          else ret (Insufficient total_payments_this_month expected_payment)
      end
  end.

(** apply_penalties_to_overdue_loans, loans.py 1209-1259. *)
Definition penalty_payment_test (loan : dict)
    (first_day_of_month now_ : datetime) : M (verdict * list datetime) :=
  let* expected := lift (expected_payment_of loan) in
  match expected with
  | None => ret (Invalid, [])
  | Some expected_payment =>
      let* loan_id := lift (getitem loan "id") in
      let* queried := payments_of loan_id first_day_of_month now_ in
      match queried with
      | None => ret (Invalid, [])
      | Some payment_response =>
          let* payments := data_of payment_response in
          let* summed := lift (sum_payments_dated payments 0 []) in
          let total_payments_this_month := fst summed in
          let payment_dates := snd summed in
          if fge total_payments_this_month expected_payment then
            do lift (getitem loan "invoice_number") then
            ret (Sufficient, payment_dates)
          else
            ret (Insufficient total_payments_this_month expected_payment,
                 payment_dates)
      end
  end.

(** ** update_overdue_loans (loans.py 680-835) *)

(** The client query and the log lines after a successful update
    (loans.py 798-820, 1285-1306): everything here is under
    [except Exception], and only the query is an effect. *)
Definition log_client (client_id : value) : M unit :=
  try_except
    (let* client_response := with_retry (execute (get_client_names client_id)) in
     do data_of client_response then
     ret tt)
    [Exception] (fun _ => ret tt).

(** What follows [updated_count += 1] (or [penalty_count += 1]) inside the
    [try] of the update: the counter [c] is already incremented when one of
    these lines raises, and the handler adds an error to it. *)
Definition after_update (loan : dict) (c : counters) : M counters :=
  try_except
    (do lift (getitem loan "invoice_number") then
     let* client_id := lift (getitem loan "client_id") in
     do log_client client_id then
     ret c)
    [Exception] (fun _ => ret (count_error c)).

(** The update sent and counted (loans.py 790-822, 1277-1308): the count
    goes up when the store answers with the updated row. *)
Definition write_and_count (update : request) (loan : dict) (c : counters)
    : M counters :=
  let* update_response := with_retry (execute update) in
  let* rows := data_of update_response in
  match rows with
  | [] => ret c
  | _ :: _ => after_update loan (count_done c)
  end.

(** The body of the loop over [response.data], loans.py 724-829. *)
Definition overdue_step (first_day_of_month now_ : datetime) (loan : dict)
    (c : counters) : M counters :=
  try_except
    (if negb (has_fields loan ["id"; "payment_due_date"; "loan_amount"]) then
       ret (count_error c)
     else
       let* due := lift (due_date_of loan) in
       match due with
       | None => ret (count_error c)
       | Some due_date =>
           let* tested := overdue_payment_test loan first_day_of_month now_ in
           match tested with
           | Invalid => ret (count_error c)
           | Sufficient => ret (count_skipped c)
           | Insufficient total_payments_this_month expected_payment =>
               let* loan_id := lift (getitem loan "id") in
               try_except
                 (write_and_count (update_loan_status loan_id) loan c)
                 [Exception] (fun _ => ret (count_error c))
           end
       end)
    [Exception] (fun _ => ret (count_error c)).

Definition update_overdue_loans : M Z :=
  try_except
    (let* now_ := now in
     let first_day_of_month := first_of_month (year now_) (month now_) in
     let* queried :=
       try_except
         (let* response := with_retry (execute (query_overdue_loans now_)) in
          match response with
          | None => ret (inl 0)
          | Some r => ret (inr r)
          end)
         [Exception] (fun _ => ret (inl 0)) in
     match queried with
     | inl n => ret n
     | inr response =>
         let* c :=
           for_each (overdue_step first_day_of_month now_) (data response)
             no_counts in
         ret (done_count c)
     end)
    [Exception] (fun _ => ret 0).

(** ** apply_penalties_to_overdue_loans (loans.py 1111-1322) *)

(** loans.py 1149-1152 *)
Definition query_overdue_for_penalties : request :=
  Select "loans"
    "id, invoice_number, loan_amount, remaining_balance, penalties, client_id, payment_due_date"
    [eq_ "status" (VStr "overdue")].

(** [new_penalty = round(loan_amount * 0.1, 2)] *)
Definition new_penalty_of (loan_amount : float) : float :=
  py_round2 (PrimFloat.mul loan_amount one_tenth).

(** loans.py 1263-1269: the new value of [penalties]. *)
Definition total_penalties_of (loan : dict) : res float :=
  let? v := getitem loan "loan_amount" in
  let? loan_amount := py_float v in
  let? b := getitem loan "remaining_balance" in
  let? remaining_balance := py_float b in
  let? current_penalties := py_float (get loan "penalties" (VInt 0)) in
  let new_penalty := new_penalty_of loan_amount in
  Ok (PrimFloat.add current_penalties new_penalty).

(** The body of the loop over [response.data], loans.py 1192-1315. *)
Definition penalty_step (first_day_of_month now_ : datetime) (loan : dict)
    (c : counters) : M counters :=
  try_except
    (if negb (has_fields loan
                ["id"; "payment_due_date"; "loan_amount"; "remaining_balance"])
     then ret (count_error c)
     else
       let* due := lift (due_date_of loan) in
       match due with
       | None => ret (count_error c)
       | Some due_date =>
           let* tested := penalty_payment_test loan first_day_of_month now_ in
           match fst tested with
           | Invalid => ret (count_error c)
           | Sufficient => ret (count_skipped c)
           | Insufficient total_payments_this_month expected_payment =>
               try_except
                 (let* total_penalties := lift (total_penalties_of loan) in
                  let* loan_id := lift (getitem loan "id") in
                  write_and_count
                    (update_loan_penalty loan_id total_penalties) loan c)
                 [Exception] (fun _ => ret (count_error c))
           end
       end)
    [Exception] (fun _ => ret (count_error c)).

Definition apply_penalties_to_overdue_loans (bypass_date_check : bool)
    : M (Z * Z) :=
  try_except
    (let* third := (if bypass_date_check then ret true else is_3rd_of_month) in
     if negb third then ret (0, 0)
     else
       let* now_ := now in
       let first_day_of_month := first_of_month (year now_) (month now_) in
       let* queried :=
         try_except
           (let* response := with_retry (execute query_overdue_for_penalties) in
            match response with
            | None => ret (inl (0, 0))
            | Some r =>
                match data r with
                | [] => ret (inl (0, 0))
                | _ :: _ => ret (inr r)
                end
            end)
           [Exception] (fun _ => ret (inl (0, 0))) in
       match queried with
       | inl n => ret n
       | inr response =>
           let* c :=
             for_each (penalty_step first_day_of_month now_) (data response)
               no_counts in
           ret (done_count c, skipped_count c)
       end)
    [Exception] (fun _ => ret (0, 0)).

(** ** create_invoice_email (loan_templates.py 7-259) *)

(** loan_templates.py 16-20, loans.py 370-372: the due date moved to day
    [min(28, last_day)] of its month. *)
Definition normalized_due_date (loan : dict) : res datetime :=
  let? v := getitem loan "payment_due_date" in
  let? due_date := parse_date v in
  let? last_day := last_day_of due_date in
  with_day due_date (Z.min 28 last_day).

(** loan_templates.py 30-48: [(base_payment, payment_amount)] *)
Definition payment_amounts (loan : dict) : res (float * float) :=
  let? v := getitem loan "loan_amount" in
  let? loan_amount := py_float v in
  let base_payment := py_round2 (PrimFloat.div loan_amount 3) in
  let penalties := get loan "penalties" (VInt 0) in
  let? has_penalties := gt_zero penalties in
  let? payment_amount :=
    if has_penalties then
      let? missed_payment_amount := mul_float penalties base_payment in
      let penalty_amount := PrimFloat.mul missed_payment_amount one_tenth in
      Ok (PrimFloat.add (PrimFloat.add base_payment missed_payment_amount)
            penalty_amount)
    else Ok base_payment in
  Ok (base_payment, py_round2 payment_amount).

(** loan_templates.py 50-59 *)
Definition payment_schedule (loan : dict)
    : res (datetime * datetime * datetime) :=
  let? v := getitem loan "start_date" in
  let? start_date := parse_date v in
  let? first := next_payment_month start_date in
  let? second := next_payment_month first in
  let? third := next_payment_month second in
  Ok (first, second, third).

(** loan_templates.py 67-80 *)
Definition describe_weapon (loan : dict) : string :=
  let weapon_make := get loan "gun_licence_make" (VStr "") in
  let weapon_type := get loan "gun_licence_type" (VStr "") in
  let weapon_caliber := get loan "gun_licence_caliber" (VStr "") in
  if truthy weapon_make && truthy weapon_type then
    if truthy weapon_caliber then
      (py_str weapon_make ++ " " ++ py_str weapon_type ++ " "
         ++ py_str weapon_caliber)%string
    else (py_str weapon_make ++ " " ++ py_str weapon_type)%string
  else py_str (get loan "weapon_description" (VStr "Firearm Loan")).

Definition create_invoice_email (loan : dict) (is_quote : bool)
    : res invoice_email :=
  let? client := getitem loan "client" in
  let? due := normalized_due_date loan in
  let document_type := if is_quote then "Statement" else "Invoice" in
  let email_subject_prefix :=
    if is_quote then "Gunnery Payment Due Quote"
    else "Gunnery Payment Confirmation" in
  let? amounts := payment_amounts loan in
  let base := fst amounts in
  let total := snd amounts in
  let? schedule := payment_schedule loan in
  let weapon := describe_weapon loan in
  let? b := getitem loan "remaining_balance" in
  let? remaining_balance := py_float b in
  let deposit := get loan "deposit_amount" (VInt 0) in
  let per_period :=
    if fgt remaining_balance 0 then PrimFloat.div remaining_balance 2
    else 0%float in
  (* the page itself: the lookups and formats of the final f-string *)
  let? invoice_number := getitem loan "invoice_number" in
  let? first_name := subscript client "first_name" in
  let? last_name := subscript client "last_name" in
  let? formatted := format_2f deposit in
  let shown :=
    if eq_zero (get loan "penalties" (VInt 0)) then base else total in
  Ok (mk_invoice_email document_type email_subject_prefix due base total
        shown (fst (fst schedule)) (snd (fst schedule)) (snd schedule)
        weapon remaining_balance deposit per_period).

(** ** get_loans_due_next_month (loans.py 293-382) *)

Definition loan_columns : string :=
  "id, invoice_number, loan_amount, remaining_balance, interest_rate, payment_due_date, client_id, status, start_date, weapon_cost, license_id, penalties".

Definition next_month_start_of (now_ : datetime) : datetime :=
  if month now_ =? 12 then first_of_month (year now_ + 1) 1
  else first_of_month (year now_) (month now_ + 1).

(** loans.py 316-323 *)
Definition query_loans (next_month_start next_month_end : datetime)
    : request :=
  Select "loans" loan_columns
    [eq_ "status" (VStr "active");
     mk_filter op_gte "payment_due_date" (arg_time next_month_start);
     mk_filter op_lte "payment_due_date" (arg_time next_month_end)].

(** loans.py 346-349: [weapon_cost - loan_amount], or 0 when one is
    [None]. *)
Definition deposit_of (loan : dict) : res value :=
  let? weapon_cost := getitem loan "weapon_cost" in
  if is_none weapon_cost then Ok (VInt 0)
  else
    let? loan_amount := getitem loan "loan_amount" in
    if is_none loan_amount then Ok (VInt 0)
    else py_sub weapon_cost loan_amount.

(** loans.py 352-367 *)
Definition attach_licence (loan : dict) : M dict :=
  if truthy (get loan "license_id" VNone) then
    let* license_id := lift (getitem loan "license_id") in
    let* licence_response := with_retry (execute (get_licence_info license_id)) in
    let* rows := data_of licence_response in
    match rows with
    | [] => ret loan
    | licence :: _ =>
        ret (<["gun_licence_serial" := get licence "serial_number" (VStr "")]>
             (<["gun_licence_caliber" := get licence "caliber" (VStr "")]>
              (<["gun_licence_type" := get licence "type" (VStr "")]>
               (<["gun_licence_make" := get licence "make" (VStr "")]> loan))))
    end
  else ret loan.

(** loans.py 369-373 *)
Definition store_due_date (loan : dict) : res dict :=
  let? due := normalized_due_date loan in
  Ok (<["payment_due_date" := VStr (isoformat due)]> loan).

(** The body of the loop over [response.data], loans.py 331-375. *)
Definition attach_client (loan : dict) (loans_with_clients : list dict)
    : M (list dict) :=
  let* client_id := lift (getitem loan "client_id") in
  let* client_response := with_retry (execute (get_client_info client_id)) in
  let* clients := data_of client_response in
  match clients with
  | [] => ret loans_with_clients
  | client :: _ =>
      let loan := <["client" := VDict client]> loan in
      let* deposit := lift (deposit_of loan) in
      let loan := <["deposit_amount" := deposit]> loan in
      let* loan := attach_licence loan in
      let* loan := lift (store_due_date loan) in
      ret (loans_with_clients ++ [loan])
  end.

Definition get_loans_due_next_month : M (list dict) :=
  try_except
    (let* now_ := now in
     let next_month_start := next_month_start_of now_ in
     let* last_day := lift (last_day_of next_month_start) in
     let next_month_end :=
       mk_datetime (year next_month_start) (month next_month_start) last_day
         23 59 59 0 None in
     let* response :=
       with_retry (execute (query_loans next_month_start next_month_end)) in
     let* rows := data_of response in
     for_each attach_client rows [])
    [Exception] (fun _ => ret []).

(** ** What the notification loops share *)

Definition ADMIN_EMAIL : value := VStr "acum3n@protonmail.com".

(** The client lookup of loans.py 893-921 and 1706-1734: [inl] is
    [error_count += 1; continue], [inr] the loan with its client attached. *)
Definition find_client (loan : dict) (c : counters) : M (counters + dict) :=
  let* client_id := lift (getitem loan "client_id") in
  try_except
    (let* client_response := with_retry (execute (get_client_info client_id)) in
     let* clients := data_of client_response in
     match clients with
     | [] => ret (inl (count_error c))
     | client :: _ =>
         if negb (truthy (get client "email" VNone)) then
           ret (inl (count_error c))
         else ret (inr (<["client" := VDict client]> loan))
     end)
    [Exception] (fun _ => ret (inl (count_error c))).

(** loans.py 923-931, 1736-1744 *)
Definition attach_deposit (loan : dict) : res dict :=
  let? deposit :=
    rcatch (deposit_of loan)
      [Class ValueError; Class TypeError; Class KeyError]
      (fun _ => Ok (VInt 0)) in
  Ok (<["deposit_amount" := deposit]> loan).

(** loans.py 933-952, 1746-1765 *)
Definition try_attach_licence (loan : dict) : M dict :=
  try_except (attach_licence loan) [Exception] (fun _ => ret loan).

(** loans.py 966-972, 1777-1783 *)
Definition expected_payment_or_zero (loan : dict) : res float :=
  let? expected := expected_payment_of loan in
  Ok (default 0%float expected).

(** loans.py 974-999, 1785-1810: a failed payments query counts as no
    payment. *)
Definition payments_this_month (loan : dict)
    (first_day_of_month now_ : datetime) : M float :=
  let* loan_id := lift (getitem loan "id") in
  let* queried := payments_of loan_id first_day_of_month now_ in
  let payments :=
    match queried with
    | Some (Some payment_response) => data payment_response
    | _ => []
    end in
  lift (sum_payments payments 0).

(** [f"... {loan['invoice_number']} - {client['first_name']} {client['last_name']}"] *)
Definition subject_line (prefix : string) (loan : dict) (client : value)
    : res string :=
  let? invoice_number := getitem loan "invoice_number" in
  let? first_name := subscript client "first_name" in
  let? last_name := subscript client "last_name" in
  Ok (prefix ++ py_str invoice_number ++ " - " ++ py_str first_name ++ " "
        ++ py_str last_name)%string.

(** The page under [except Exception as template_error]. *)
Definition render (loan : dict) (is_quote : bool) : res (option invoice_email) :=
  rcatch (let? page := create_invoice_email loan is_quote in Ok (Some page))
    [Exception] (fun _ => Ok None).

(** The send block of the notification loops (loans.py 1073-1093,
    1598-1618, 1858-1880). *)
Definition deliver (send_emails : bool) (client : value)
    (email_subject : string) (email_body : mail_body) (c : counters)
    : M counters :=
  if send_emails then
    try_except
      (let* email := lift (subscript client "email") in
       do send_email email email_subject email_body then
       do send_email ADMIN_EMAIL ("COPY: " ++ email_subject)%string
            email_body then
       do sleep 1 then
       ret (count_done c))
      [Exception] (fun _ => ret (count_error c))
  else
    do lift (subscript client "first_name") then
    do lift (subscript client "last_name") then
    do lift (subscript client "email") then
    ret (count_done c).

(** loans.py 954-964: the normalised due date, or now + 28 days when the
    stored one does not parse. *)
Definition store_due_date_or_fallback (loan : dict) (now_ : datetime)
    : res dict :=
  rcatch (store_due_date loan) [Class ValueError; Class TypeError]
    (fun _ =>
       Ok (<["payment_due_date" := VStr (isoformat (plus_28_days now_))]> loan)).

(** loans.py 1011-1056: the penalty banner is text; what can raise while it
    is built is kept. *)
Definition penalty_warning (loan : dict) : res unit :=
  let? has_penalties :=
    rcatch
      (let? penalty_amount := py_float (get loan "penalties" (VInt 0)) in
       Ok (fgt penalty_amount 0))
      [Class ValueError; Class TypeError] (fun _ => Ok false) in
  if has_penalties then
    rcatch
      (let? penalty_amount := py_float (get loan "penalties" (VInt 0)) in
       let? v := getitem loan "loan_amount" in
       let? loan_amount := py_float v in
       let? ratio := float_div penalty_amount loan_amount in
       round_to_int (PrimFloat.mul ratio 100))
      [Class ValueError; Class TypeError; Class ZeroDivisionError]
      (fun _ => Ok tt)
  else
    rcatch
      (let? v := getitem loan "loan_amount" in
       let? loan_amount := py_float v in
       Ok tt)
      [Class ValueError; Class TypeError] (fun _ => Ok tt).

(** ** notify_overdue_loans (loans.py 837-1104) *)

(** loans.py 859-861 *)
Definition query_overdue_for_notice : request :=
  Select "loans" loan_columns [eq_ "status" (VStr "overdue")].

(** The body of the loop over [response.data], loans.py 884-1097. *)
Definition notify_step (send_emails : bool)
    (first_day_of_month now_ : datetime) (loan : dict) (c : counters)
    : M counters :=
  try_except
    (if negb (has_fields loan
                ["id"; "invoice_number"; "loan_amount"; "remaining_balance";
                 "client_id"])
     then ret (count_error c)
     else
       let* found := find_client loan c in
       match found with
       | inl c' => ret c'
       | inr loan =>
           let* client := lift (getitem loan "client") in
           let* loan := lift (attach_deposit loan) in
           let* loan := try_attach_licence loan in
           let* loan := lift (store_due_date_or_fallback loan now_) in
           let* expected_payment := lift (expected_payment_or_zero loan) in
           let* total_payments_this_month :=
             payments_this_month loan first_day_of_month now_ in
           let* email_subject :=
             lift (subject_line "OVERDUE PAYMENT NOTICE: " loan client) in
           do lift (penalty_warning loan) then
           let* page := lift (render loan true) in
           match page with
           | None => ret (count_error c)
           | Some page =>
               deliver send_emails client email_subject
                 (notification None page) c
           end
       end)
    [Exception] (fun _ => ret (count_error c)).

Definition notify_overdue_loans (send_emails : bool) : M Z :=
  try_except
    (let* now_ := now in
     let first_day_of_month := first_of_month (year now_) (month now_) in
     let* queried :=
       try_except
         (let* response := with_retry (execute query_overdue_for_notice) in
          match response with
          | None => ret (inl 0)
          | Some r =>
              match data r with
              | [] => ret (inl 0)
              | _ :: _ => ret (inr r)
              end
          end)
         [Exception] (fun _ => ret (inl 0)) in
     match queried with
     | inl n => ret n
     | inr response =>
         let* c :=
           for_each (notify_step send_emails first_day_of_month now_)
             (data response) no_counts in
         ret (done_count c)
     end)
    [Exception] (fun _ => ret 0).

(** ** send_payment_reminders (loans.py 1505-1629) *)

(** [client.get('email')] where [client] should be a dict. *)
Definition client_email (client : value) : res value :=
  match client with
  | VDict d => Ok (get d "email" VNone)
  | _ => Raise AttributeError
  end.

(** The body of the loop over [loans], loans.py 1539-1622. *)
Definition payment_reminder_step (send_emails : bool) (loan : dict)
    (c : counters) : M counters :=
  try_except
    (if negb (has_fields loan
                ["invoice_number"; "loan_amount"; "remaining_balance";
                 "client"])
     then ret (count_error c)
     else
       let* client := lift (getitem loan "client") in
       let* email := lift (client_email client) in
       if negb (truthy email) then ret (count_error c)
       else
         let* expected := lift (expected_payment_of loan) in
         match expected with
         | None => ret (count_error c)
         | Some expected_payment =>
             let* formatted_due_date :=
               lift (formatted_due_date_of loan "next month") in
             let* email_subject :=
               lift (subject_line "Payment Reminder: " loan client) in
             let* page := lift (render loan true) in
             match page with
             | None => ret (count_error c)
             | Some page =>
                 deliver send_emails client email_subject
                   (notification (Some formatted_due_date) page) c
             end
         end)
    [Exception] (fun _ => ret (count_error c)).

Definition send_payment_reminders (send_emails : bool) : M Z :=
  try_except
    (let* the_22nd := is_22nd_of_month in
     if negb the_22nd then ret 0
     else
       let* now_ := now in
       let* loans := get_loans_due_next_month in
       match loans with
       | [] => ret 0
       | _ :: _ =>
           let* c :=
             for_each (payment_reminder_step send_emails) loans no_counts in
           ret (done_count c)
       end)
    [Exception] (fun _ => ret 0).

(** ** send_due_date_reminders (loans.py 1631-1891) *)

(** loans.py 1663-1670 *)
Definition query_active_loans (now_ next_month_start : datetime) : request :=
  Select "loans" loan_columns
    [eq_ "status" (VStr "active");
     mk_filter op_gte "payment_due_date" (arg_time now_);
     mk_filter op_lte "payment_due_date" (arg_time next_month_start)].

(** The body of the loop over [response.data], loans.py 1697-1884. *)
Definition due_date_reminder_step (send_emails : bool)
    (first_day_of_month now_ : datetime) (loan : dict) (c : counters)
    : M counters :=
  try_except
    (if negb (has_fields loan
                ["id"; "invoice_number"; "loan_amount"; "remaining_balance";
                 "client_id"])
     then ret (count_error c)
     else
       let* found := find_client loan c in
       match found with
       | inl c' => ret c'
       | inr loan =>
           let* client := lift (getitem loan "client") in
           let* loan := lift (attach_deposit loan) in
           let* loan := try_attach_licence loan in
           let* formatted_due_date :=
             lift (formatted_due_date_of loan "in the next few days") in
           let* expected_payment := lift (expected_payment_or_zero loan) in
           let* total_payments_this_month :=
             payments_this_month loan first_day_of_month now_ in
           let* email_subject :=
             lift (subject_line "PAYMENT DUE SOON: " loan client) in
           let* page := lift (render loan true) in
           match page with
           | None => ret (count_error c)
           | Some page =>
               deliver send_emails client email_subject
                 (notification (Some formatted_due_date) page) c
           end
       end)
    [Exception] (fun _ => ret (count_error c)).

Definition send_due_date_reminders (send_emails : bool) : M Z :=
  try_except
    (let* the_28th := is_28th_of_month in
     if negb the_28th then ret 0
     else
       let* now_ := now in
       let next_month_start := next_month_start_of now_ in
       let* last_day := lift (last_day_of next_month_start) in
       let* queried :=
         try_except
           (let* response :=
              with_retry (execute (query_active_loans now_ next_month_start)) in
            match response with
            | None => ret (inl 0)
            | Some r =>
                match data r with
                | [] => ret (inl 0)
                | _ :: _ => ret (inr r)
                end
            end)
           [Exception] (fun _ => ret (inl 0)) in
       match queried with
       | inl n => ret n
       | inr response =>
           let first_day_of_month := first_of_month (year now_) (month now_) in
           let* c :=
             for_each (due_date_reminder_step send_emails first_day_of_month now_)
               (data response) no_counts in
           ret (done_count c)
       end)
    [Exception] (fun _ => ret 0).

(** ** send_admin_summary (loans.py 384-463) and main (loans.py 465-678) *)

Definition send_admin_summary : M unit :=
  let* now_ := now in
  let subject :=
    ("Loan Payment Notifications Summary - " ++ strftime "%Y-%m-%d" now_)%string in
  try_except (send_email ADMIN_EMAIL subject report) [Exception]
    (fun _ => ret tt).

(** loans.py 595-614: statement or invoice, and the subject line.  The
    result is [(is_statement, document_type, email_subject)]. *)
Definition classify (test_mode : bool) (loan : dict) (client : value)
    : res (bool * string * string) :=
  let? balance := getitem loan "remaining_balance" in
  let? is_statement := gt_zero balance in
  let document_type := if is_statement then "Statement" else "Invoice" in
  let? invoice_number := getitem loan "invoice_number" in
  let email_subject_prefix :=
    if is_statement then
      ("Gunnery Payment Due Quote: " ++ py_str invoice_number)%string
    else "Loan Paid" in
  let test_prefix := if test_mode then "[TEST] " else "" in
  if is_statement then
    Ok (is_statement, document_type,
        (test_prefix ++ email_subject_prefix)%string)
  else
    let? first_name := subscript client "first_name" in
    let? last_name := subscript client "last_name" in
    Ok (is_statement, document_type,
        (test_prefix ++ email_subject_prefix ++ ": " ++ document_type ++ " "
           ++ py_str invoice_number ++ " - " ++ py_str first_name ++ " "
           ++ py_str last_name)%string).

(** The body of the loop over [loans], loans.py 581-645. *)
Definition main_step (test_mode send_emails : bool) (loan : dict)
    (success_count : Z) : M Z :=
  try_except
    (if negb (truthy (get loan "client" VNone)) then ret success_count
     else
       let* client := lift (getitem loan "client") in
       if negb (has_fields loan
                  ["invoice_number"; "loan_amount"; "remaining_balance"])
       then ret success_count
       else
         let* kind := lift (classify test_mode loan client) in
         let is_statement := fst (fst kind) in
         let email_subject := snd kind in
         let* page :=
           lift (rcatch
                   (let? p := create_invoice_email loan is_statement in
                    Ok (Some p))
                   [Exception]
                   (fun _ =>
                      let? invoice_number := getitem loan "invoice_number" in
                      Ok None)) in
         match page with
         | None => ret success_count
         | Some page =>
             let email_body := notification None page in
             do lift (subscript client "first_name") then
             do lift (subscript client "last_name") then
             let* email := lift (subscript client "email") in
             if send_emails then
               try_except
                 (do send_email email email_subject email_body then
                  do send_email ADMIN_EMAIL ("COPY: " ++ email_subject)%string
                       email_body then
                  do sleep 1 then
                  ret (success_count + 1))
                 [Exception] (fun _ => ret success_count)
             else ret (success_count + 1)
         end)
    [Exception] (fun _ => ret success_count).

(** A batch operation as [main] calls it: [try: n = op() except Exception:
    n = fallback]. *)
Definition guarded {A} (op : M A) (fallback : A) : M A :=
  try_except op [Exception] (fun _ => ret fallback).

Definition main (test_mode send_emails send_admin_summary_email : bool)
    : M unit :=
  try_except
    (do try_except (do execute (SelectCount "loans") then ret tt)
          [Exception] (fun _ => raise ConnectionError) then
     let* overdue_count := guarded update_overdue_loans 0 in
     let* the_3rd := (if test_mode then ret true else is_3rd_of_month) in
     let* penalties :=
       (if the_3rd then
          guarded (apply_penalties_to_overdue_loans test_mode) (0, 0)
        else ret (0, 0)) in
     let* overdue_notifications :=
       (if (0 <? overdue_count) || test_mode then
          guarded (notify_overdue_loans send_emails) 0
        else ret 0) in
     let* the_22nd := (if test_mode then ret true else is_22nd_of_month) in
     let* payment_reminders_count :=
       (if the_22nd then guarded (send_payment_reminders send_emails) 0
        else ret 0) in
     let* the_28th := (if test_mode then ret true else is_28th_of_month) in
     let* due_date_reminders_count :=
       (if the_28th then guarded (send_due_date_reminders send_emails) 0
        else ret 0) in
     let* has_loans := check_loans_table in
     let* primary_run := (if test_mode then ret true else is_22nd_of_month) in
     if negb primary_run then
       if send_emails && send_admin_summary_email then
         guarded send_admin_summary tt
       else ret tt
     else
       let* loans := guarded get_loans_due_next_month [] in
       let* success_count :=
         for_each (main_step test_mode send_emails) loans 0 in
       if send_emails && send_admin_summary_email then
         guarded send_admin_summary tt
       else ret tt)
    [Exception]
    (fun _ =>
       if send_emails && send_admin_summary_email then
         guarded
           (send_email ADMIN_EMAIL
              "ERROR: Loan Payment Notification System Failure" report)
           tt
       else ret tt).

(** ** The writes of the engine *)

(** The row of a loan after the store has applied [changes] to it. *)
Definition updated_row (changes : list (string * value)) (loan : dict)
    : dict :=
  foldr (fun change row => <[change.1 := change.2]> row) loan changes.

(** [Loan.status := 'overdue'] on the loan with the given id. *)
Definition status_write (r : request) : Prop :=
  exists loan_id, r = update_loan_status loan_id.

(** [Loan.penalties := penalties + new_penalty] on a loan [loan], as the
    row was read. *)
Definition penalty_write (r : request) : Prop :=
  exists loan loan_id p,
    getitem loan "id" = Ok loan_id /\
    total_penalties_of loan = Ok p /\
    r = update_loan_penalty loan_id p.

(** What update_overdue_loans may send. *)
Definition overdue_request (r : request) : Prop :=
  read_only r \/ status_write r.

(** What apply_penalties_to_overdue_loans may send. *)
Definition penalty_request (r : request) : Prop :=
  read_only r \/ penalty_write r.

(** What the engine may send: reads (queries and e-mails) and the two
    writes. *)
Definition engine_request (r : request) : Prop :=
  read_only r \/ status_write r \/ penalty_write r.

(** ** The rest of loans.py *)

(** [is_third_last_day_of_month] (loans.py 248-256, and its copy in
    test_loans.py 23-31) *)
Definition is_third_last_day_of_month : M bool :=
  let* today := now in
  let* last_day := lift (last_day_of today) in
  let third_last_day := last_day - 2 in
  ret (day today =? third_last_day).

(** [check_database_connection] (loans.py 1324-1387): the four count
    probes, each one retried. *)
Definition check_database_connection : M bool :=
  try_except
    (do with_retry (execute (SelectCount "loans")) then
     do with_retry (execute (SelectCount "clients")) then
     do with_retry (execute (SelectCount "loan_payments")) then
     do with_retry (execute (SelectCount "gun_licences")) then
     ret true)
    [Exception] (fun _ => ret false).

(** [send_payment_reminders] with the day test it calls, the global
    [is_22nd_of_month], given as [gate]: run_cli replaces that global for
    the time of one call (loans.py 1451-1462). *)
Definition send_payment_reminders_with (gate : M bool) (send_emails : bool)
    : M Z :=
  try_except
    (let* the_22nd := gate in
     if negb the_22nd then ret 0
     else
       let* now_ := now in
       let* loans := get_loans_due_next_month in
       match loans with
       | [] => ret 0
       | _ :: _ =>
           let* c :=
             for_each (payment_reminder_step send_emails) loans no_counts in
           ret (done_count c)
       end)
    [Exception] (fun _ => ret 0).

(** [send_due_date_reminders] with the global [is_28th_of_month] given as
    [gate] (loans.py 1470-1481). *)
Definition send_due_date_reminders_with (gate : M bool) (send_emails : bool)
    : M Z :=
  try_except
    (let* the_28th := gate in
     if negb the_28th then ret 0
     else
       let* now_ := now in
       let next_month_start := next_month_start_of now_ in
       let* last_day := lift (last_day_of next_month_start) in
       let* queried :=
         try_except
           (let* response :=
              with_retry (execute (query_active_loans now_ next_month_start)) in
            match response with
            | None => ret (inl 0)
            | Some r =>
                match data r with
                | [] => ret (inl 0)
                | _ :: _ => ret (inr r)
                end
            end)
           [Exception] (fun _ => ret (inl 0)) in
       match queried with
       | inl n => ret n
       | inr response =>
           let first_day_of_month := first_of_month (year now_) (month now_) in
           let* c :=
             for_each (due_date_reminder_step send_emails first_day_of_month now_)
               (data response) no_counts in
           ret (done_count c)
       end)
    [Exception] (fun _ => ret 0).

(** The flags of the command line (loans.py 1395-1403). *)
Record cli_args := mk_cli_args {
  test : bool;
  no_send : bool;
  admin_summary : bool;
  apply_penalties : bool;
  payment_reminders : bool;
  due_date_reminders : bool;
  check_db : bool;
  verbose : bool
}.

(** The flags with [--no-send] given, or not. *)
Definition with_no_send (b : bool) (args : cli_args) : cli_args :=
  mk_cli_args (test args) b (admin_summary args) (apply_penalties args)
    (payment_reminders args) (due_date_reminders args) (check_db args)
    (verbose args).

(** [try: send_email(ADMIN_EMAIL, subject, ...) except Exception: log] *)
Definition tell_admin (subject : string) : M unit :=
  try_except (send_email ADMIN_EMAIL subject report) [Exception]
    (fun _ => ret tt).

(** [run_cli] (loans.py 1389-1503), from the parsed flags on; the result is
    the exit code. *)
Definition run_cli (args : cli_args) : M Z :=
  try_except
    (if check_db args then
       let* ok := check_database_connection in
       if ok then ret 0 else ret 1
     else
       let* ok := check_database_connection in
       if negb ok then
         let send_emails := negb (no_send args) in
         do (if send_emails then
               tell_admin
                 "ERROR: Loan Payment System - Database Connection Failure"
             else ret tt) then
         ret 1
       else
         let send_emails := if test args then true else negb (no_send args) in
         do (if apply_penalties args then
               do apply_penalties_to_overdue_loans true then ret tt
             else if payment_reminders args then
               do send_payment_reminders_with (ret true) send_emails then
               ret tt
             else if due_date_reminders args then
               do send_due_date_reminders_with (ret true) send_emails then
               ret tt
             else main (test args) send_emails (admin_summary args)) then
         ret 0)
    [Exception]
    (fun _ =>
       let send_emails := if test args then true else negb (no_send args) in
       do (if send_emails then
             tell_admin "ERROR: Loan Payment Notification System Failure"
           else ret tt) then
       ret 1).

(** ** More vocabulary *)

Definition is_mail (r : request) : bool :=
  match r with
  | SendMail _ _ _ => true
  | _ => false
  end.

(** A request that is no e-mail. *)
Definition no_mail (r : request) : Prop := is_mail r = false.

(** A count probe: [select('count', count='exact').limit(1)]. *)
Definition is_probe (r : request) : Prop := exists table, r = SelectCount table.

(** Whenever [m] returns a value, the value satisfies [Q]. *)
Definition returns {A} (Q : A -> Prop) (m : M A) : Prop :=
  forall w a w', m w = (Ok a, w') -> Q a.

(** [emits], from the worlds whose clock satisfies [C] only. *)
Definition emits_when {A} (C : datetime -> Prop) (P : request -> Prop)
    (m : M A) : Prop :=
  forall w, C (clock w) ->
    clock (snd (m w)) = clock w /\
    exists l, sent (snd (m w)) = l ++ sent w /\ Forall P l.

(** A loan as get_loans_due_next_month hands it on: the client row is
    attached, the deposit is worked out, and the due date is rewritten as
    the text of a date on the 28th. *)
Definition prepared (loan : dict) : Prop :=
  (exists client, loan !! "client" = Some (VDict client)) /\
  (exists deposit, loan !! "deposit_amount" = Some deposit) /\
  (exists due, loan !! "payment_due_date" = Some (VStr (isoformat due)) /\
               day due = 28).

(** The geometric waits of retry_with_backoff: [d * b ^ i] for [i] from
    [from] on, [n] of them. *)
Fixpoint waits (d b : Z) (from : Z) (n : nat) : list Z :=
  match n with
  | O => []
  | S k => d * b ^ from :: waits d b (from + 1) k
  end.

(** The counters after one loan of a notification loop: the loan is
    notified or counted as an error, never both, never neither. *)
Definition counted_once (c c' : counters) : Prop :=
  c' = count_done c \/ c' = count_error c.

(** ** More sample data *)

(** [--check-db] alone, and [--apply-penalties] alone. *)
Definition check_only : cli_args :=
  mk_cli_args false false false false false false true false.
Definition penalties_only : cli_args :=
  mk_cli_args false false false true false false false false.

(** A second loan due next July, of another client. *)
Definition second_july_loan : dict :=
  <["id" := VInt 2]> (<["client_id" := VInt 8]> (july_loan (VFloat 750))).

(** 22 June: the store returns two loans due in July and the client of the
    first one, then fails three times. *)
Definition lookup_fails_on_second : world :=
  mk_world (mk_datetime 2024 6 22 9 0 0 0 None)
    [Reply (mk_response [july_loan (VFloat 750); second_july_loan] 2);
     Reply (mk_response [sample_client] 1);
     Fail ConnectionError; Fail ConnectionError; Fail TimeoutError]
    [] [].

(** A loan whose [penalties] column is NULL. *)
Definition loan_without_penalties_value : dict :=
  sample_loan (VFloat 9000) (VFloat 6000) VNone "2024-07-28" "2024-04-15".

(** A loan that started on 15 November 2024. *)
Definition november_loan : dict :=
  sample_loan (VFloat 9000) (VFloat 6000) (VInt 0) "2025-01-28" "2024-11-15".

(** [--no-send] alone. *)
Definition dry_run : cli_args :=
  mk_cli_args false true false false false false false false.

(** 10 June: the four tables answer, then the probe of [main]; one active
    loan is past its due date and has no payment this month; the store
    confirms its update and returns its client; the loan then shows as
    overdue. *)
Definition overdue_on_june_10th : world :=
  on_june_10th
    [mk_response [] 1; mk_response [] 1; mk_response [] 1; mk_response [] 1;
     mk_response [] 1;
     mk_response [april_loan (VInt 0)] 1; mk_response [] 0;
     mk_response [april_loan (VInt 0)] 1; mk_response [sample_client] 1;
     mk_response [april_loan (VInt 0)] 1; mk_response [sample_client] 1].

(** The updates sent so far, oldest first. *)
Definition writes_of (w : world) : list request :=
  rev (List.filter is_write (sent w)).

(** ** Runs as relations on worlds *)

(** Every run of [m] takes the world along [G]. *)
Definition steps {A} (G : world -> world -> Prop) (m : M A) : Prop :=
  forall w, G w (snd (m w)).

(** The classes [send_email] passes as [exceptions_to_retry]. *)
Definition mail_errors : list exn_class :=
  [Class SMTPException; Class ConnectionError; Class TimeoutError].

(** From [w] to [w'] the world changes by calls of [retry_with_backoff]
    only, and by the pause of one second after a pair of mails: a store
    request is passed with [max_retries=3], [initial_delay=1] and the
    defaults for the factor, 2, and the classes, [(Exception,)]; a mail with
    [max_retries=3], [initial_delay=2], the factor 2 and [mail_errors].  No
    attempt and no sleep is made outside such a call. *)
Inductive retried_calls : world -> world -> Prop :=
| calls_done (w : world) : retried_calls w w
| calls_store (req : request) (w w' : world) :
    is_mail req = false ->
    retried_calls
      (snd (retry_with_backoff (execute req) 3 1 2 [Exception] w)) w' ->
    retried_calls w w'
| calls_mail (recipient : value) (subject : string) (body : mail_body)
    (w w' : world) :
    retried_calls
      (snd (retry_with_backoff (execute (SendMail recipient subject body))
              3 2 2 mail_errors w)) w' ->
    retried_calls w w'
| calls_pause (w w' : world) :
    retried_calls (snd (sleep 1 w)) w' -> retried_calls w w'.

(** [loan] is a row of an answer that the store holds ready in [s]. *)
Definition row_read (s : list outcome) (loan : dict) : Prop :=
  exists r, In (Reply r) s /\ In loan (data r).

(** [Loan.status := 'overdue'] on the row with the id of [loan]. *)
Definition status_write_of (loan : dict) (r : request) : Prop :=
  exists loan_id,
    loan !! "id" = Some loan_id /\
    r = Update "loans" [("status", VStr "overdue")]
          [mk_filter op_eq "id" (arg_value loan_id)].

(** [Loan.penalties := float(penalties) + round(float(loan_amount) * 0.1, 2)]
    with the values of the row [loan], on the row with its id. *)
Definition penalty_write_of (loan : dict) (r : request) : Prop :=
  exists loan_id v loan_amount current,
    loan !! "id" = Some loan_id /\
    loan !! "loan_amount" = Some v /\ py_float v = Ok loan_amount /\
    py_float (get loan "penalties" (VInt 0)) = Ok current /\
    r = Update "loans"
          [("penalties",
            VFloat (PrimFloat.add current
                      (py_round2 (PrimFloat.mul loan_amount one_tenth))))]
          [mk_filter op_eq "id" (arg_value loan_id)].

(** From [w] to [w'] answers of the script are used up in order, and every
    request sent satisfies [P], which may refer to the answers that were
    still to come at [w]. *)
Definition sends (P : list outcome -> request -> Prop) (w w' : world)
    : Prop :=
  (exists used, script w = used ++ script w') /\
  exists l, sent w' = l ++ sent w /\ Forall (P (script w)) l.

(** A read, or [Loan.status := 'overdue'] on a row that the store
    returned. *)
Definition status_request_on_rows (s : list outcome) (r : request) : Prop :=
  read_only r \/ exists loan, row_read s loan /\ status_write_of loan r.

(** A read, or the penalty added to a row that the store returned. *)
Definition penalty_request_on_rows (s : list outcome) (r : request) : Prop :=
  read_only r \/ exists loan, row_read s loan /\ penalty_write_of loan r.

(** A read or one of the two writes, on a row that the store returned. *)
Definition engine_request_on_rows (s : list outcome) (r : request) : Prop :=
  read_only r \/
  exists loan,
    row_read s loan /\ (status_write_of loan r \/ penalty_write_of loan r).

(** * Properties *)

(** ** retry_with_backoff *)

Lemma execute_sent (req : request) (w : world) :
  sent (snd (execute req w)) = req :: sent w /\
  slept (snd (execute req w)) = slept w /\
  script (snd (execute req w)) = drop 1 (script w) /\
  clock (snd (execute req w)) = clock w.
Proof.
  unfold execute. destruct (script w) as [|[e|r] rest]; simpl; auto.
Qed.

Lemma execute_outcome (req : request) (w : world) :
  fst (execute req w) =
    match outcome_at w 0 with
    | Fail e => Raise e
    | Reply r => Ok r
    end.
Proof.
  unfold execute, outcome_at. destruct (script w) as [|[e|r] rest]; reflexivity.
Qed.

Lemma retry_loop_step {A} (func : M A) (mx d b : Z)
    (classes : list exn_class) (k : nat) (retries : Z)
    (last : option exn) (w : world) :
  retry_loop func mx d b classes (S k) retries last w =
    match func w with
    | (Ok a, w') => (Ok (Some a), w')
    | (Raise e, w') =>
        if caught_by classes e then
          if mx <=? retries + 1 then (Raise e, w')
          else if d * b ^ (retries + 1 - 1) <? 0 then (Raise ValueError, w')
          else
            retry_loop func mx d b classes k (retries + 1) (Some e)
              (mk_world (clock w') (script w') (sent w')
                 (d * b ^ (retries + 1 - 1) :: slept w'))
        else (Raise e, w')
    end.
Proof.
  simpl. unfold try_except, bind at 1.
  destruct (func w) as [[a|e] w']; simpl; [reflexivity|].
  destruct (caught_by classes e); [|reflexivity].
  destruct (mx <=? retries + 1); [reflexivity|].
  unfold bind, sleep.
  destruct (d * b ^ (retries + 1 - 1) <? 0); reflexivity.
Qed.

(** A wait of the retry loop is no negative length when the delay and the
    factor are not negative. *)
Lemma wait_nonneg (d b x : Z) : 0 <= d -> 0 <= b -> (d * b ^ x <? 0) = false.
Proof.
  intros Hd Hb. apply Z.ltb_ge, Z.mul_nonneg_nonneg; [exact Hd|].
  apply Z.pow_nonneg, Hb.
Qed.

#[local] Arguments retry_loop : simpl never.

Ltac retry_done :=
  simpl; repeat split; auto;
  try (intros [|[|i]] Hi; simpl in *; solve [eauto | lia]);
  change (2 ^ (0 + 1 - 1)) with 1;
  change (2 ^ (0 + 1 + 1 - 1)) with 2;
  repeat (f_equal; try lia).

(** What a retried remote call does, attempt by attempt. *)
Lemma retry_execute_spec (req : request) (d : Z)
    (classes : list exn_class) (w : world) :
  0 <= d ->
  exists (k : nat) (r : res (option response)) (w' : world),
    retry_with_backoff (execute req) 3 d 2 classes w = (r, w') /\
    (1 <= k <= 3)%nat /\
    sent w' = repeat req k ++ sent w /\
    script w' = drop k (script w) /\
    slept w' = rev (take (k - 1) [d; 2 * d]) ++ slept w /\
    (forall i, (i < k - 1)%nat ->
       exists e, outcome_at w i = Fail e /\ caught_by classes e = true) /\
    match outcome_at w (k - 1) with
    | Reply resp => r = Ok (Some resp)
    | Fail e => r = Raise e /\ (k = 3%nat \/ caught_by classes e = false)
    end.
Proof.
  intros Hd.
  assert (H1 : (d * 2 ^ (0 + 1 - 1) <? 0) = false) by (apply Z.ltb_ge; lia).
  assert (H2 : (d * 2 ^ (0 + 1 + 1 - 1) <? 0) = false) by (apply Z.ltb_ge; lia).
  destruct w as [t sc se sl].
  unfold retry_with_backoff, outcome_at.
  change (Z.to_nat 3) with 3%nat.
  rewrite retry_loop_step.
  destruct sc as [|[e1|r1] sc]; simpl.
  1, 3: exists 1%nat; do 2 eexists; split; [reflexivity|]; retry_done.
  destruct (caught_by classes e1) eqn:C1.
  2:{ exists 1%nat. do 2 eexists. split; [reflexivity|]. retry_done. }
  rewrite H1, retry_loop_step.
  destruct sc as [|[e2|r2] sc]; simpl.
  1, 3: exists 2%nat; do 2 eexists; split; [reflexivity|]; retry_done.
  destruct (caught_by classes e2) eqn:C2.
  2:{ exists 2%nat. do 2 eexists. split; [reflexivity|]. retry_done. }
  rewrite H2, retry_loop_step.
  destruct sc as [|[e3|r3] sc]; simpl.
  1, 3: exists 3%nat; do 2 eexists; split; [reflexivity|]; retry_done.
  exists 3%nat. do 2 eexists. split.
  { destruct (caught_by classes e3); reflexivity. }
  retry_done.
Qed.

(** ** Which requests a computation sends *)

Lemma emits_ret {A} (P : request -> Prop) (a : A) : emits P (ret a).
Proof. intros w. split; [reflexivity|]. exists []. split; [reflexivity | constructor]. Qed.

Lemma emits_raise {A} (P : request -> Prop) (e : exn) : emits P (@raise A e).
Proof. intros w. split; [reflexivity|]. exists []. split; [reflexivity | constructor]. Qed.

Lemma emits_lift {A} (P : request -> Prop) (r : res A) : emits P (lift r).
Proof. intros w. split; [reflexivity|]. exists []. split; [reflexivity | constructor]. Qed.

Lemma emits_now (P : request -> Prop) : emits P now.
Proof. intros w. split; [reflexivity|]. exists []. split; [reflexivity | constructor]. Qed.

Lemma emits_sleep (P : request -> Prop) (n : Z) : emits P (sleep n).
Proof.
  intros w. unfold sleep.
  destruct (n <? 0); (split; [reflexivity|]); exists [];
    (split; [reflexivity | constructor]).
Qed.

Lemma emits_execute (P : request -> Prop) (r : request) :
  P r -> emits P (execute r).
Proof.
  intros HP w. split; [apply execute_sent|].
  exists [r]. split; [|repeat constructor; exact HP].
  apply execute_sent.
Qed.

Lemma emits_bind_lift {A B} (P : request -> Prop) (r : res A) (k : A -> M B) :
  (forall a, r = Ok a -> emits P (k a)) -> emits P (bind (lift r) k).
Proof.
  intros Hk w. unfold bind, lift. destruct r as [a|e]; simpl.
  - apply Hk. reflexivity.
  - split; [reflexivity|]. exists []. split; [reflexivity | constructor].
Qed.

Lemma emits_weaken {A} (P Q : request -> Prop) (m : M A) :
  (forall r, P r -> Q r) -> emits P m -> emits Q m.
Proof.
  intros HPQ Hm w. destruct (Hm w) as (Hc & l & Hl & Pl).
  split; [exact Hc|].
  exists l. split; [exact Hl|]. eapply Forall_impl; eauto.
Qed.

Lemma emits_bind {A B} (P : request -> Prop) (m : M A) (k : A -> M B) :
  emits P m -> (forall a, emits P (k a)) -> emits P (bind m k).
Proof.
  intros Hm Hk w. unfold bind.
  destruct (Hm w) as (Hc & l & Hl & Pl).
  destruct (m w) as [[a|e] w']; simpl in *.
  - destruct (Hk a w') as (Hc' & l' & Hl' & Pl').
    split; [congruence|].
    exists (l' ++ l). rewrite Hl', Hl, app_assoc. split; [reflexivity|].
    apply Forall_app; auto.
  - split; [exact Hc|]. exists l. auto.
Qed.

Lemma emits_try_except {A} (P : request -> Prop) (m : M A)
    (classes : list exn_class) (h : exn -> M A) :
  emits P m -> (forall e, emits P (h e)) -> emits P (try_except m classes h).
Proof.
  intros Hm Hh w. unfold try_except.
  destruct (Hm w) as (Hc & l & Hl & Pl).
  destruct (m w) as [[a|e] w']; simpl in *.
  - split; [exact Hc|]. exists l. auto.
  - destruct (caught_by classes e); [|split; [exact Hc|]; exists l; auto].
    destruct (Hh e w') as (Hc' & l' & Hl' & Pl').
    split; [congruence|].
    exists (l' ++ l). rewrite Hl', Hl, app_assoc. split; [reflexivity|].
    apply Forall_app; auto.
Qed.

Lemma emits_retry_loop {A} (P : request -> Prop) (func : M A)
    (mx d b : Z) (classes : list exn_class) (k : nat) :
  emits P func ->
  forall retries last, emits P (retry_loop func mx d b classes k retries last).
Proof.
  intros Hf. induction k as [|k IH]; intros retries last.
  - destruct last; [apply emits_raise | apply emits_ret].
  - cbn [retry_loop]. apply emits_try_except.
    + apply emits_bind; [exact Hf | intros a; apply emits_ret].
    + intros e. cbv zeta. destruct (mx <=? retries + 1); [apply emits_raise|].
      apply emits_bind; [apply emits_sleep | intros _; apply IH].
Qed.

Lemma emits_retry {A} (P : request -> Prop) (func : M A)
    (mx d b : Z) (classes : list exn_class) :
  emits P func -> emits P (retry_with_backoff func mx d b classes).
Proof. intros Hf. apply emits_retry_loop, Hf. Qed.

Lemma emits_with_retry {A} (P : request -> Prop) (query : M A) :
  emits P query -> emits P (with_retry query).
Proof. apply emits_retry. Qed.

Lemma emits_data_of (P : request -> Prop) (r : option response) :
  emits P (data_of r).
Proof. destruct r; [apply emits_ret | apply emits_raise]. Qed.

Lemma emits_for_each {A S} (P : request -> Prop) (body : A -> S -> M S)
    (l : list A) :
  (forall x s, emits P (body x s)) -> forall s, emits P (for_each body l s).
Proof.
  intros Hb. induction l as [|x l IH]; intros s; simpl.
  - apply emits_ret.
  - apply emits_bind; [apply Hb | exact IH].
Qed.

Lemma emits_guarded {A} (P : request -> Prop) (op : M A) (fallback : A) :
  emits P op -> emits P (guarded op fallback).
Proof.
  intros H. apply emits_try_except; [exact H | intros; apply emits_ret].
Qed.

Create HintDb emits.
#[local] Hint Resolve emits_ret emits_raise emits_lift emits_now emits_sleep
  emits_data_of : emits.

(** One structural step of an [emits] goal; the side condition of a request
    is left to [side]. *)
Ltac emits_step side :=
  lazymatch goal with
  | |- emits _ (bind (lift _) _) => apply emits_bind_lift; intros ? ?
  | |- emits _ (bind _ _) => apply emits_bind; [| intros ?]
  | |- emits _ (try_except _ _ _) => apply emits_try_except; [| intros ?]
  | |- emits _ (guarded _ _) => apply emits_guarded
  | |- emits _ (with_retry _) => apply emits_with_retry
  | |- emits _ (retry_with_backoff _ _ _ _ _) => apply emits_retry
  | |- emits _ (execute _) => apply emits_execute; side
  | |- emits _ (for_each _ _ _) => apply emits_for_each; intros ? ?
  | |- emits _ (if ?b then _ else _) => destruct b
  | |- emits _ (match ?x with _ => _ end) => destruct x
  | |- emits _ _ => solve [eauto with emits]
  end.

Ltac emits_auto side := repeat emits_step side.

(** ** The requests of the engine *)

Section Reads.

(** Whatever a computation may send, it may read. *)
Variable P : request -> Prop.
Hypothesis P_reads : forall r, read_only r -> P r.

Ltac reads_side := apply P_reads; reflexivity.
Ltac emits_reads := emits_auto reads_side.

Lemma emits_send_email (to : value) (subject : string) (body : mail_body) :
  emits P (send_email to subject body).
Proof. unfold send_email. emits_reads. Qed.

Lemma emits_is_3rd : emits P is_3rd_of_month.
Proof. unfold is_3rd_of_month. emits_reads. Qed.

Lemma emits_is_22nd : emits P is_22nd_of_month.
Proof. unfold is_22nd_of_month. emits_reads. Qed.

Lemma emits_is_28th : emits P is_28th_of_month.
Proof. unfold is_28th_of_month. emits_reads. Qed.

Lemma emits_check_loans_table : emits P check_loans_table.
Proof. unfold check_loans_table. emits_reads. Qed.

Lemma emits_log_client v : emits P (log_client v).
Proof. unfold log_client, get_client_names. emits_reads. Qed.

#[local] Hint Resolve emits_send_email emits_is_3rd emits_is_22nd
  emits_is_28th emits_check_loans_table emits_log_client : emits.

Lemma emits_after_update loan c : emits P (after_update loan c).
Proof. unfold after_update. emits_reads. Qed.

Lemma emits_payments_of v f n : emits P (payments_of v f n).
Proof. unfold payments_of, query_payments. emits_reads. Qed.

#[local] Hint Resolve emits_after_update emits_payments_of : emits.

Lemma emits_overdue_payment_test loan f n :
  emits P (overdue_payment_test loan f n).
Proof. unfold overdue_payment_test. emits_reads. Qed.

Lemma emits_penalty_payment_test loan f n :
  emits P (penalty_payment_test loan f n).
Proof. unfold penalty_payment_test. emits_reads. Qed.

Lemma emits_attach_licence loan : emits P (attach_licence loan).
Proof. unfold attach_licence, get_licence_info. emits_reads. Qed.

#[local] Hint Resolve emits_overdue_payment_test emits_penalty_payment_test
  emits_attach_licence : emits.

Lemma emits_attach_client loan acc : emits P (attach_client loan acc).
Proof. unfold attach_client, get_client_info. emits_reads. Qed.

#[local] Hint Resolve emits_attach_client : emits.

Lemma emits_get_loans_due_next_month : emits P get_loans_due_next_month.
Proof. unfold get_loans_due_next_month, query_loans. emits_reads. Qed.

Lemma emits_find_client loan c : emits P (find_client loan c).
Proof. unfold find_client, get_client_info. emits_reads. Qed.

Lemma emits_try_attach_licence loan : emits P (try_attach_licence loan).
Proof. unfold try_attach_licence. emits_reads. Qed.

Lemma emits_payments_this_month loan f n :
  emits P (payments_this_month loan f n).
Proof. unfold payments_this_month. emits_reads. Qed.

Lemma emits_deliver b client subject body c :
  emits P (deliver b client subject body c).
Proof. unfold deliver. emits_reads. Qed.

#[local] Hint Resolve emits_get_loans_due_next_month emits_find_client
  emits_try_attach_licence emits_payments_this_month emits_deliver : emits.

Lemma emits_notify_step b f n loan c : emits P (notify_step b f n loan c).
Proof. unfold notify_step. emits_reads. Qed.

Lemma emits_payment_reminder_step b loan c :
  emits P (payment_reminder_step b loan c).
Proof. unfold payment_reminder_step. emits_reads. Qed.

Lemma emits_due_date_reminder_step b f n loan c :
  emits P (due_date_reminder_step b f n loan c).
Proof. unfold due_date_reminder_step. emits_reads. Qed.

#[local] Hint Resolve emits_notify_step emits_payment_reminder_step
  emits_due_date_reminder_step : emits.

Lemma emits_notify_overdue_loans b : emits P (notify_overdue_loans b).
Proof. unfold notify_overdue_loans, query_overdue_for_notice. emits_reads. Qed.

Lemma emits_send_payment_reminders b : emits P (send_payment_reminders b).
Proof. unfold send_payment_reminders. emits_reads. Qed.

Lemma emits_send_due_date_reminders b : emits P (send_due_date_reminders b).
Proof. unfold send_due_date_reminders, query_active_loans. emits_reads. Qed.

Lemma emits_send_admin_summary : emits P send_admin_summary.
Proof. unfold send_admin_summary. emits_reads. Qed.

Lemma emits_main_step t b loan n : emits P (main_step t b loan n).
Proof. unfold main_step. emits_reads. Qed.

End Reads.

Lemma reads_overdue r : read_only r -> overdue_request r.
Proof. intros H. left. exact H. Qed.

Lemma reads_penalty r : read_only r -> penalty_request r.
Proof. intros H. left. exact H. Qed.

Lemma reads_engine r : read_only r -> engine_request r.
Proof. intros H. left. exact H. Qed.

Lemma reads_reads r : read_only r -> read_only r.
Proof. auto. Qed.

#[local] Hint Resolve reads_overdue reads_penalty reads_engine reads_reads
  : emits.
#[local] Hint Resolve emits_send_email emits_is_3rd emits_is_22nd
  emits_is_28th emits_check_loans_table emits_log_client emits_after_update
  emits_payments_of emits_overdue_payment_test emits_penalty_payment_test
  emits_attach_licence emits_attach_client emits_get_loans_due_next_month
  emits_find_client emits_try_attach_licence emits_payments_this_month
  emits_deliver emits_notify_step emits_payment_reminder_step
  emits_due_date_reminder_step emits_notify_overdue_loans
  emits_send_payment_reminders emits_send_due_date_reminders
  emits_send_admin_summary emits_main_step : emits.

Lemma emits_overdue_step f n loan c :
  emits overdue_request (overdue_step f n loan c).
Proof.
  unfold overdue_step, write_and_count.
  emits_auto ltac:(right; eexists; reflexivity).
Qed.
#[local] Hint Resolve emits_overdue_step : emits.

Lemma emits_update_overdue_loans : emits overdue_request update_overdue_loans.
Proof.
  unfold update_overdue_loans, query_overdue_loans.
  emits_auto ltac:(left; reflexivity).
Qed.

Lemma emits_penalty_step f n loan c :
  emits penalty_request (penalty_step f n loan c).
Proof.
  unfold penalty_step, write_and_count.
  emits_auto ltac:(right; do 3 eexists; eauto).
Qed.
#[local] Hint Resolve emits_penalty_step : emits.

Lemma emits_apply_penalties b :
  emits penalty_request (apply_penalties_to_overdue_loans b).
Proof.
  unfold apply_penalties_to_overdue_loans, query_overdue_for_penalties.
  emits_auto ltac:(left; reflexivity).
Qed.

Lemma overdue_engine r : overdue_request r -> engine_request r.
Proof. unfold overdue_request, engine_request. tauto. Qed.

Lemma penalty_engine r : penalty_request r -> engine_request r.
Proof. unfold penalty_request, engine_request. tauto. Qed.

Lemma emits_main t b a : emits engine_request (main t b a).
Proof.
  pose proof (emits_weaken _ _ _ overdue_engine emits_update_overdue_loans).
  pose proof (fun b =>
    emits_weaken _ _ _ penalty_engine (emits_apply_penalties b)).
  unfold main.
  emits_auto ltac:(left; reflexivity).
Qed.

(** ** Evaluating retried calls *)

Lemma with_retry_reply (req : request) (w : world) (r : response)
    (rest : list outcome) :
  script w = Reply r :: rest ->
  with_retry (execute req) w =
    (Ok (Some r), mk_world (clock w) rest (req :: sent w) (slept w)).
Proof.
  intros H. unfold with_retry, retry_with_backoff.
  change (Z.to_nat 3) with 3%nat. rewrite retry_loop_step.
  unfold execute. rewrite H. reflexivity.
Qed.

Lemma with_retry_fails (req : request) (w : world) (e1 e2 e3 : exn)
    (rest : list outcome) :
  script w = Fail e1 :: Fail e2 :: Fail e3 :: rest ->
  with_retry (execute req) w =
    (Raise e3,
     mk_world (clock w) rest (req :: req :: req :: sent w)
       (2 :: 1 :: slept w)).
Proof.
  intros H. unfold with_retry, retry_with_backoff.
  change (Z.to_nat 3) with 3%nat.
  rewrite retry_loop_step. unfold execute at 1. rewrite H. simpl.
  rewrite retry_loop_step. unfold execute at 1. simpl.
  rewrite retry_loop_step. unfold execute at 1. simpl.
  reflexivity.
Qed.

Lemma caught_by_Exception (e : exn) : caught_by [Exception] e = true.
Proof. reflexivity. Qed.

(** ** No exception leaves a guarded computation *)

Lemma never_raises_try_except {A} (m : M A) (h : exn -> M A) :
  (forall e, never_raises (h e)) -> never_raises (try_except m [Exception] h).
Proof.
  intros Hh w. unfold try_except.
  destruct (m w) as [[a|e] w']; simpl.
  - eauto.
  - apply Hh.
Qed.

Lemma never_raises_ret {A} (a : A) : never_raises (ret a).
Proof. intros w. exists a. reflexivity. Qed.

(** ** Dates *)

Lemma monthrange_bounds (y m last : Z) :
  monthrange y m = Some last -> 28 <= last <= 31.
Proof.
  unfold monthrange. intros H.
  destruct ((1 <=? m) && (m <=? 12)); [|discriminate].
  destruct (m =? 2).
  - destruct (isleap y); inversion H; lia.
  - destruct ((m =? 4) || (m =? 6) || (m =? 9) || (m =? 11));
      inversion H; lia.
Qed.

Lemma valid_date_inv (y m d : Z) :
  valid_date y m d = true ->
  exists last, monthrange y m = Some last /\ 1 <= y <= 9999 /\ 1 <= d <= last.
Proof.
  unfold valid_date. intros H.
  destruct (monthrange y m) as [last|]; [|rewrite andb_false_r in H; discriminate].
  exists last. split; [reflexivity|]. lia.
Qed.


Lemma parse_date_str (s : string) (t : datetime) :
  fromisoformat (replace_Z s) = Some t -> parse_date (VStr s) = Ok t.
Proof. intros H. unfold parse_date. rewrite H. reflexivity. Qed.

Lemma getitem_some (d : dict) (key : string) (v : value) :
  d !! key = Some v -> getitem d key = Ok v.
Proof. intros H. unfold getitem. rewrite H. reflexivity. Qed.


(** Peeling the binds of a pure computation that returned. *)
Ltac rbind_inv H :=
  repeat
    match type of H with
    | rbind ?r _ = Ok _ =>
        let E := fresh "E" in
        destruct r eqn:E; cbn [rbind] in H; [|discriminate H]
    end.

(** ** The payment schedule *)

Lemma next_payment_month_spec (t : datetime) :
  1 <= day t -> 1 <= fst (next_ym (year t, month t)) <= 9999 ->
  next_payment_month t =
    let ym := next_ym (year t, month t) in
    if lacks_day ym (day t) then Raise ValueError
    else
      Ok (mk_datetime (fst ym) (snd ym) (day t) (hour t) (minute t)
            (second t) (microsecond t) (tzoffset t)).
Proof.
  intros Hd Hy. unfold next_payment_month, replace_ymd, next_ym in *.
  cbn [fst snd] in *. cbv zeta. unfold lacks_day, valid_date.
  destruct (month t <? 12); cbn [fst snd] in *.
  - destruct (monthrange (year t) (month t + 1)) as [last|].
    + destruct (Z.ltb_spec last (day t)).
      * replace (day t <=? last) with false by lia.
        rewrite !andb_false_r. reflexivity.
      * replace ((1 <=? year t) && (year t <=? 9999) &&
                 ((1 <=? day t) && (day t <=? last))) with true by lia.
        reflexivity.
    + rewrite andb_false_r. reflexivity.
  - destruct (monthrange (year t + 1) 1) as [last|].
    + destruct (Z.ltb_spec last (day t)).
      * replace (day t <=? last) with false by lia.
        rewrite !andb_false_r. reflexivity.
      * replace ((1 <=? year t + 1) && (year t + 1 <=? 9999) &&
                 ((1 <=? day t) && (day t <=? last))) with true by lia.
        reflexivity.
    + rewrite andb_false_r. reflexivity.
Qed.

Lemma next_ym_year (y m : Z) :
  y <= fst (next_ym (y, m)) <= y + 1.
Proof. unfold next_ym. cbn [fst snd]. destruct (m <? 12); cbn [fst]; lia. Qed.

Lemma next_ym_twice_year (y m : Z) :
  1 <= m ->
  y <= fst (next_ym (next_ym (y, m))) <= y + 1 /\
  y <= fst (next_ym (next_ym (next_ym (y, m)))) <= y + 1.
Proof.
  intros Hm. unfold next_ym. cbn [fst snd].
  destruct (Z.ltb_spec m 12); cbn [fst snd].
  - destruct (Z.ltb_spec (m + 1) 12); cbn [fst snd].
    + destruct (Z.ltb_spec (m + 1 + 1) 12); cbn [fst snd]; lia.
    + replace (1 <? 12) with true by reflexivity. cbn [fst snd]. lia.
  - replace (1 <? 12) with true by reflexivity. cbn [fst snd].
    replace (1 + 1 <? 12) with true by reflexivity. cbn [fst snd]. lia.
Qed.

(** The schedule of a loan breaks exactly when the day of its start date is
    missing from one of the three months that follow. *)
Lemma payment_schedule_spec (loan : dict) (s : string) (t : datetime) :
  loan !! "start_date" = Some (VStr s) ->
  fromisoformat (replace_Z s) = Some t ->
  valid_datetime t = true ->
  year t < 9999 ->
  if day_missing_ahead t then payment_schedule loan = Raise ValueError
  else exists schedule, payment_schedule loan = Ok schedule.
Proof.
  intros Hl Hp Hv Hy. apply valid_date_inv in Hv as (last & Hm & Hy' & Hd).
  assert (Hmonth : 1 <= month t).
  { unfold monthrange in Hm.
    destruct (Z.leb_spec 1 (month t)); [lia | discriminate]. }
  pose proof (next_ym_year (year t) (month t)) as H1.
  pose proof (next_ym_twice_year (year t) (month t) Hmonth) as [H2 H3].
  unfold payment_schedule. rewrite (getitem_some _ _ _ Hl). cbn [rbind].
  rewrite (parse_date_str _ _ Hp). cbn [rbind].
  unfold day_missing_ahead. cbv zeta.
  rewrite next_payment_month_spec by lia. cbv zeta.
  destruct (lacks_day (next_ym (year t, month t)) (day t)); [reflexivity|].
  cbn [rbind orb].
  rewrite next_payment_month_spec; cbn [year month day fst snd];
    rewrite <- ?surjective_pairing; try lia.
  cbv zeta.
  destruct (lacks_day (next_ym (next_ym (year t, month t))) (day t));
    [reflexivity|].
  cbn [rbind orb].
  rewrite next_payment_month_spec; cbn [year month day fst snd];
    rewrite <- ?surjective_pairing; try lia.
  cbv zeta.
  destruct (lacks_day (next_ym (next_ym (next_ym (year t, month t)))) (day t));
    [reflexivity|].
  cbn [rbind]. eexists. reflexivity.
Qed.

Lemma day_31_missing_ahead (t : datetime) :
  valid_datetime t = true -> day t = 31 -> day_missing_ahead t = true.
Proof.
  intros Hv Hd. apply valid_date_inv in Hv as (last & Hm & _ & _).
  unfold day_missing_ahead, lacks_day, next_ym. rewrite Hd. cbn [fst snd].
  unfold monthrange in Hm.
  destruct (Z.leb_spec 1 (month t)); [|discriminate].
  destruct (Z.leb_spec (month t) 12); [|discriminate].
  clear Hm.
  assert (month t = 1 \/ month t = 2 \/ month t = 3 \/ month t = 4 \/
          month t = 5 \/ month t = 6 \/ month t = 7 \/ month t = 8 \/
          month t = 9 \/ month t = 10 \/ month t = 11 \/ month t = 12)
    as Hcases by lia.
  unfold monthrange.
  repeat destruct Hcases as [-> | Hcases]; try rewrite Hcases; cbn;
    repeat match goal with |- context [isleap ?y] => destruct (isleap y) end;
    reflexivity.
Qed.

(** ** The page of a loan *)

(** A loan whose page cannot be rendered is passed over by [main]: nothing
    is sent and the count stays. *)
Lemma main_step_unrendered (test_mode send_emails : bool) (loan : dict)
    (n : Z) (w : world) :
  (forall q page, create_invoice_email loan q <> Ok page) ->
  main_step test_mode send_emails loan n w = (Ok n, w).
Proof.
  intros Hraise. unfold main_step, try_except, bind, lift, ret.
  destruct (negb (truthy (get loan "client" VNone))); [reflexivity|].
  destruct (getitem loan "client") as [client|e]; [|reflexivity].
  destruct (negb (has_fields loan _)); [reflexivity|].
  destruct (classify test_mode loan client) as [kind|e]; [|reflexivity].
  destruct (create_invoice_email loan kind.1.1) as [page|e] eqn:E.
  { exfalso. exact (Hraise _ _ E). }
  cbn [rcatch rbind caught_by existsb isinstance orb].
  destruct (getitem loan "invoice_number"); reflexivity.
Qed.

Lemma create_invoice_email_schedule (loan : dict) (q : bool)
    (page : invoice_email) :
  create_invoice_email loan q = Ok page ->
  payment_schedule loan =
    Ok (first_payment_month page, second_payment_month page,
        third_payment_month page).
Proof.
  intros H. unfold create_invoice_email in H. rbind_inv H.
  inversion H; subst; clear H. cbn.
  match goal with a : (datetime * datetime * datetime)%type |- _ =>
    destruct a as [[? ?] ?] end.
  reflexivity.
Qed.


(** ** The amounts of the page *)

Lemma fgt_zero_not_eq (f : float) :
  fgt f 0 = true -> PrimFloat.eqb f 0 = false.
Proof.
  unfold fgt. rewrite FloatAxioms.ltb_spec, FloatAxioms.eqb_spec.
  change (Prim2SF 0) with (S754_zero false).
  destruct (Prim2SF f) as [s|s| |s m e]; try destruct s; cbn; congruence.
Qed.

Lemma gt_zero_not_eq_zero (v : value) :
  gt_zero v = Ok true -> eq_zero v = false.
Proof.
  destruct v; cbn; try discriminate.
  - intros H. inversion H. lia.
  - intros H. inversion H. apply fgt_zero_not_eq. assumption.
Qed.

Lemma getitem_inv (d : dict) (key : string) (v : value) :
  getitem d key = Ok v -> d !! key = Some v.
Proof. unfold getitem. destruct (d !! key); congruence. Qed.

(** loan_templates.py 30-48, case by case. *)
Lemma payment_amounts_spec (loan : dict) (amounts : float * float) :
  payment_amounts loan = Ok amounts ->
  exists v loan_amount,
    loan !! "loan_amount" = Some v /\ py_float v = Ok loan_amount /\
    let base := py_round2 (PrimFloat.div loan_amount 3) in
    let penalties := get loan "penalties" (VInt 0) in
    fst amounts = base /\
    (gt_zero penalties = Ok false -> snd amounts = py_round2 base) /\
    (gt_zero penalties = Ok true ->
       exists missed,
         mul_float penalties base = Ok missed /\
         snd amounts =
           py_round2
             (PrimFloat.add (PrimFloat.add base missed)
                (PrimFloat.mul missed one_tenth))).
Proof.
  intros H. unfold payment_amounts in H. rbind_inv H.
  inversion H; subst; clear H. apply getitem_inv in E.
  do 2 eexists. split; [exact E|]. split; [exact E0|]. cbv zeta. cbn [fst snd].
  split; [reflexivity|]. rewrite E1.
  destruct a1 as [|]; cbn [rbind] in E2.
  - split; [discriminate|]. intros _.
    destruct (mul_float _ _) as [missed|] eqn:Em; [|discriminate].
    cbn [rbind] in E2. inversion E2. eauto.
  - split; [|discriminate]. intros _. inversion E2. reflexivity.
Qed.

(** ** The two payment tests *)

Lemma sums_agree (payments : list dict) :
  forallb has_date payments = true ->
  forall total dates,
    res_map fst (sum_payments_dated payments total dates) =
    sum_payments payments total.
Proof.
  induction payments as [|payment rest IH]; intros Hd total dates.
  - reflexivity.
  - cbn [forallb] in Hd. apply andb_prop in Hd as [Hp Hrest].
    cbn [sum_payments_dated sum_payments].
    unfold has_date in Hp.
    destruct (payment !! "payment_date") as [[| | |s|]|] eqn:Hdate;
      try discriminate.
    rewrite (getitem_some _ _ _ Hdate).
    destruct (getitem payment "amount") as [v|e]; cbn [rbind rcatch].
    + destruct (py_float v) as [amount|e]; cbn [rbind rcatch].
      * unfold parse_date.
        destruct (fromisoformat (replace_Z s)); cbn [rbind rcatch caught_by
          existsb isinstance orb fst snd]; apply IH, Hrest.
      * destruct (caught_by _ e); cbn [rbind fst snd res_map];
          [apply IH, Hrest | reflexivity].
    + destruct (caught_by _ e); cbn [rbind fst snd res_map];
          [apply IH, Hrest | reflexivity].
Qed.

(** An answer of a retried call was in the script, or the script had run
    out. *)
Lemma retry_loop_answer (req : request) (mx d b : Z)
    (classes : list exn_class) (k : nat) :
  forall retries last w r w',
    retry_loop (execute req) mx d b classes k retries last w
      = (Ok (Some r), w') ->
    In (Reply r) (take k (script w)) \/ r = empty_response.
Proof.
  induction k as [|k IH]; intros retries last w r w' H.
  - cbn in H. destruct last; discriminate.
  - rewrite retry_loop_step in H. unfold execute in H.
    destruct (script w) as [|[e|r0] rest] eqn:Hs.
    + inversion H. auto.
    + destruct (caught_by classes e); [|discriminate].
      destruct (mx <=? retries + 1); [discriminate|].
      destruct (d * b ^ (retries + 1 - 1) <? 0); [discriminate|].
      apply IH in H. cbn [script] in H.
      destruct H as [H|H]; [left; right; exact H | right; exact H].
    + inversion H. subst. left. left. reflexivity.
Qed.

Lemma payments_of_dated (loan_id : value) (f n : datetime) (w w' : world)
    (r : response) :
  dated_script w = true ->
  payments_of loan_id f n w = (Ok (Some (Some r)), w') ->
  forallb has_date (data r) = true.
Proof.
  intros Hd H. unfold payments_of, try_except, bind, with_retry,
    retry_with_backoff in H.
  change (Z.to_nat 3) with 3%nat in H.
  destruct (retry_loop _ _ _ _ _ 3 _ _ w) as [[[r0|]|e] w0] eqn:Hr;
    cbn in H; try discriminate.
  inversion H; subst.
  apply retry_loop_answer in Hr as [Hin| ->]; [|reflexivity].
  unfold dated_script in Hd. rewrite forallb_forall in Hd.
  apply (Hd _ Hin).
Qed.

(** ** Sending a write *)

Lemma after_update_run (loan : dict) (c : counters) (w : world) :
  exists c' w' reads,
    after_update loan c w = (Ok c', w') /\
    done_count c' = done_count c /\
    sent w' = reads ++ sent w /\ Forall read_only reads.
Proof.
  destruct (emits_after_update read_only reads_reads loan c w)
    as (_ & reads & Hs & Hr).
  unfold after_update, try_except, bind, lift, ret in *.
  destruct (getitem loan "invoice_number") as [inv|e]; cbn in *.
  2:{ do 3 eexists. split; [reflexivity|]. eauto. }
  destruct (getitem loan "client_id") as [cid|e]; cbn in *.
  2:{ do 3 eexists. split; [reflexivity|]. eauto. }
  destruct (log_client cid w) as [[[]|e] w']; cbn in *;
    do 3 eexists; (split; [reflexivity|]); eauto.
Qed.

(** An update goes out at least once and at most three times; what follows
    it only reads; the count goes up when the first answer carries the
    updated row. *)
Lemma write_and_count_run (update : request) (loan : dict) (c : counters)
    (w : world) :
  exists c' w' k reads,
    try_except (write_and_count update loan c) [Exception]
      (fun _ => ret (count_error c)) w = (Ok c', w') /\
    (1 <= k <= 3)%nat /\
    sent w' = reads ++ repeat update k ++ sent w /\
    Forall read_only reads /\
    (forall updated rest,
       script w = Reply updated :: rest -> data updated <> [] ->
       k = 1%nat /\ done_count c' = done_count c + 1).
Proof.
  destruct (retry_execute_spec update 1 [Exception] w ltac:(lia))
    as (k & r & w1 & Hrun & Hk & Hsent & _ & _ & _ & Hlast).
  fold (with_retry (execute update)) in Hrun.
  assert (Hfirst : forall updated rest,
            script w = Reply updated :: rest ->
            k = 1%nat /\ r = Ok (Some updated)).
  { intros updated rest Hs. rewrite (with_retry_reply _ _ _ _ Hs) in Hrun.
    inversion Hrun; subst. cbn [sent] in Hsent.
    split; [|reflexivity].
    apply (f_equal (@length request)) in Hsent.
    rewrite length_app, repeat_length in Hsent. cbn in Hsent. lia. }
  unfold write_and_count, try_except, bind. rewrite Hrun.
  destruct r as [[resp|]|e]; cbn [data_of ret raise caught_by existsb
    isinstance orb].
  - destruct (data resp) as [|row rows] eqn:Hrows.
    + exists c, w1, k, [].
      split; [reflexivity|]. split; [lia|]. split; [exact Hsent|].
      split; [constructor|].
      intros updated rest Hs Hne. destruct (Hfirst _ _ Hs) as [_ Hr].
      inversion Hr; subst. congruence.
    + destruct (after_update_run loan (count_done c) w1)
        as (c' & w' & reads & Ha & Hd & Hs' & Hr').
      rewrite Ha. exists c', w', k, reads.
      split; [reflexivity|]. split; [lia|].
      split; [rewrite Hs', Hsent; reflexivity|].
      split; [exact Hr'|].
      intros updated rest Hs Hne. destruct (Hfirst _ _ Hs) as [-> _].
      split; [reflexivity|]. rewrite Hd. reflexivity.
  - exists (count_error c), w1, k, [].
    split; [reflexivity|]. split; [lia|]. split; [exact Hsent|].
    split; [constructor|].
    intros updated rest Hs Hne. destruct (Hfirst _ _ Hs) as [_ Hr].
    discriminate.
  - exists (count_error c), w1, k, [].
    split; [reflexivity|]. split; [lia|]. split; [exact Hsent|].
    split; [constructor|].
    intros updated rest Hs Hne. destruct (Hfirst _ _ Hs) as [_ Hr].
    discriminate.
Qed.

(** ** Running the payment test and the loop bodies *)

Lemma expected_payment_of_ok (loan : dict) (v : value) (loan_amount : float) :
  loan !! "loan_amount" = Some v -> py_float v = Ok loan_amount ->
  expected_payment_of loan =
    Ok (Some (py_round2 (PrimFloat.div loan_amount 3))).
Proof.
  intros Hv Hf. unfold expected_payment_of.
  rewrite (getitem_some _ _ _ Hv). cbn [rbind]. rewrite Hf. reflexivity.
Qed.

Lemma payments_of_run (loan_id : value) (f n : datetime) (w w1 : world)
    (r : option response) :
  with_retry (execute (query_payments loan_id f n)) w = (Ok r, w1) ->
  payments_of loan_id f n w = (Ok (Some r), w1).
Proof.
  intros H. unfold payments_of, try_except, bind. rewrite H. reflexivity.
Qed.


Lemma penalty_payment_test_run (loan : dict) (f n : datetime) (w w1 : world)
    (loan_id invoice v : value) (loan_amount total : float)
    (payment_response : response) :
  loan !! "id" = Some loan_id ->
  loan !! "invoice_number" = Some invoice ->
  loan !! "loan_amount" = Some v -> py_float v = Ok loan_amount ->
  with_retry (execute (query_payments loan_id f n)) w
    = (Ok (Some payment_response), w1) ->
  forallb has_date (data payment_response) = true ->
  sum_payments (data payment_response) 0 = Ok total ->
  exists dates,
    penalty_payment_test loan f n w =
      (Ok (if fge total (py_round2 (PrimFloat.div loan_amount 3))
           then Sufficient
           else Insufficient total (py_round2 (PrimFloat.div loan_amount 3)),
           dates),
       w1).
Proof.
  intros Hid Hinv Hv Hf Hq Hdates Hsum.
  pose proof (sums_agree _ Hdates 0%float []) as Hagree.
  rewrite Hsum in Hagree.
  destruct (sum_payments_dated (data payment_response) 0 [])
    as [[total' dates]|e] eqn:Hd; [|discriminate].
  cbn in Hagree. inversion Hagree; subst total'.
  exists dates. unfold penalty_payment_test, bind, lift.
  rewrite (expected_payment_of_ok _ _ _ Hv Hf).
  rewrite (getitem_some _ _ _ Hid).
  rewrite (payments_of_run _ _ _ _ _ _ Hq). cbn [data_of ret].
  rewrite Hd. cbn [fst snd]. rewrite (getitem_some _ _ _ Hinv).
  destruct (fge total _); reflexivity.
Qed.

(** What [update_overdue_loans] does once its query is answered: the loop
    over the rows, under the handler of the function. *)
Lemma update_overdue_loans_loop (w : world) (r : response)
    (rest : list outcome) :
  script w = Reply r :: rest ->
  update_overdue_loans w =
    guarded
      (let* c :=
         for_each
           (overdue_step (first_of_month (year (clock w)) (month (clock w)))
              (clock w))
           (data r) no_counts in
       ret (done_count c))
      0
      (mk_world (clock w) rest (query_overdue_loans (clock w) :: sent w)
         (slept w)).
Proof.
  intros Hs. unfold update_overdue_loans, guarded, try_except at 1 3.
  unfold bind at 1. unfold now at 1. unfold bind at 1.
  unfold try_except at 1. unfold bind at 1.
  rewrite (with_retry_reply _ _ _ _ Hs). reflexivity.
Qed.

(** ** Applying a penalty *)

Lemma total_penalties_of_ok (loan : dict) (v b : value)
    (loan_amount remaining current : float) :
  loan !! "loan_amount" = Some v -> py_float v = Ok loan_amount ->
  loan !! "remaining_balance" = Some b -> py_float b = Ok remaining ->
  py_float (get loan "penalties" (VInt 0)) = Ok current ->
  total_penalties_of loan =
    Ok (PrimFloat.add current (new_penalty_of loan_amount)).
Proof.
  intros Hv Hf Hb Hr Hc. unfold total_penalties_of.
  rewrite (getitem_some _ _ _ Hv). cbn [rbind]. rewrite Hf. cbn [rbind].
  rewrite (getitem_some _ _ _ Hb). cbn [rbind]. rewrite Hr. cbn [rbind].
  rewrite Hc. reflexivity.
Qed.

Lemma penalty_step_run (f n : datetime) (loan : dict) (c : counters)
    (w w1 : world) (loan_id invoice v b : value) (due : datetime)
    (loan_amount remaining current total : float)
    (payment_response : response) :
  has_fields loan
    ["id"; "payment_due_date"; "loan_amount"; "remaining_balance"] = true ->
  loan !! "id" = Some loan_id ->
  loan !! "invoice_number" = Some invoice ->
  due_date_of loan = Ok (Some due) ->
  loan !! "loan_amount" = Some v -> py_float v = Ok loan_amount ->
  loan !! "remaining_balance" = Some b -> py_float b = Ok remaining ->
  py_float (get loan "penalties" (VInt 0)) = Ok current ->
  with_retry (execute (query_payments loan_id f n)) w
    = (Ok (Some payment_response), w1) ->
  forallb has_date (data payment_response) = true ->
  sum_payments (data payment_response) 0 = Ok total ->
  penalty_step f n loan c w =
    if fge total (py_round2 (PrimFloat.div loan_amount 3)) then
      (Ok (count_skipped c), w1)
    else
      try_except
        (write_and_count
           (update_loan_penalty loan_id
              (PrimFloat.add current (new_penalty_of loan_amount)))
           loan c)
        [Exception] (fun _ => ret (count_error c)) w1.
Proof.
  intros Hfields Hid Hinv Hdue Hv Hf Hb Hr Hc Hq Hdates Hsum.
  destruct (penalty_payment_test_run _ _ _ _ _ _ _ _ _ _ _
              Hid Hinv Hv Hf Hq Hdates Hsum) as (dates & Htest).
  unfold penalty_step. rewrite Hfields. cbn [negb].
  unfold try_except at 1. unfold bind at 1. unfold lift at 1.
  rewrite Hdue. unfold bind at 1. rewrite Htest. cbn [fst].
  destruct (fge total _); [reflexivity|].
  assert (Hinner :
    try_except
      (let* total_penalties := lift (total_penalties_of loan) in
       let* loan_id0 := lift (getitem loan "id") in
       write_and_count (update_loan_penalty loan_id0 total_penalties) loan c)
      [Exception] (fun _ => ret (count_error c)) w1 =
    try_except
      (write_and_count
         (update_loan_penalty loan_id
            (PrimFloat.add current (new_penalty_of loan_amount))) loan c)
      [Exception] (fun _ => ret (count_error c)) w1).
  { unfold try_except, bind at 1 2, lift.
    rewrite (total_penalties_of_ok _ _ _ _ _ _ Hv Hf Hb Hr Hc).
    rewrite (getitem_some _ _ _ Hid). reflexivity. }
  rewrite Hinner.
  destruct (write_and_count_run
              (update_loan_penalty loan_id
                 (PrimFloat.add current (new_penalty_of loan_amount)))
              loan c w1) as (c' & w' & _ & _ & Hrun & _).
  rewrite Hrun. reflexivity.
Qed.

(** The row after a write of [penalties] differs in that key only. *)
Lemma penalties_row_other (loan : dict) (p : float) (key : string) :
  key <> "penalties" ->
  updated_row [("penalties", VFloat p)] loan !! key = loan !! key.
Proof.
  intros Hne. cbn [updated_row foldr fst snd].
  apply lookup_insert_ne. congruence.
Qed.

Lemma penalties_row_get (loan : dict) (p : float) :
  get (updated_row [("penalties", VFloat p)] loan) "penalties" (VInt 0)
    = VFloat p.
Proof.
  unfold get. cbn [updated_row foldr fst snd].
  rewrite lookup_insert_eq. reflexivity.
Qed.

Lemma present_row_other (loan : dict) (p : float) (key : string) :
  key <> "penalties" ->
  present (updated_row [("penalties", VFloat p)] loan) key = present loan key.
Proof.
  intros Hne. unfold present. rewrite penalties_row_other by exact Hne.
  reflexivity.
Qed.

(** The gate of apply_penalties_to_overdue_loans: off the 3rd and without
    the bypass flag nothing is sent. *)
Lemma apply_penalties_gate (w : world) :
  day (clock w) <> 3 ->
  apply_penalties_to_overdue_loans false w = (Ok (0, 0), w).
Proof.
  intros Hd. unfold apply_penalties_to_overdue_loans, is_3rd_of_month,
    try_except, bind, now, ret.
  replace (day (clock w) =? 3) with false by lia. reflexivity.
Qed.

(** What apply_penalties_to_overdue_loans does, on the 3rd or with the
    bypass flag, once its query is answered with rows: the loop over them. *)
Lemma apply_penalties_loop (bypass : bool) (w : world) (r : response)
    (rest : list outcome) :
  bypass = true \/ day (clock w) = 3 ->
  script w = Reply r :: rest -> data r <> [] ->
  apply_penalties_to_overdue_loans bypass w =
    guarded
      (let* c :=
         for_each
           (penalty_step (first_of_month (year (clock w)) (month (clock w)))
              (clock w))
           (data r) no_counts in
       ret (done_count c, skipped_count c))
      (0, 0)
      (mk_world (clock w) rest (query_overdue_for_penalties :: sent w)
         (slept w)).
Proof.
  intros Hgate Hs Hne.
  assert (Hthird :
    (if bypass then ret true else is_3rd_of_month) w = (Ok true, w)).
  { destruct Hgate as [-> | Hd]; [reflexivity|].
    destruct bypass; [reflexivity|].
    unfold is_3rd_of_month, bind, now, ret. rewrite Hd. reflexivity. }
  unfold apply_penalties_to_overdue_loans, guarded, try_except at 1 3.
  unfold bind at 1. rewrite Hthird. cbn [negb].
  unfold bind at 1. unfold now at 1. unfold bind at 1.
  unfold try_except at 1. unfold bind at 1.
  rewrite (with_retry_reply _ _ _ _ Hs).
  destruct (data r) as [|row rows] eqn:Hrows; [congruence|].
  cbn [ret]. rewrite Hrows. reflexivity.
Qed.

(** ** Batch operations when the store is down *)

Section Down.

(** The store fails three times in a row. *)
Variable w : world.
Variables e1 e2 e3 : exn.
Variable rest : list outcome.
Hypothesis down : script w = Fail e1 :: Fail e2 :: Fail e3 :: rest.

Lemma update_overdue_loans_down : fst (update_overdue_loans w) = Ok 0.
Proof.
  unfold update_overdue_loans, try_except, bind, now.
  rewrite (with_retry_fails _ _ _ _ _ _ down). reflexivity.
Qed.

Lemma notify_overdue_loans_down b : fst (notify_overdue_loans b w) = Ok 0.
Proof.
  unfold notify_overdue_loans, try_except, bind, now.
  rewrite (with_retry_fails _ _ _ _ _ _ down). reflexivity.
Qed.

Lemma apply_penalties_down b :
  fst (apply_penalties_to_overdue_loans b w) = Ok (0, 0).
Proof.
  unfold apply_penalties_to_overdue_loans, is_3rd_of_month, try_except, bind,
    now, ret.
  destruct b; [|destruct (day (clock w) =? 3)]; cbn [negb];
    try reflexivity;
    rewrite (with_retry_fails _ _ _ _ _ _ down); reflexivity.
Qed.

Lemma get_loans_due_next_month_down :
  get_loans_due_next_month w =
    (Ok [], snd (get_loans_due_next_month w)).
Proof.
  unfold get_loans_due_next_month, try_except, bind, now, lift.
  destruct (last_day_of (next_month_start_of (clock w))); [|reflexivity].
  rewrite (with_retry_fails _ _ _ _ _ _ down). reflexivity.
Qed.

Lemma send_payment_reminders_down b :
  fst (send_payment_reminders b w) = Ok 0.
Proof.
  unfold send_payment_reminders, is_22nd_of_month, try_except, bind, now, ret.
  destruct (day (clock w) =? 22); cbn [negb]; [|reflexivity].
  rewrite get_loans_due_next_month_down. reflexivity.
Qed.

Lemma send_due_date_reminders_down b :
  fst (send_due_date_reminders b w) = Ok 0.
Proof.
  unfold send_due_date_reminders, is_28th_of_month, try_except, bind, now,
    ret, lift.
  destruct (day (clock w) =? 28); cbn [negb]; [|reflexivity].
  destruct (last_day_of (next_month_start_of (clock w))); [|reflexivity].
  rewrite (with_retry_fails _ _ _ _ _ _ down). reflexivity.
Qed.

End Down.

(** ** What a penalty write carries *)

Lemma total_penalties_of_inv (loan : dict) (p : float) :
  total_penalties_of loan = Ok p ->
  exists v loan_amount current,
    loan !! "loan_amount" = Some v /\ py_float v = Ok loan_amount /\
    py_float (get loan "penalties" (VInt 0)) = Ok current /\
    p = PrimFloat.add current
          (py_round2 (PrimFloat.mul loan_amount one_tenth)).
Proof.
  intros H. unfold total_penalties_of in H. rbind_inv H.
  inversion H; subst; clear H. apply getitem_inv in E.
  eauto 10.
Qed.

(** ** Statement or invoice *)

Lemma feq_zero_not_gt (f : float) :
  PrimFloat.eqb f 0 = true -> fgt f 0 = false.
Proof.
  unfold fgt. rewrite FloatAxioms.ltb_spec, FloatAxioms.eqb_spec.
  change (Prim2SF 0) with (S754_zero false).
  destruct (Prim2SF f) as [s|s| |s m e]; try destruct s; cbn; congruence.
Qed.

Lemma eq_zero_not_gt (v : value) :
  eq_zero v = true -> gt_zero v = Ok false.
Proof.
  destruct v; cbn; try discriminate.
  - intros H. f_equal. lia.
  - intros H. f_equal. apply feq_zero_not_gt, H.
Qed.

Lemma create_invoice_email_document_type (loan : dict) (q : bool)
    (page : invoice_email) :
  create_invoice_email loan q = Ok page ->
  document_type page = if q then "Statement" else "Invoice".
Proof.
  intros H. unfold create_invoice_email in H. rbind_inv H.
  inversion H; subst; clear H. reflexivity.
Qed.

(** The loop body of [main] on a loan that is classified and rendered. *)
Lemma main_step_run (test_mode send_emails : bool) (loan : dict)
    (client first_name last_name email : value) (kind : bool * string * string)
    (page : invoice_email) (n : Z) (w : world) :
  loan !! "client" = Some client -> truthy client = true ->
  has_fields loan ["invoice_number"; "loan_amount"; "remaining_balance"]
    = true ->
  classify test_mode loan client = Ok kind ->
  create_invoice_email loan (fst (fst kind)) = Ok page ->
  subscript client "first_name" = Ok first_name ->
  subscript client "last_name" = Ok last_name ->
  subscript client "email" = Ok email ->
  main_step test_mode send_emails loan n w =
    if send_emails then
      try_except
        (do send_email email (snd kind) (notification None page) then
         do send_email ADMIN_EMAIL ("COPY: " ++ snd kind)%string
              (notification None page) then
         do sleep 1 then
         ret (n + 1))
        [Exception] (fun _ => ret n) w
    else (Ok (n + 1), w).
Proof.
  intros Hc Ht Hfields Hk Hpage Hfn Hln Hem.
  unfold main_step. unfold get. rewrite Hc, Ht. cbn [negb].
  unfold try_except at 1. unfold bind at 1. unfold lift at 1.
  rewrite (getitem_some _ _ _ Hc). rewrite Hfields. cbn [negb].
  unfold bind at 1. unfold lift at 1. rewrite Hk.
  unfold bind at 1. unfold lift at 1. rewrite Hpage. cbn [rbind rcatch].
  unfold bind at 1. unfold lift at 1. rewrite Hfn.
  unfold bind at 1. unfold lift at 1. rewrite Hln.
  unfold bind at 1. unfold lift at 1. rewrite Hem.
  destruct send_emails; [|reflexivity].
  destruct (try_except _ _ _ w) as [[m|e] w'] eqn:Hrun; [reflexivity|].
  unfold try_except in Hrun.
  destruct (bind _ _ w) as [[m|e'] w'']; [discriminate|].
  cbn in Hrun. discriminate.
Qed.

(** ** The run of [main] up to its loop *)

Lemma safe_bind_run {A B} (m : M A) (k : A -> M B) (w : world) :
  safe m ->
  exists a w', clock w' = clock w /\ bind m k w = k a w'.
Proof.
  intros Hm. destruct (Hm w) as (a & w' & Hrun & Hc).
  exists a, w'. split; [exact Hc|]. unfold bind. rewrite Hrun. reflexivity.
Qed.

Lemma safe_of_emits {A} (P : request -> Prop) (m : M A) :
  emits P m -> never_raises m -> safe m.
Proof.
  intros He Hn w. destruct (Hn w) as (a & Ha). destruct (He w) as (Hc & _).
  destruct (m w) as [r w']; cbn in *; subst. eauto.
Qed.

Lemma safe_guarded {A} (P : request -> Prop) (op : M A) (fallback : A) :
  emits P op -> safe (guarded op fallback).
Proof.
  intros He. apply (safe_of_emits P).
  - apply emits_guarded, He.
  - apply never_raises_try_except. intros. apply never_raises_ret.
Qed.

Lemma safe_ret {A} (a : A) : safe (ret a).
Proof. intros w. exists a, w. auto. Qed.

Lemma safe_day_gate (test_mode : bool) (d : Z) :
  safe (if test_mode then ret true
        else let* today := now in ret (day today =? d)).
Proof. intros w. destruct test_mode; do 2 eexists; split; reflexivity. Qed.

Lemma safe_if {A} (b : bool) (m1 m2 : M A) :
  safe m1 -> safe m2 -> safe (if b then m1 else m2).
Proof. destruct b; auto. Qed.

Lemma safe_for_each {A S} (body : A -> S -> M S) (l : list A) :
  (forall x s, safe (body x s)) -> forall s, safe (for_each body l s).
Proof.
  intros Hb. induction l as [|x l IH]; intros s w; cbn [for_each].
  - exists s, w. auto.
  - destruct (safe_bind_run (body x s) (fun s' => for_each body l s') w
                (Hb x s)) as (s' & w' & Hc & ->).
    destruct (IH s' w') as (s'' & w'' & Hrun & Hc').
    exists s'', w''. split; [exact Hrun | congruence].
Qed.

Lemma safe_main_step t b loan n : safe (main_step t b loan n).
Proof.
  apply (safe_of_emits read_only).
  - apply emits_main_step, reads_reads.
  - apply never_raises_try_except. intros. apply never_raises_ret.
Qed.

Lemma safe_check_loans_table : safe check_loans_table.
Proof.
  apply (safe_of_emits read_only).
  - apply emits_check_loans_table, reads_reads.
  - apply never_raises_try_except. intros. apply never_raises_ret.
Qed.

(** One step of a run kept in [HX]: the first computation of the outermost
    bind is safe, by [H]; its value and world get names. *)
Ltac run_step HX H :=
  match type of HX with
  | context [bind ?m ?k ?w0] =>
      let a := fresh "a" in
      let w' := fresh "w" in
      let Hc := fresh "Hc" in
      let E := fresh "E" in
      destruct (safe_bind_run m k w0 H) as (a & w' & Hc & E);
      rewrite E in HX; clear E; cbv beta in HX
  end.

(** On the 22nd or in test mode, once the probe is answered, [main] gets to
    its loop: it fetches the loans due next month and runs its loop body on
    each of them. *)
Lemma main_reaches_loop (test_mode send_emails send_admin_summary_email : bool)
    (w : world) :
  test_mode = true \/ day (clock w) = 22 ->
  (forall e rest, script w <> Fail e :: rest) ->
  exists w1 loans w2 n w3,
    clock w1 = clock w /\
    guarded get_loans_due_next_month [] w1 = (Ok loans, w2) /\
    for_each (main_step test_mode send_emails) loans 0 w2 = (Ok n, w3) /\
    main test_mode send_emails send_admin_summary_email w =
      (if send_emails && send_admin_summary_email
       then guarded send_admin_summary tt else ret tt) w3.
Proof.
  intros Hgate Hprobe.
  remember (main test_mode send_emails send_admin_summary_email w) as X eqn:HX.
  unfold main in HX. unfold try_except at 1 in HX.
  assert (Hp : exists w0,
            try_except (do execute (SelectCount "loans") then ret tt)
              [Exception] (fun _ => raise ConnectionError) w = (Ok tt, w0) /\
            clock w0 = clock w).
  { unfold try_except, bind, execute.
    destruct (script w) as [|[e|r] rest] eqn:Hs.
    - eexists; split; reflexivity.
    - exfalso. exact (Hprobe _ _ eq_refl).
    - eexists; split; reflexivity. }
  destruct Hp as (w0 & Hp & Hc0).
  unfold bind at 1 in HX. rewrite Hp in HX.
  run_step HX (safe_guarded _ _ 0 emits_update_overdue_loans).
  run_step HX (safe_day_gate test_mode 3).
  run_step HX (safe_if a0 _ _
                 (safe_guarded _ _ (0, 0) (emits_apply_penalties test_mode))
                 (safe_ret (0, 0))).
  run_step HX (safe_if ((0 <? a) || test_mode) _ _
                 (safe_guarded _ _ 0
                    (emits_notify_overdue_loans read_only reads_reads
                       send_emails))
                 (safe_ret 0)).
  run_step HX (safe_day_gate test_mode 22).
  run_step HX (safe_if a3 _ _
                 (safe_guarded _ _ 0
                    (emits_send_payment_reminders read_only reads_reads
                       send_emails))
                 (safe_ret 0)).
  run_step HX (safe_day_gate test_mode 28).
  run_step HX (safe_if a5 _ _
                 (safe_guarded _ _ 0
                    (emits_send_due_date_reminders read_only reads_reads
                       send_emails))
                 (safe_ret 0)).
  run_step HX safe_check_loans_table.
  assert (Hclock : clock w9 = clock w) by congruence.
  assert (Hprimary :
    (if test_mode then ret true else is_22nd_of_month) w9 = (Ok true, w9)).
  { destruct Hgate as [-> | Hd]; [reflexivity|].
    destruct test_mode; [reflexivity|].
    unfold is_22nd_of_month, bind, now, ret. rewrite Hclock, Hd. reflexivity. }
  unfold bind at 1 in HX. rewrite Hprimary in HX. cbn [negb] in HX.
  destruct (safe_guarded _ _ [] (emits_get_loans_due_next_month read_only
                                   reads_reads) w9)
    as (loans & w10 & Hloans & Hc10).
  unfold bind at 1 in HX. rewrite Hloans in HX.
  destruct (safe_for_each (main_step test_mode send_emails) loans
              (safe_main_step test_mode send_emails) 0 w10)
    as (n & w11 & Hloop & Hc11).
  unfold bind at 1 in HX. rewrite Hloop in HX.
  exists w9, loans, w10, n, w11.
  split; [exact Hclock|]. split; [exact Hloans|]. split; [exact Hloop|].
  rewrite HX.
  assert (Hend : safe (if send_emails && send_admin_summary_email
                       then guarded send_admin_summary tt else ret tt)).
  { apply safe_if; [|apply safe_ret].
    apply (safe_guarded read_only), emits_send_admin_summary, reads_reads. }
  destruct (Hend w11) as ([] & w12 & -> & _). reflexivity.
Qed.


(** ** Runs along a relation on worlds *)

(** The shape of [main] around its probe (loans.py 494-501, 658-670): one
    attempt; when it fails the handler of [main] takes over. *)
Lemma probe_then {B} (req : request) (k : unit -> M B) (h : exn -> M B)
    (w : world) :
  try_except
    (bind
       (try_except (do execute req then ret tt) [Exception]
          (fun _ => raise ConnectionError))
       k)
    [Exception] h w =
  match fst (execute req w) with
  | Ok _ => try_except (k tt) [Exception] h (snd (execute req w))
  | Raise _ => h ConnectionError (snd (execute req w))
  end.
Proof.
  unfold try_except, bind, ret, raise.
  destruct (execute req w) as [[r|e] w1]; reflexivity.
Qed.

Section Steps.

Variable G : world -> world -> Prop.
Hypothesis G_refl : forall w, G w w.
Hypothesis G_trans : forall w1 w2 w3, G w1 w2 -> G w2 w3 -> G w1 w3.

Lemma steps_ret {A} (a : A) : steps G (ret a).
Proof. intros w. apply G_refl. Qed.

Lemma steps_raise {A} (e : exn) : steps G (@raise A e).
Proof. intros w. apply G_refl. Qed.

Lemma steps_lift {A} (r : res A) : steps G (lift r).
Proof. intros w. apply G_refl. Qed.

Lemma steps_now : steps G now.
Proof. intros w. apply G_refl. Qed.

Lemma steps_bind {A B} (m : M A) (k : A -> M B) :
  steps G m -> (forall a, steps G (k a)) -> steps G (bind m k).
Proof.
  intros Hm Hk w. unfold bind. specialize (Hm w).
  destruct (m w) as [[a|e] w']; cbn [snd] in *.
  - eapply G_trans; [exact Hm | apply Hk].
  - exact Hm.
Qed.

Lemma steps_bind_lift {A B} (r : res A) (k : A -> M B) :
  (forall a, r = Ok a -> steps G (k a)) -> steps G (bind (lift r) k).
Proof.
  intros Hk w. unfold bind, lift. destruct r as [a|e].
  - apply Hk. reflexivity.
  - apply G_refl.
Qed.

Lemma steps_try_except {A} (m : M A) (classes : list exn_class)
    (h : exn -> M A) :
  steps G m -> (forall e, steps G (h e)) -> steps G (try_except m classes h).
Proof.
  intros Hm Hh w. unfold try_except. specialize (Hm w).
  destruct (m w) as [[a|e] w']; cbn [snd] in *; [exact Hm|].
  destruct (caught_by classes e); [|exact Hm].
  eapply G_trans; [exact Hm | apply Hh].
Qed.

Lemma steps_guarded {A} (op : M A) (fallback : A) :
  steps G op -> steps G (guarded op fallback).
Proof.
  intros H. apply steps_try_except; [exact H | intros; apply steps_ret].
Qed.

Lemma steps_data_of (r : option response) : steps G (data_of r).
Proof. destruct r; [apply steps_ret | apply steps_raise]. Qed.

Lemma steps_for_each_in {A S} (body : A -> S -> M S) (l : list A) :
  (forall x s, In x l -> steps G (body x s)) ->
  forall s, steps G (for_each body l s).
Proof.
  induction l as [|x l IH]; intros Hb s; cbn [for_each].
  - apply steps_ret.
  - apply steps_bind; [apply Hb; left; reflexivity|].
    intros s'. apply IH. intros y t Hy. apply Hb. right. exact Hy.
Qed.

Lemma steps_for_each {A S} (body : A -> S -> M S) (l : list A) :
  (forall x s, steps G (body x s)) -> forall s, steps G (for_each body l s).
Proof. intros Hb. apply steps_for_each_in. intros x s _. apply Hb. Qed.

Lemma steps_retry_loop {A} (func : M A) (mx d b : Z)
    (classes : list exn_class) (k : nat) :
  steps G func -> (forall n, steps G (sleep n)) ->
  forall retries last, steps G (retry_loop func mx d b classes k retries last).
Proof.
  intros Hf Hs. induction k as [|k IH]; intros retries last.
  - destruct last; [apply steps_raise | apply steps_ret].
  - cbn [retry_loop]. apply steps_try_except.
    + apply steps_bind; [exact Hf | intros a; apply steps_ret].
    + intros e. cbv zeta. destruct (mx <=? retries + 1); [apply steps_raise|].
      apply steps_bind; [apply Hs | intros _; apply IH].
Qed.

Lemma steps_retry {A} (func : M A) (mx d b : Z) (classes : list exn_class) :
  steps G func -> (forall n, steps G (sleep n)) ->
  steps G (retry_with_backoff func mx d b classes).
Proof. intros Hf Hs. apply steps_retry_loop; assumption. Qed.

(** *** The operations of loans.py, call by call *)

Section Walk.

(** [Q] holds of the store requests that may be sent; a retried store call,
    a mail and the pause after a pair of mails go along [G]. *)
Variable Q : request -> Prop.
Hypothesis Q_reads : forall r, is_write r = false -> is_mail r = false -> Q r.
Hypothesis G_call : forall req, Q req -> steps G (with_retry (execute req)).
Hypothesis G_mail :
  forall recipient subject body, steps G (send_email recipient subject body).
Hypothesis G_pause : steps G (sleep 1).

Create HintDb steps.
#[local] Hint Resolve steps_ret steps_raise steps_lift steps_now
  steps_data_of : steps.

Ltac steps_step :=
  lazymatch goal with
  | |- steps _ (bind (lift _) _) => apply steps_bind_lift; intros ? ?
  | |- steps _ (bind _ _) => apply steps_bind; [| intros ?]
  | |- steps _ (try_except _ _ _) => apply steps_try_except; [| intros ?]
  | |- steps _ (guarded _ _) => apply steps_guarded
  | |- steps _ (with_retry (execute _)) =>
      apply G_call; apply Q_reads; reflexivity
  | |- steps _ (send_email _ _ _) => apply G_mail
  | |- steps _ (sleep 1) => apply G_pause
  | |- steps _ (for_each _ _ _) => apply steps_for_each; intros ? ?
  | |- steps _ (if ?b then _ else _) => destruct b
  | |- steps _ (match ?x with _ => _ end) => destruct x
  | |- steps _ _ => solve [eauto with steps]
  end.

Ltac walk := repeat steps_step.

Lemma steps_is_3rd : steps G is_3rd_of_month.
Proof. unfold is_3rd_of_month. walk. Qed.

Lemma steps_is_22nd : steps G is_22nd_of_month.
Proof. unfold is_22nd_of_month. walk. Qed.

Lemma steps_is_28th : steps G is_28th_of_month.
Proof. unfold is_28th_of_month. walk. Qed.

Lemma steps_check_loans_table : steps G check_loans_table.
Proof. unfold check_loans_table. walk. Qed.

Lemma steps_log_client v : steps G (log_client v).
Proof. unfold log_client, get_client_names. walk. Qed.

#[local] Hint Resolve steps_is_3rd steps_is_22nd steps_is_28th
  steps_check_loans_table steps_log_client : steps.

Lemma steps_after_update loan c : steps G (after_update loan c).
Proof. unfold after_update. walk. Qed.

Lemma steps_payments_of v f n : steps G (payments_of v f n).
Proof. unfold payments_of, query_payments. walk. Qed.

#[local] Hint Resolve steps_after_update steps_payments_of : steps.

Lemma steps_overdue_payment_test loan f n :
  steps G (overdue_payment_test loan f n).
Proof. unfold overdue_payment_test. walk. Qed.

Lemma steps_penalty_payment_test loan f n :
  steps G (penalty_payment_test loan f n).
Proof. unfold penalty_payment_test. walk. Qed.

Lemma steps_attach_licence loan : steps G (attach_licence loan).
Proof. unfold attach_licence, get_licence_info. walk. Qed.

#[local] Hint Resolve steps_overdue_payment_test steps_penalty_payment_test
  steps_attach_licence : steps.

Lemma steps_attach_client loan acc : steps G (attach_client loan acc).
Proof. unfold attach_client, get_client_info. walk. Qed.

#[local] Hint Resolve steps_attach_client : steps.

Lemma steps_get_loans_due_next_month : steps G get_loans_due_next_month.
Proof. unfold get_loans_due_next_month, query_loans. walk. Qed.

Lemma steps_find_client loan c : steps G (find_client loan c).
Proof. unfold find_client, get_client_info. walk. Qed.

Lemma steps_try_attach_licence loan : steps G (try_attach_licence loan).
Proof. unfold try_attach_licence. walk. Qed.

Lemma steps_payments_this_month loan f n :
  steps G (payments_this_month loan f n).
Proof. unfold payments_this_month. walk. Qed.

Lemma steps_deliver b client subject body c :
  steps G (deliver b client subject body c).
Proof. unfold deliver. walk. Qed.

#[local] Hint Resolve steps_get_loans_due_next_month steps_find_client
  steps_try_attach_licence steps_payments_this_month steps_deliver : steps.

Lemma steps_notify_step b f n loan c : steps G (notify_step b f n loan c).
Proof. unfold notify_step. walk. Qed.

Lemma steps_payment_reminder_step b loan c :
  steps G (payment_reminder_step b loan c).
Proof. unfold payment_reminder_step. walk. Qed.

Lemma steps_due_date_reminder_step b f n loan c :
  steps G (due_date_reminder_step b f n loan c).
Proof. unfold due_date_reminder_step. walk. Qed.

#[local] Hint Resolve steps_notify_step steps_payment_reminder_step
  steps_due_date_reminder_step : steps.

Lemma steps_notify_overdue_loans b : steps G (notify_overdue_loans b).
Proof. unfold notify_overdue_loans, query_overdue_for_notice. walk. Qed.

Lemma steps_send_payment_reminders b : steps G (send_payment_reminders b).
Proof. unfold send_payment_reminders. walk. Qed.

Lemma steps_send_due_date_reminders b : steps G (send_due_date_reminders b).
Proof. unfold send_due_date_reminders, query_active_loans. walk. Qed.

Lemma steps_send_admin_summary : steps G send_admin_summary.
Proof. unfold send_admin_summary. walk. Qed.

Lemma steps_main_step t b loan n : steps G (main_step t b loan n).
Proof. unfold main_step. walk. Qed.

Lemma steps_check_database_connection : steps G check_database_connection.
Proof. unfold check_database_connection. walk. Qed.

#[local] Hint Resolve steps_notify_overdue_loans steps_send_payment_reminders
  steps_send_due_date_reminders steps_send_admin_summary steps_main_step
  : steps.

(** The two writes, when [Q] lets them through. *)
Lemma steps_write_and_count update loan c :
  Q update -> steps G (write_and_count update loan c).
Proof.
  intros HQ. unfold write_and_count.
  apply steps_bind; [apply G_call, HQ | intros response].
  walk.
Qed.

Lemma steps_overdue_step f n loan c :
  (forall loan_id,
     getitem loan "id" = Ok loan_id -> Q (update_loan_status loan_id)) ->
  steps G (overdue_step f n loan c).
Proof.
  intros HQ. unfold overdue_step. walk.
  apply steps_write_and_count, HQ. assumption.
Qed.

Lemma steps_penalty_step f n loan c :
  (forall loan_id p,
     getitem loan "id" = Ok loan_id -> total_penalties_of loan = Ok p ->
     Q (update_loan_penalty loan_id p)) ->
  steps G (penalty_step f n loan c).
Proof.
  intros HQ. unfold penalty_step. walk.
  apply steps_write_and_count, HQ; assumption.
Qed.

Lemma steps_update_overdue_loans :
  (forall loan_id, Q (update_loan_status loan_id)) ->
  steps G update_overdue_loans.
Proof.
  intros HQ. unfold update_overdue_loans, query_overdue_loans. walk.
  apply steps_overdue_step. intros. apply HQ.
Qed.

Lemma steps_apply_penalties b :
  (forall loan_id p, Q (update_loan_penalty loan_id p)) ->
  steps G (apply_penalties_to_overdue_loans b).
Proof.
  intros HQ. unfold apply_penalties_to_overdue_loans,
    query_overdue_for_penalties. walk.
  apply steps_penalty_step. intros. apply HQ.
Qed.

(** [main] once its probe has been attempted. *)
Lemma main_after_probe t b a :
  steps G update_overdue_loans ->
  (forall bypass, steps G (apply_penalties_to_overdue_loans bypass)) ->
  forall w,
    G (snd (execute (SelectCount "loans") w)) (snd (main t b a w)).
Proof.
  intros Hu Hp w. unfold main. rewrite probe_then.
  destruct (fst (execute (SelectCount "loans") w)) as [r|e];
    generalize (snd (execute (SelectCount "loans") w)); clear w.
  - change (steps G
      (try_except
         (let* overdue_count := guarded update_overdue_loans 0 in
          let* the_3rd := (if t then ret true else is_3rd_of_month) in
          let* penalties :=
            (if the_3rd then
               guarded (apply_penalties_to_overdue_loans t) (0, 0)
             else ret (0, 0)) in
          let* overdue_notifications :=
            (if (0 <? overdue_count) || t then
               guarded (notify_overdue_loans b) 0
             else ret 0) in
          let* the_22nd := (if t then ret true else is_22nd_of_month) in
          let* payment_reminders_count :=
            (if the_22nd then guarded (send_payment_reminders b) 0
             else ret 0) in
          let* the_28th := (if t then ret true else is_28th_of_month) in
          let* due_date_reminders_count :=
            (if the_28th then guarded (send_due_date_reminders b) 0
             else ret 0) in
          let* has_loans := check_loans_table in
          let* primary_run := (if t then ret true else is_22nd_of_month) in
          if negb primary_run then
            if b && a then guarded send_admin_summary tt else ret tt
          else
            let* loans := guarded get_loans_due_next_month [] in
            let* success_count := for_each (main_step t b) loans 0 in
            if b && a then guarded send_admin_summary tt else ret tt)
         [Exception]
         (fun _ =>
            if b && a then
              guarded
                (send_email ADMIN_EMAIL
                   "ERROR: Loan Payment Notification System Failure" report)
                tt
            else ret tt))).
    walk; try exact Hu; apply Hp.
  - change (steps G
      (if b && a then
         guarded
           (send_email ADMIN_EMAIL
              "ERROR: Loan Payment Notification System Failure" report)
           tt
       else ret tt)).
    walk.
Qed.

End Walk.

End Steps.

(** ** Every remote call of loans.py is a retried call *)

Lemma retried_calls_trans (w1 w2 w3 : world) :
  retried_calls w1 w2 -> retried_calls w2 w3 -> retried_calls w1 w3.
Proof.
  intros H12 H23. induction H12 as [w|req w w' Hm _ IH|to s b w w' _ IH|w w' _ IH].
  - exact H23.
  - apply (calls_store req); [exact Hm | apply IH, H23].
  - apply (calls_mail to s b), IH, H23.
  - apply calls_pause, IH, H23.
Qed.

Lemma retried_call (req : request) :
  is_mail req = false -> steps retried_calls (with_retry (execute req)).
Proof. intros Hm w. apply (calls_store req); [exact Hm | apply calls_done]. Qed.

Lemma send_email_world (to : value) (subject : string) (body : mail_body)
    (w : world) :
  snd (send_email to subject body w) =
  snd (retry_with_backoff (execute (SendMail to subject body)) 3 2 2
         mail_errors w).
Proof.
  unfold send_email, mail_errors, try_except, bind.
  destruct (retry_with_backoff _ _ _ _ _ w) as [[a|e] w1]; reflexivity.
Qed.

Lemma retried_mail (to : value) (subject : string) (body : mail_body) :
  steps retried_calls (send_email to subject body).
Proof.
  intros w. apply (calls_mail to subject body).
  rewrite <- send_email_world. apply calls_done.
Qed.

Lemma retried_pause : steps retried_calls (sleep 1).
Proof. intros w. apply calls_pause, calls_done. Qed.

Ltac retried L :=
  apply L with (Q := fun r => is_mail r = false);
  first [ exact calls_done | exact retried_calls_trans | exact retried_call
        | exact retried_mail | exact retried_pause
        | (intros; assumption) | (intros; reflexivity) ].

Lemma retried_update_overdue_loans : steps retried_calls update_overdue_loans.
Proof. retried steps_update_overdue_loans. Qed.

Lemma retried_apply_penalties b :
  steps retried_calls (apply_penalties_to_overdue_loans b).
Proof. retried steps_apply_penalties. Qed.

Lemma retried_notify_overdue_loans b :
  steps retried_calls (notify_overdue_loans b).
Proof. retried steps_notify_overdue_loans. Qed.

Lemma retried_send_payment_reminders b :
  steps retried_calls (send_payment_reminders b).
Proof. retried steps_send_payment_reminders. Qed.

Lemma retried_send_due_date_reminders b :
  steps retried_calls (send_due_date_reminders b).
Proof. retried steps_send_due_date_reminders. Qed.

Lemma retried_get_loans_due_next_month :
  steps retried_calls get_loans_due_next_month.
Proof. retried steps_get_loans_due_next_month. Qed.

Lemma retried_check_loans_table : steps retried_calls check_loans_table.
Proof. retried steps_check_loans_table. Qed.

Lemma retried_check_database_connection :
  steps retried_calls check_database_connection.
Proof. retried steps_check_database_connection. Qed.

Lemma retried_send_admin_summary : steps retried_calls send_admin_summary.
Proof.
  apply steps_send_admin_summary;
    [exact calls_done | exact retried_calls_trans | exact retried_mail].
Qed.

Lemma retried_main t b a (w : world) :
  retried_calls (snd (execute (SelectCount "loans") w)) (snd (main t b a w)).
Proof.
  apply main_after_probe with (Q := fun r => is_mail r = false);
    first [ exact calls_done | exact retried_calls_trans | exact retried_call
          | exact retried_mail | exact retried_pause
          | exact retried_update_overdue_loans | exact retried_apply_penalties
          | (intros; assumption) ].
Qed.

Lemma caught_by_mail_errors (e : exn) :
  caught_by mail_errors e = true <->
  e = SMTPException \/ e = ConnectionError \/ e = TimeoutError.
Proof.
  split.
  - destruct e; cbn; intros H; try discriminate; auto.
  - intros [-> | [-> | ->]]; reflexivity.
Qed.

(** ** The writes are made on rows that were read *)

Lemma sends_refl (P : list outcome -> request -> Prop) (w : world) :
  sends P w w.
Proof.
  split; [exists []; reflexivity|].
  exists []. split; [reflexivity | constructor].
Qed.

Lemma sends_compose (P1 P2 P : list outcome -> request -> Prop)
    (w w1 w2 : world) :
  sends P1 w w1 -> sends P2 w1 w2 ->
  (forall r, P1 (script w) r -> P (script w) r) ->
  (forall r, P2 (script w1) r -> P (script w) r) ->
  sends P w w2.
Proof.
  intros [[u1 Hu1] (l1 & Hl1 & HP1)] [[u2 Hu2] (l2 & Hl2 & HP2)] H1 H2.
  split.
  - exists (u1 ++ u2). rewrite Hu1, Hu2, app_assoc. reflexivity.
  - exists (l2 ++ l1). split; [rewrite Hl2, Hl1, app_assoc; reflexivity|].
    apply Forall_app. split.
    + eapply Forall_impl; eauto.
    + eapply Forall_impl; eauto.
Qed.

Lemma sends_trans (P : list outcome -> request -> Prop) :
  (forall used s r, P s r -> P (used ++ s) r) ->
  forall w1 w2 w3, sends P w1 w2 -> sends P w2 w3 -> sends P w1 w3.
Proof.
  intros Hmono w1 w2 w3 H12 H23.
  apply (sends_compose P P P w1 w2 w3 H12 H23); [auto|].
  destruct H12 as [[u1 Hu1] _]. rewrite Hu1. intros r. apply Hmono.
Qed.

Lemma sends_weaken (P P' : list outcome -> request -> Prop) (w w' : world) :
  (forall s r, P s r -> P' s r) -> sends P w w' -> sends P' w w'.
Proof.
  intros HPP [Hu (l & Hl & HP)]. split; [exact Hu|].
  exists l. split; [exact Hl|]. eapply Forall_impl; eauto.
Qed.

Lemma sends_execute (P : list outcome -> request -> Prop) (req : request) :
  (forall s, P s req) -> steps (sends P) (execute req).
Proof.
  intros HP w. destruct (execute_sent req w) as (Hs & _ & Hsc & _). split.
  - exists (take 1 (script w)). rewrite Hsc. symmetry. apply take_drop.
  - exists [req]. split; [exact Hs|]. repeat constructor. apply HP.
Qed.

Lemma sends_sleep (P : list outcome -> request -> Prop) (n : Z) :
  steps (sends P) (sleep n).
Proof.
  intros w. unfold sleep.
  destruct (n <? 0); (split; [exists []; reflexivity|]);
    exists []; (split; [reflexivity | constructor]).
Qed.

Section Sends.

Variable P : list outcome -> request -> Prop.
Hypothesis P_mono : forall used s r, P s r -> P (used ++ s) r.

Lemma sends_call (req : request) :
  (forall s, P s req) -> steps (sends P) (with_retry (execute req)).
Proof.
  intros HP. apply steps_retry.
  - apply sends_refl.
  - apply sends_trans, P_mono.
  - apply sends_execute, HP.
  - apply sends_sleep.
Qed.

Lemma sends_mail (to : value) (subject : string) (body : mail_body) :
  (forall s r, read_only r -> P s r) ->
  steps (sends P) (send_email to subject body).
Proof.
  intros HP. unfold send_email.
  apply steps_try_except;
    [apply sends_trans, P_mono | | intros e; apply steps_raise, sends_refl].
  apply steps_bind;
    [apply sends_trans, P_mono | | intros a; apply steps_ret, sends_refl].
  apply steps_retry.
  - apply sends_refl.
  - apply sends_trans, P_mono.
  - apply sends_execute. intros s. apply HP. reflexivity.
  - apply sends_sleep.
Qed.

End Sends.

(** update_overdue_loans is its query, then the loop over the rows of the
    answer. *)
Lemma update_overdue_loans_shape (w : world) :
  update_overdue_loans w =
    match with_retry (execute (query_overdue_loans (clock w))) w with
    | (Ok (Some r), w1) =>
        guarded
          (let* c :=
             for_each
               (overdue_step
                  (first_of_month (year (clock w)) (month (clock w)))
                  (clock w))
               (data r) no_counts in
           ret (done_count c))
          0 w1
    | (Ok None, w1) => (Ok 0, w1)
    | (Raise e, w1) => (Ok 0, w1)
    end.
Proof.
  unfold update_overdue_loans, guarded, try_except at 1 3.
  unfold bind at 1. unfold now at 1. unfold bind at 1.
  unfold try_except at 1. unfold bind at 1.
  destruct (with_retry (execute (query_overdue_loans (clock w))) w)
    as [[[r|]|e] w1]; reflexivity.
Qed.

(** apply_penalties_to_overdue_loans is its gate, its query, then the loop
    over the rows of the answer. *)
Lemma apply_penalties_shape (bypass : bool) (w : world) :
  apply_penalties_to_overdue_loans bypass w =
    if bypass || (day (clock w) =? 3) then
      match with_retry (execute query_overdue_for_penalties) w with
      | (Ok (Some r), w1) =>
          match data r with
          | [] => (Ok (0, 0), w1)
          | _ :: _ =>
              guarded
                (let* c :=
                   for_each
                     (penalty_step
                        (first_of_month (year (clock w)) (month (clock w)))
                        (clock w))
                     (data r) no_counts in
                 ret (done_count c, skipped_count c))
                (0, 0) w1
          end
      | (Ok None, w1) => (Ok (0, 0), w1)
      | (Raise e, w1) => (Ok (0, 0), w1)
      end
    else (Ok (0, 0), w).
Proof.
  assert (Hthird :
    (if bypass then ret true else is_3rd_of_month) w =
    (Ok (bypass || (day (clock w) =? 3)), w)).
  { destruct bypass; reflexivity. }
  unfold apply_penalties_to_overdue_loans, guarded, try_except at 1 3.
  unfold bind at 1. rewrite Hthird.
  destruct (bypass || (day (clock w) =? 3)); [|reflexivity]. cbn [negb].
  unfold bind at 1. unfold now at 1. unfold bind at 1.
  unfold try_except at 1. unfold bind at 1.
  destruct (with_retry (execute query_overdue_for_penalties) w)
    as [[[r|]|e] w1]; try reflexivity.
  destruct (data r) as [|row rows] eqn:Hrows; [reflexivity|].
  cbn [ret]. rewrite Hrows. reflexivity.
Qed.

(** The rows of an answer were held ready by the store. *)
Lemma answered_rows_read (req : request) (w w1 : world) (r : response) :
  with_retry (execute req) w = (Ok (Some r), w1) ->
  forall loan, In loan (data r) -> row_read (script w) loan.
Proof.
  intros E loan Hl. unfold with_retry, retry_with_backoff in E.
  apply retry_loop_answer in E. destruct E as [Hin | ->]; [|destruct Hl].
  exists r. split; [|exact Hl].
  rewrite <- (take_drop 3 (script w)). apply in_or_app. left. exact Hin.
Qed.

Lemma row_read_later (used s : list outcome) (loan : dict) :
  row_read s loan -> row_read (used ++ s) loan.
Proof.
  intros (r & Hr & Hl). exists r. split; [|exact Hl].
  apply in_or_app. right. exact Hr.
Qed.

(** The loop body of update_overdue_loans on a row of [rows]. *)
Lemma sends_overdue_step (rows : list dict) f n loan c :
  In loan rows ->
  steps
    (sends (fun _ r =>
              read_only r \/ exists x, In x rows /\ status_write_of x r))
    (overdue_step f n loan c).
Proof.
  intros Hin.
  apply steps_overdue_step
    with (Q := fun r => read_only r \/ status_write_of loan r).
  - apply sends_refl.
  - apply sends_trans. auto.
  - intros r Hw _. left. exact Hw.
  - intros req HQ. apply sends_call; [auto|]. intros s.
    destruct HQ as [H|H]; [left; exact H | right; exists loan; auto].
  - intros loan_id Hid. right. exists loan_id.
    split; [apply getitem_inv, Hid | reflexivity].
Qed.

(** The loop body of apply_penalties_to_overdue_loans on a row of [rows]. *)
Lemma sends_penalty_step (rows : list dict) f n loan c :
  In loan rows ->
  steps
    (sends (fun _ r =>
              read_only r \/ exists x, In x rows /\ penalty_write_of x r))
    (penalty_step f n loan c).
Proof.
  intros Hin.
  apply steps_penalty_step
    with (Q := fun r => read_only r \/ penalty_write_of loan r).
  - apply sends_refl.
  - apply sends_trans. auto.
  - intros r Hw _. left. exact Hw.
  - intros req HQ. apply sends_call; [auto|]. intros s.
    destruct HQ as [H|H]; [left; exact H | right; exists loan; auto].
  - intros loan_id p Hid Hp. right.
    apply total_penalties_of_inv in Hp
      as (v & loan_amount & current & Hv & Hf & Hc & ->).
    exists loan_id, v, loan_amount, current.
    split; [apply getitem_inv, Hid|]. auto.
Qed.

Lemma sends_update_overdue_loans (w : world) :
  sends status_request_on_rows w (snd (update_overdue_loans w)).
Proof.
  rewrite update_overdue_loans_shape.
  pose proof (sends_call (fun _ r => read_only r) ltac:(auto)
                (query_overdue_loans (clock w)) (fun _ => eq_refl) w) as Hq.
  destruct (with_retry (execute (query_overdue_loans (clock w))) w)
    as [[[r|]|e] w1] eqn:E; cbn [snd] in Hq;
    [|apply (sends_weaken _ _ _ _ (fun s r H => or_introl H) Hq)..].
  pose proof (answered_rows_read _ _ _ _ E) as Hrows.
  eapply sends_compose; [exact Hq | | intros r' H; left; exact H |].
  - apply (steps_guarded
             (sends (fun _ r' =>
                read_only r' \/
                exists x, In x (data r) /\ status_write_of x r'))).
    + apply sends_refl.
    + apply sends_trans; auto.
    + apply steps_bind; [apply sends_trans; auto | |
                         intros c; apply steps_ret, sends_refl].
      apply steps_for_each_in;
        [apply sends_refl | apply sends_trans; auto |].
      intros x s Hx. apply (sends_overdue_step (data r)), Hx.
  - cbv beta. intros r' [H | (x & Hx & Hw)]; [left; exact H|].
    right. exists x. split; [apply Hrows, Hx | exact Hw].
Qed.

Lemma sends_apply_penalties (bypass : bool) (w : world) :
  sends penalty_request_on_rows w
    (snd (apply_penalties_to_overdue_loans bypass w)).
Proof.
  rewrite apply_penalties_shape.
  destruct (bypass || (day (clock w) =? 3)); [|apply sends_refl].
  pose proof (sends_call (fun _ r => read_only r) ltac:(auto)
                query_overdue_for_penalties (fun _ => eq_refl) w) as Hq.
  destruct (with_retry (execute query_overdue_for_penalties) w)
    as [[[r|]|e] w1] eqn:E; cbn [snd] in Hq;
    [|apply (sends_weaken _ _ _ _ (fun s r H => or_introl H) Hq)..].
  pose proof (answered_rows_read _ _ _ _ E) as Hrows.
  destruct (data r) as [|row rows] eqn:Hdata;
    [apply (sends_weaken _ _ _ _ (fun s r H => or_introl H) Hq)|].
  rewrite <- Hdata in *. clear Hdata.
  eapply sends_compose; [exact Hq | | intros r' H; left; exact H |].
  - apply (steps_guarded
             (sends (fun _ r' =>
                read_only r' \/
                exists x, In x (data r) /\ penalty_write_of x r'))).
    + apply sends_refl.
    + apply sends_trans; auto.
    + apply steps_bind; [apply sends_trans; auto | |
                         intros c; apply steps_ret, sends_refl].
      apply steps_for_each_in;
        [apply sends_refl | apply sends_trans; auto |].
      intros x s Hx. apply (sends_penalty_step (data r)), Hx.
  - cbv beta. intros r' [H | (x & Hx & Hw)]; [left; exact H|].
    right. exists x. split; [apply Hrows, Hx | exact Hw].
Qed.

Lemma engine_request_later (used s : list outcome) (r : request) :
  engine_request_on_rows s r -> engine_request_on_rows (used ++ s) r.
Proof.
  intros [H | (loan & Hl & Hw)]; [left; exact H|].
  right. exists loan. split; [apply row_read_later, Hl | exact Hw].
Qed.

Lemma sends_main t b a (w : world) :
  sends engine_request_on_rows w (snd (main t b a w)).
Proof.
  apply (sends_trans engine_request_on_rows engine_request_later _
           (snd (execute (SelectCount "loans") w))).
  - apply sends_execute. intros s. left. reflexivity.
  - apply main_after_probe with (Q := read_only).
    + apply sends_refl.
    + apply sends_trans, engine_request_later.
    + intros r H _. exact H.
    + intros req H. apply sends_call; [apply engine_request_later|].
      intros s. left. exact H.
    + intros to subject body. apply sends_mail; [apply engine_request_later|].
      intros s r H. left. exact H.
    + apply sends_sleep.
    + intros w'. apply (sends_weaken status_request_on_rows);
        [|apply sends_update_overdue_loans].
      intros s r [H | (loan & Hl & Hw)]; [left; exact H|].
      right. exists loan. auto.
    + intros bypass w'. apply (sends_weaken penalty_request_on_rows);
        [|apply sends_apply_penalties].
      intros s r [H | (loan & Hl & Hw)]; [left; exact H|].
      right. exists loan. auto.
Qed.

(** Along retried calls the logs of requests and of sleeps only grow. *)
Lemma retried_calls_grow (w w' : world) :
  retried_calls w w' ->
  (length (sent w) <= length (sent w'))%nat /\
  (length (slept w) <= length (slept w'))%nat.
Proof.
  induction 1 as [w|req w w' _ _ IH|to s b w w' _ IH|w w' _ IH].
  - split; lia.
  - destruct (retry_execute_spec req 1 [Exception] w ltac:(lia))
      as (k & r & w1 & Hrun & _ & Hsent & _ & Hslept & _).
    rewrite Hrun in IH. cbn [snd] in IH. rewrite Hsent, Hslept in IH.
    rewrite !length_app in IH. lia.
  - destruct (retry_execute_spec (SendMail to s b) 2 mail_errors w ltac:(lia))
      as (k & r & w1 & Hrun & _ & Hsent & _ & Hslept & _).
    rewrite Hrun in IH. cbn [snd] in IH. rewrite Hsent, Hslept in IH.
    rewrite !length_app in IH. lia.
  - unfold sleep in IH. cbn in IH. lia.
Qed.
(** * The claims *)

(** C8 (as amended): a call of [retry_with_backoff] with [max_retries=3],
    factor 2 and an initial delay [d] that is not negative attempts the
    wrapped request [k] times, 1 <= k <= 3; it sleeps [d] after the first
    failure and [2d] after the second; every attempt before the last raised
    an exception of the classes in [exceptions_to_retry]; a reply ends the
    loop at once and is returned; an exception ends it when it is not of
    those classes or when it is the third, and that last exception is
    raised.  The default classes, [(Exception,)], hold every exception; the
    classes that [send_email] names hold the SMTP, connection and timeout
    errors only, and [send_email] raises any other error at the first
    attempt.  In every run of update_overdue_loans,
    apply_penalties_to_overdue_loans, notify_overdue_loans,
    send_payment_reminders, send_due_date_reminders,
    get_loans_due_next_month, check_loans_table, check_database_connection,
    send_admin_summary and [send_email] the world changes by such calls
    only (store requests with a delay of 1 and the default classes, mails
    with a delay of 2 and the classes of [send_email]) and by the pause of a
    second after a pair of mails.  So does a run of [main] once its probe
    has been attempted; the probe itself is a single attempt outside the
    wrapper: when it fails nothing is retried. *)
Theorem retry_with_backoff_attempts :
  (forall (req : request) (d : Z) (classes : list exn_class) (w : world),
     0 <= d ->
     exists (k : nat) (r : res (option response)) (w' : world),
       retry_with_backoff (execute req) 3 d 2 classes w = (r, w') /\
       (1 <= k <= 3)%nat /\
       sent w' = repeat req k ++ sent w /\
       script w' = drop k (script w) /\
       slept w' = rev (take (k - 1) [d; 2 * d]) ++ slept w /\
       (forall i, (i < k - 1)%nat ->
          exists e, outcome_at w i = Fail e /\ caught_by classes e = true) /\
       match outcome_at w (k - 1) with
       | Reply resp => r = Ok (Some resp)
       | Fail e => r = Raise e /\ (k = 3%nat \/ caught_by classes e = false)
       end) /\
  (forall e, caught_by [Exception] e = true) /\
  (forall e,
     caught_by mail_errors e = true <->
     e = SMTPException \/ e = ConnectionError \/ e = TimeoutError) /\
  (forall e to subject body rest w,
     script w = Fail e :: rest ->
     caught_by mail_errors e = false ->
     send_email to subject body w =
       (Raise e,
        mk_world (clock w) rest (SendMail to subject body :: sent w)
          (slept w))) /\
  (forall w, retried_calls w (snd (update_overdue_loans w))) /\
  (forall bypass w,
     retried_calls w (snd (apply_penalties_to_overdue_loans bypass w))) /\
  (forall send_emails w,
     retried_calls w (snd (notify_overdue_loans send_emails w))) /\
  (forall send_emails w,
     retried_calls w (snd (send_payment_reminders send_emails w))) /\
  (forall send_emails w,
     retried_calls w (snd (send_due_date_reminders send_emails w))) /\
  (forall w, retried_calls w (snd (get_loans_due_next_month w))) /\
  (forall w, retried_calls w (snd (check_loans_table w))) /\
  (forall w, retried_calls w (snd (check_database_connection w))) /\
  (forall w, retried_calls w (snd (send_admin_summary w))) /\
  (forall to subject body w,
     retried_calls w (snd (send_email to subject body w))) /\
  (forall test_mode send_emails send_admin_summary_email w,
     retried_calls (snd (execute (SelectCount "loans") w))
       (snd (main test_mode send_emails send_admin_summary_email w))) /\
  (forall e rest test_mode send_emails send_admin_summary_email w,
     script w = Fail e :: rest ->
     send_emails && send_admin_summary_email = false ->
     main test_mode send_emails send_admin_summary_email w =
       (Ok tt,
        mk_world (clock w) rest (SelectCount "loans" :: sent w) (slept w))).
Proof.
  split; [intros; apply retry_execute_spec; assumption|].
  split; [reflexivity|].
  split; [exact caught_by_mail_errors|].
  split.
  { intros e to subject body rest w Hs Hc.
    unfold send_email, try_except, bind, retry_with_backoff.
    change (Z.to_nat 3) with 3%nat. rewrite retry_loop_step.
    unfold execute. rewrite Hs. unfold mail_errors in Hc. rewrite Hc.
    reflexivity. }
  split; [exact retried_update_overdue_loans|].
  split; [exact retried_apply_penalties|].
  split; [exact retried_notify_overdue_loans|].
  split; [exact retried_send_payment_reminders|].
  split; [exact retried_send_due_date_reminders|].
  split; [exact retried_get_loans_due_next_month|].
  split; [exact retried_check_loans_table|].
  split; [exact retried_check_database_connection|].
  split; [exact retried_send_admin_summary|].
  split; [exact retried_mail|].
  split; [exact retried_main|].
  intros e rest test_mode send_emails send_admin_summary_email w Hs Hoff.
  unfold main. unfold try_except at 1. unfold bind at 1.
  unfold try_except at 1. unfold bind at 1. unfold execute at 1.
  rewrite Hs, Hoff. reflexivity.
Qed.

(** C9 (as amended): when the day of a loan's start date does not exist in
    one of the three months that follow its start month, the payment
    schedule of create_invoice_email raises [ValueError]; the function
    returns no page for that loan, whatever the document type; the
    notification loops get no page to send, and [main] passes the loan
    over: nothing is sent and the count of notifications stays. *)
Theorem schedule_breaks_on_missing_day (loan : dict) (s : string)
    (t : datetime) :
  loan !! "start_date" = Some (VStr s) ->
  fromisoformat (replace_Z s) = Some t ->
  valid_datetime t = true ->
  year t < 9999 ->
  day_missing_ahead t = true ->
  payment_schedule loan = Raise ValueError /\
  (forall q page, create_invoice_email loan q <> Ok page) /\
  (forall q client due amounts,
     getitem loan "client" = Ok client ->
     normalized_due_date loan = Ok due ->
     payment_amounts loan = Ok amounts ->
     create_invoice_email loan q = Raise ValueError) /\
  (forall q, render loan q = Ok None) /\
  (forall test_mode send_emails n w,
     main_step test_mode send_emails loan n w = (Ok n, w)).
Proof.
  intros Hl Hp Hv Hy Hmiss.
  pose proof (payment_schedule_spec loan s t Hl Hp Hv Hy) as Hs.
  rewrite Hmiss in Hs.
  assert (Hno : forall q page, create_invoice_email loan q <> Ok page).
  { intros q page Hpage. apply create_invoice_email_schedule in Hpage.
    rewrite Hs in Hpage. discriminate. }
  split; [exact Hs|]. split; [exact Hno|]. split; [|split].
  - intros q client due amounts Hc Hd Ha. unfold create_invoice_email.
    rewrite Hc, Hd, Ha, Hs. reflexivity.
  - intros q. unfold render.
    destruct (create_invoice_email loan q) as [page|e] eqn:E;
      [exfalso; exact (Hno _ _ E) | reflexivity].
  - intros. apply main_step_unrendered, Hno.
Qed.

(** C3: in the page of create_invoice_email the figure under "Payment
    Amount" is [base_payment = round(loan_amount / 3, 2)] when [penalties] is
    0 or the key is missing; when [penalties > 0] it is
    [round(base_payment + penalties * base_payment
           + (penalties * base_payment) * 0.1, 2)]: the field multiplies the
    base payment. *)
Theorem shown_payment_amount_spec (loan : dict) (q : bool)
    (page : invoice_email) :
  create_invoice_email loan q = Ok page ->
  exists v loan_amount,
    loan !! "loan_amount" = Some v /\ py_float v = Ok loan_amount /\
    let base := py_round2 (PrimFloat.div loan_amount 3) in
    let penalties := get loan "penalties" (VInt 0) in
    base_payment page = base /\
    (loan !! "penalties" = None -> shown_payment_amount page = base) /\
    (eq_zero penalties = true -> shown_payment_amount page = base) /\
    (gt_zero penalties = Ok true ->
       exists missed,
         mul_float penalties base = Ok missed /\
         shown_payment_amount page =
           py_round2
             (PrimFloat.add (PrimFloat.add base missed)
                (PrimFloat.mul missed one_tenth))).
Proof.
  intros H. unfold create_invoice_email in H. rbind_inv H.
  inversion H; subst; clear H. cbn [base_payment shown_payment_amount].
  destruct (payment_amounts_spec loan _ E1)
    as (v & loan_amount & Hv & Hf & Hbase & Hnone & Hpos).
  exists v, loan_amount. split; [exact Hv|]. split; [exact Hf|]. cbv zeta.
  split; [exact Hbase|]. split; [|split].
  - intros Hmiss. unfold get. rewrite Hmiss. cbn [eq_zero]. exact Hbase.
  - intros Hz. rewrite Hz. exact Hbase.
  - intros Hgt. rewrite (gt_zero_not_eq_zero _ Hgt). apply Hpos, Hgt.
Qed.

(** C5: the payment test of apply_penalties_to_overdue_loans (loans.py
    1209-1259) and that of update_overdue_loans (loans.py 740-781) send the
    same payments query, sum the same amounts and compare the sum with the
    same [round(loan_amount / 3, 2)]: on every loan and every world whose
    payment rows carry their dates, they leave the same world and reach the
    same verdict. *)
Theorem payment_tests_agree (loan : dict) (first_day_of_month now_ : datetime)
    (w : world) :
  dated_script w = true ->
  overdue_payment_test loan first_day_of_month now_ w =
    (res_map fst (fst (penalty_payment_test loan first_day_of_month now_ w)),
     snd (penalty_payment_test loan first_day_of_month now_ w)).
Proof.
  intros Hd. unfold overdue_payment_test, penalty_payment_test, bind, lift.
  destruct (expected_payment_of loan) as [[expected|]|e]; try reflexivity.
  destruct (getitem loan "id") as [loan_id|e]; [|reflexivity].
  destruct (payments_of loan_id first_day_of_month now_ w)
    as [[[[r|]|]|e] w'] eqn:Hp; try reflexivity.
  cbn [data_of ret].
  pose proof (payments_of_dated _ _ _ _ _ _ Hd Hp) as Hrows.
  rewrite <- (sums_agree _ Hrows 0%float []).
  destruct (sum_payments_dated (data r) 0 []) as [[total dates]|e];
    cbn [res_map fst snd]; [|reflexivity].
  destruct (fge total expected); [|reflexivity].
  destruct (getitem loan "invoice_number"); reflexivity.
Qed.


(** C2: on the 3rd of the month or with the bypass flag (off them nothing
    is sent) apply_penalties_to_overdue_loans asks the store for the loans
    with [status = 'overdue'] and runs its loop body on each row of the
    answer.  For such a loan, with its fields in place, whose payments of
    the month do not reach the expected payment, it sends the update of the
    table of loans that sets [penalties] to
    [penalties + round(loan_amount * 0.1, 2)] on the row with the loan's id
    (up to three attempts), followed by reads only.  The field is added to,
    never reset: run again on the row as that update left it, with the same
    payments, it sets [penalties] to
    [(penalties + new_penalty) + new_penalty].  A loan of 5000 with no
    penalties gets 500, then 1000. *)
Theorem penalties_accumulate (first_day_of_month now_ : datetime)
    (loan : dict) (c : counters) (w w1 : world)
    (loan_id invoice v b : value) (due : datetime)
    (loan_amount remaining current total : float)
    (payment_response : response) :
  has_fields loan
    ["id"; "payment_due_date"; "loan_amount"; "remaining_balance"] = true ->
  loan !! "id" = Some loan_id ->
  loan !! "invoice_number" = Some invoice ->
  due_date_of loan = Ok (Some due) ->
  loan !! "loan_amount" = Some v -> py_float v = Ok loan_amount ->
  loan !! "remaining_balance" = Some b -> py_float b = Ok remaining ->
  py_float (get loan "penalties" (VInt 0)) = Ok current ->
  with_retry
    (execute
       (Select "loan_payments" "payment_date, amount"
          [mk_filter op_eq "loan_id" (arg_value loan_id);
           mk_filter op_gte "payment_date" (arg_time first_day_of_month);
           mk_filter op_lte "payment_date" (arg_time now_)])) w
    = (Ok (Some payment_response), w1) ->
  forallb has_date (data payment_response) = true ->
  sum_payments (data payment_response) 0 = Ok total ->
  fge total (py_round2 (PrimFloat.div loan_amount 3)) = false ->
  let new_penalty := py_round2 (PrimFloat.mul loan_amount one_tenth) in
  let once := PrimFloat.add current new_penalty in
  let twice := PrimFloat.add once new_penalty in
  let penalties_update := fun penalties : float =>
    Update "loans" [("penalties", VFloat penalties)]
      [mk_filter op_eq "id" (arg_value loan_id)] in
  (exists c' w' k reads,
     penalty_step first_day_of_month now_ loan c w = (Ok c', w') /\
     (1 <= k <= 3)%nat /\
     sent w' = reads ++ repeat (penalties_update once) k ++ sent w1 /\
     Forall read_only reads /\
     (forall updated rest,
        script w1 = Reply updated :: rest -> data updated <> [] ->
        k = 1%nat /\ done_count c' = done_count c + 1)) /\
  (exists c' w' k reads,
     penalty_step first_day_of_month now_
       (<["penalties" := VFloat once]> loan) c w = (Ok c', w') /\
     (1 <= k <= 3)%nat /\
     sent w' = reads ++ repeat (penalties_update twice) k ++ sent w1 /\
     Forall read_only reads /\
     (forall updated rest,
        script w1 = Reply updated :: rest -> data updated <> [] ->
        k = 1%nat /\ done_count c' = done_count c + 1)) /\
  (forall w0, day (clock w0) <> 3 ->
     apply_penalties_to_overdue_loans false w0 = (Ok (0, 0), w0)) /\
  (forall bypass w0 r rest,
     bypass = true \/ day (clock w0) = 3 ->
     script w0 = Reply r :: rest -> data r <> [] ->
     apply_penalties_to_overdue_loans bypass w0 =
       guarded
         (let* counted :=
            for_each
              (penalty_step
                 (first_of_month (year (clock w0)) (month (clock w0)))
                 (clock w0))
              (data r) no_counts in
          ret (done_count counted, skipped_count counted))
         (0, 0)
         (mk_world (clock w0) rest
            (Select "loans"
               "id, invoice_number, loan_amount, remaining_balance, penalties, client_id, payment_due_date"
               [mk_filter op_eq "status" (arg_value (VStr "overdue"))]
             :: sent w0)
            (slept w0))) /\
  py_round2 (PrimFloat.mul 5000 one_tenth) = 500%float /\
  PrimFloat.add 0 500 = 500%float /\
  PrimFloat.add 500 500 = 1000%float.
Proof.
  intros Hfields Hid Hinv Hdue Hv Hf Hb Hr Hc Hq Hdates Hsum Hlt. cbv zeta.
  split; [|split; [|split; [|split]]].
  - rewrite (penalty_step_run _ _ _ _ _ _ _ _ _ _ _ _ _ _ _ _
               Hfields Hid Hinv Hdue Hv Hf Hb Hr Hc Hq Hdates Hsum).
    rewrite Hlt. apply write_and_count_run.
  - set (once := PrimFloat.add current
                   (py_round2 (PrimFloat.mul loan_amount one_tenth))).
    set (row := updated_row [("penalties", VFloat once)] loan).
    assert (Hother : forall key, key <> "penalties" ->
              row !! key = loan !! key).
    { intros key Hne. apply penalties_row_other, Hne. }
    assert (Hfields' : has_fields row
              ["id"; "payment_due_date"; "loan_amount"; "remaining_balance"]
              = true).
    { etransitivity; [|exact Hfields].
      unfold has_fields. cbn [forallb]. unfold row.
      rewrite !present_row_other by discriminate. reflexivity. }
    assert (Hdue' : due_date_of row = Ok (Some due)).
    { etransitivity; [|exact Hdue]. unfold due_date_of, getitem.
      rewrite Hother by discriminate. reflexivity. }
    assert (Hc' : py_float (get row "penalties" (VInt 0)) = Ok once).
    { unfold row. rewrite penalties_row_get. reflexivity. }
    rewrite <- (Hother "id") in Hid by discriminate.
    rewrite <- (Hother "invoice_number") in Hinv by discriminate.
    rewrite <- (Hother "loan_amount") in Hv by discriminate.
    rewrite <- (Hother "remaining_balance") in Hb by discriminate.
    rewrite (penalty_step_run _ _ _ _ _ _ _ _ _ _ _ _ _ _ _ _
               Hfields' Hid Hinv Hdue' Hv Hf Hb Hr Hc' Hq Hdates Hsum).
    rewrite Hlt.
    destruct (write_and_count_run
                (update_loan_penalty loan_id
                   (PrimFloat.add once (new_penalty_of loan_amount)))
                row c w1) as (c' & w' & k & reads & Hrun & Hrest).
    exists c', w', k, reads. split; [exact Hrun | exact Hrest].
  - apply apply_penalties_gate.
  - apply apply_penalties_loop.
  - repeat split; vm_compute; reflexivity.
Qed.

(** C10: update_overdue_loans, notify_overdue_loans,
    apply_penalties_to_overdue_loans, send_payment_reminders and
    send_due_date_reminders return a count from every world, whatever the
    store and the mail server do: no exception leaves them.  When the store
    fails on all three attempts of their first query they return 0, or
    (0, 0). *)
Theorem batch_operations_never_raise :
  never_raises update_overdue_loans /\
  (forall send_emails, never_raises (notify_overdue_loans send_emails)) /\
  (forall bypass, never_raises (apply_penalties_to_overdue_loans bypass)) /\
  (forall send_emails, never_raises (send_payment_reminders send_emails)) /\
  (forall send_emails, never_raises (send_due_date_reminders send_emails)) /\
  (forall w e1 e2 e3 rest b,
     script w = Fail e1 :: Fail e2 :: Fail e3 :: rest ->
     fst (update_overdue_loans w) = Ok 0 /\
     fst (notify_overdue_loans b w) = Ok 0 /\
     fst (apply_penalties_to_overdue_loans b w) = Ok (0, 0) /\
     fst (send_payment_reminders b w) = Ok 0 /\
     fst (send_due_date_reminders b w) = Ok 0).
Proof.
  repeat split;
    try (intros; apply never_raises_try_except; intros;
         apply never_raises_ret).
  - eapply update_overdue_loans_down; eassumption.
  - eapply notify_overdue_loans_down; eassumption.
  - eapply apply_penalties_down; eassumption.
  - eapply send_payment_reminders_down; eassumption.
  - eapply send_due_date_reminders_down; eassumption.
Qed.

(** C7: the engine writes in two ways only, both on the table of loans,
    both on a row that the store returned.  Every request that
    update_overdue_loans sends is a read or the update that sets [status] to
    ['overdue'], and nothing else, on the row with the id of a row read;
    every request that apply_penalties_to_overdue_loans sends is a read or
    the update that sets [penalties], and nothing else, on the row with the
    id of a row read, to the penalties of that row plus
    [round(loan_amount * 0.1, 2)] of that row; the notification operations
    and the queries only read; so every request of a run of [main] is a read
    or one of these two writes: no other field of a loan and no row of
    another table is written. *)
Theorem engine_writes :
  (forall w, sends status_request_on_rows w (snd (update_overdue_loans w))) /\
  (forall bypass w,
     sends penalty_request_on_rows w
       (snd (apply_penalties_to_overdue_loans bypass w))) /\
  (forall send_emails, emits read_only (notify_overdue_loans send_emails)) /\
  (forall send_emails, emits read_only (send_payment_reminders send_emails)) /\
  (forall send_emails, emits read_only (send_due_date_reminders send_emails)) /\
  emits read_only get_loans_due_next_month /\
  emits read_only check_loans_table /\
  emits read_only send_admin_summary /\
  (forall test_mode send_emails loan n,
     emits read_only (main_step test_mode send_emails loan n)) /\
  (forall test_mode send_emails send_admin_summary_email w,
     sends engine_request_on_rows w
       (snd (main test_mode send_emails send_admin_summary_email w))).
Proof.
  split; [exact sends_update_overdue_loans|].
  split; [exact sends_apply_penalties|].
  split; [intros; apply emits_notify_overdue_loans, reads_reads|].
  split; [intros; apply emits_send_payment_reminders, reads_reads|].
  split; [intros; apply emits_send_due_date_reminders, reads_reads|].
  split; [apply emits_get_loans_due_next_month, reads_reads|].
  split; [apply emits_check_loans_table, reads_reads|].
  split; [apply emits_send_admin_summary, reads_reads|].
  split; [intros; apply emits_main_step, reads_reads|].
  exact sends_main.
Qed.

(** C6: on the 22nd or in test mode, once its probe is answered, [main]
    fetches the loans due next month and runs its loop body on each of
    them.  There a loan with [remaining_balance > 0] is a
    Statement, with the subject "Gunnery Payment Due Quote: <invoice>", and
    a loan with [remaining_balance == 0] is an Invoice, with the subject
    "Loan Paid: Invoice <invoice> - <first name> <last name>"; the page is
    rendered as that kind of document and the mail goes out under that
    subject.  750.00 is a Statement and 0 an Invoice. *)
Theorem statement_or_invoice (test_mode : bool) (loan : dict)
    (client balance invoice first_name last_name : value) :
  loan !! "remaining_balance" = Some balance ->
  loan !! "invoice_number" = Some invoice ->
  subscript client "first_name" = Ok first_name ->
  subscript client "last_name" = Ok last_name ->
  let test_prefix := if test_mode then "[TEST] " else "" in
  (gt_zero balance = Ok true ->
     classify test_mode loan client =
       Ok (true, "Statement",
           (test_prefix ++ "Gunnery Payment Due Quote: " ++ py_str invoice)%string))
  /\
  (eq_zero balance = true ->
     classify test_mode loan client =
       Ok (false, "Invoice",
           (test_prefix ++ "Loan Paid" ++ ": " ++ "Invoice" ++ " "
              ++ py_str invoice ++ " - " ++ py_str first_name ++ " "
              ++ py_str last_name)%string)) /\
  gt_zero (VFloat 750) = Ok true /\
  eq_zero (VInt 0) = true /\ eq_zero (VFloat 0) = true /\
  (forall send_emails send_admin_summary_email w,
     test_mode = true \/ day (clock w) = 22 ->
     (forall e rest, script w <> Fail e :: rest) ->
     exists w1 loans w2 n w3,
       clock w1 = clock w /\
       guarded get_loans_due_next_month [] w1 = (Ok loans, w2) /\
       for_each (main_step test_mode send_emails) loans 0 w2 = (Ok n, w3) /\
       main test_mode send_emails send_admin_summary_email w =
         (if send_emails && send_admin_summary_email
          then guarded send_admin_summary tt else ret tt) w3) /\
  (forall kind page email send_emails n w,
     loan !! "client" = Some client -> truthy client = true ->
     has_fields loan ["invoice_number"; "loan_amount"; "remaining_balance"]
       = true ->
     classify test_mode loan client = Ok kind ->
     create_invoice_email loan (fst (fst kind)) = Ok page ->
     subscript client "email" = Ok email ->
     document_type page = snd (fst kind) /\
     main_step test_mode send_emails loan n w =
       if send_emails then
         try_except
           (do send_email email (snd kind) (notification None page) then
            do send_email ADMIN_EMAIL ("COPY: " ++ snd kind)%string
                 (notification None page) then
            do sleep 1 then
            ret (n + 1))
           [Exception] (fun _ => ret n) w
       else (Ok (n + 1), w)).
Proof.
  intros Hb Hinv Hfn Hln. cbv zeta.
  assert (Hclass : forall is_statement,
            gt_zero balance = Ok is_statement ->
            classify test_mode loan client =
              if is_statement then
                Ok (true, "Statement",
                    ((if test_mode then "[TEST] " else "")
                       ++ "Gunnery Payment Due Quote: " ++ py_str invoice)%string)
              else
                Ok (false, "Invoice",
                    ((if test_mode then "[TEST] " else "") ++ "Loan Paid"
                       ++ ": " ++ "Invoice" ++ " " ++ py_str invoice ++ " - "
                       ++ py_str first_name ++ " " ++ py_str last_name)%string)).
  { intros is_statement Hgt. unfold classify.
    rewrite (getitem_some _ _ _ Hb). cbn [rbind]. rewrite Hgt. cbn [rbind].
    rewrite (getitem_some _ _ _ Hinv). cbn [rbind].
    destruct is_statement; [reflexivity|].
    rewrite Hfn. cbn [rbind]. rewrite Hln. reflexivity. }
  split; [intros Hgt; exact (Hclass true Hgt)|].
  split; [intros Hz; exact (Hclass false (eq_zero_not_gt _ Hz))|].
  split; [reflexivity|]. split; [reflexivity|]. split; [reflexivity|].
  split; [intros; apply main_reaches_loop; assumption|].
  intros kind page email send_emails n w Hc Ht Hfields Hk Hpage Hem.
  split.
  - rewrite (create_invoice_email_document_type _ _ _ Hpage).
    unfold classify in Hk. rbind_inv Hk.
    destruct a0; cbn [rbind] in Hk.
    + inversion Hk. reflexivity.
    + rbind_inv Hk. inversion Hk. reflexivity.
  - apply (main_step_run _ _ _ _ _ _ _ _ _ _ _ Hc Ht Hfields Hk Hpage Hfn Hln Hem).
Qed.

(** * Further properties of loans.py and loan_templates.py *)

(** ** retry_with_backoff, for any number of retries *)

Lemma last_cons_default {A} (x d : A) (l : list A) :
  List.last (x :: l) d = List.last l x.
Proof.
  revert x d. induction l as [|y l IH]; intros x d; [reflexivity|].
  change (List.last (x :: y :: l) d) with (List.last (y :: l) d).
  rewrite !IH. reflexivity.
Qed.

(** The loop on a script that opens with [es], failures of the classes
    retried, when [es] uses up what is left of the budget. *)
Lemma retry_loop_exhausts (req : request) (mx d b : Z)
    (classes : list exn_class) (e : exn) (es : list exn) :
  0 <= d -> 0 <= b ->
  Forall (fun e => caught_by classes e = true) (e :: es) ->
  forall (retries : Z) (last_exception : option exn) (w : world)
         (rest : list outcome),
    script w = map Fail (e :: es) ++ rest ->
    retries + Z.of_nat (length (e :: es)) = mx ->
    retry_loop (execute req) mx d b classes (length (e :: es)) retries
      last_exception w =
      (Raise (List.last es e),
       mk_world (clock w) rest (repeat req (length (e :: es)) ++ sent w)
         (rev (waits d b retries (length es)) ++ slept w)).
Proof.
  intros Hd Hb.
  revert e. induction es as [|e' es IH]; intros e Hc retries last_exception w
    rest Hs Hmx.
  - cbn [length] in *. rewrite retry_loop_step. unfold execute.
    rewrite Hs. cbn [map app]. apply Forall_cons in Hc as [He _].
    rewrite He. destruct (Z.leb_spec mx (retries + 1)); [|lia].
    reflexivity.
  - change (length (e :: e' :: es)) with (S (length (e' :: es))) in *.
    rewrite retry_loop_step. unfold execute. rewrite Hs. cbn [map app].
    apply Forall_cons in Hc as [He Hc']. rewrite He.
    destruct (Z.leb_spec mx (retries + 1)); [cbn [length] in Hmx; lia|].
    rewrite (wait_nonneg d b _ Hd Hb).
    rewrite (IH e' Hc' (retries + 1) (Some e) _ rest); [|reflexivity|lia].
    cbn [clock sent slept]. f_equal; [f_equal | f_equal].
    + symmetry. apply last_cons_default.
    + change (repeat req (S (length (e' :: es))))
        with (req :: repeat req (length (e' :: es))).
      rewrite repeat_cons. rewrite <- app_assoc. reflexivity.
    + change (length (e' :: es)) with (S (length es)).
      cbn [waits rev]. rewrite <- app_assoc. cbn [app].
      replace (retries + 1 - 1) with retries by lia. reflexivity.
Qed.

(** The loop on a script that opens with [es], failures of the classes
    retried, fewer than the budget, followed by a reply or by a failure of
    another class. *)
Lemma retry_loop_decides (req : request) (mx d b : Z)
    (classes : list exn_class) (o : outcome) (es : list exn) :
  0 <= d -> 0 <= b ->
  Forall (fun e => caught_by classes e = true) es ->
  match o with Reply _ => True | Fail e => caught_by classes e = false end ->
  forall (retries : Z) (remaining : nat) (last_exception : option exn)
         (w : world) (rest : list outcome),
    script w = map Fail es ++ o :: rest ->
    (length es < remaining)%nat ->
    retries + Z.of_nat remaining = mx ->
    retry_loop (execute req) mx d b classes remaining retries
      last_exception w =
      (match o with Reply r => Ok (Some r) | Fail e => Raise e end,
       mk_world (clock w) rest (repeat req (S (length es)) ++ sent w)
         (rev (waits d b retries (length es)) ++ slept w)).
Proof.
  intros Hd Hb Hc Ho. induction es as [|e es IH];
    intros retries remaining last_exception w rest Hs Hlen Hmx.
  - destruct remaining as [|k]; [cbn in Hlen; lia|].
    rewrite retry_loop_step. unfold execute. rewrite Hs. cbn [map app].
    destruct o as [e|r]; [rewrite Ho|]; reflexivity.
  - destruct remaining as [|k]; [cbn in Hlen; lia|].
    cbn [length] in Hlen.
    rewrite retry_loop_step. unfold execute. rewrite Hs. cbn [map app].
    apply Forall_cons in Hc as [He Hc']. rewrite He.
    destruct (Z.leb_spec mx (retries + 1)); [lia|].
    rewrite (wait_nonneg d b _ Hd Hb).
    rewrite (IH Hc' (retries + 1) k (Some e) _ rest); [|reflexivity|lia|lia].
    cbn [clock sent slept length]. f_equal. f_equal.
    + change (repeat req (S (S (length es))))
        with (req :: repeat req (S (length es))).
      rewrite repeat_cons. rewrite <- app_assoc. reflexivity.
    + cbn [waits rev]. rewrite <- app_assoc. cbn [app].
      replace (retries + 1 - 1) with retries by lia. reflexivity.
Qed.

(** X1: with a delay and a factor that are not negative (a negative wait
    makes [time.sleep] raise), when the first [n >= 1] attempts of a call
    retried with [max_retries = n] all fail with exceptions of the classes
    retried, the call is attempted exactly [n] times, the waits between the
    attempts are [d, d*b, ..., d*b^(n-2)], none after the last, and the last
    exception is raised. *)
Theorem retry_exhausts_after_max_retries (req : request) (d b : Z)
    (classes : list exn_class) (e : exn) (es : list exn) (w : world)
    (rest : list outcome) :
  0 <= d -> 0 <= b ->
  Forall (fun e => caught_by classes e = true) (e :: es) ->
  script w = map Fail (e :: es) ++ rest ->
  retry_with_backoff (execute req) (Z.of_nat (length (e :: es))) d b classes w
    = (Raise (List.last es e),
       mk_world (clock w) rest (repeat req (length (e :: es)) ++ sent w)
         (rev (waits d b 0 (length es)) ++ slept w)).
Proof.
  intros Hd Hb Hc Hs. unfold retry_with_backoff. rewrite Nat2Z.id.
  apply retry_loop_exhausts; [exact Hd | exact Hb | exact Hc | exact Hs | lia].
Qed.

(** X2: with a delay and a factor that are not negative, a call retried
    with [max_retries = n] whose first [k < n] attempts fail with exceptions
    of the classes retried and whose next attempt is answered, or fails with
    an exception of another class, is attempted [k + 1] times with the waits
    [d, d*b, ..., d*b^(k-1)]; the answer is returned, the other exception
    raised at once. *)
Theorem retry_stops_at_first_decisive_outcome (req : request) (n d b : Z)
    (classes : list exn_class) (o : outcome) (es : list exn) (w : world)
    (rest : list outcome) :
  0 <= d -> 0 <= b ->
  Forall (fun e => caught_by classes e = true) es ->
  match o with Reply _ => True | Fail e => caught_by classes e = false end ->
  script w = map Fail es ++ o :: rest ->
  Z.of_nat (length es) < n ->
  retry_with_backoff (execute req) n d b classes w
    = (match o with Reply r => Ok (Some r) | Fail e => Raise e end,
       mk_world (clock w) rest (repeat req (S (length es)) ++ sent w)
         (rev (waits d b 0 (length es)) ++ slept w)).
Proof.
  intros Hd Hb Hc Ho Hs Hn. unfold retry_with_backoff.
  apply retry_loop_decides;
    [exact Hd | exact Hb | exact Hc | exact Ho | exact Hs | lia | lia].
Qed.

(** ** check_database_connection *)

(** One retried probe: between one and three attempts, nothing else. *)
Lemma probe_run (table : string) (w : world) :
  exists (k : nat) (r : res (option response)) (w' : world),
    with_retry (execute (SelectCount table)) w = (r, w') /\
    (1 <= k <= 3)%nat /\
    sent w' = repeat (SelectCount table) k ++ sent w /\
    clock w' = clock w.
Proof.
  destruct (retry_execute_spec (SelectCount table) 1 [Exception] w ltac:(lia))
    as (k & r & w' & Hrun & Hk & Hsent & _).
  exists k, r, w'. unfold with_retry. rewrite Hrun.
  repeat split; try tauto; try lia.
  pose proof (emits_retry (fun _ => True) (execute (SelectCount table)) 3 1 2
                [Exception] (emits_execute _ _ I) w) as [Hc _].
  rewrite Hrun in Hc. exact Hc.
Qed.

Lemma probes_repeat (table : string) (k : nat) :
  Forall is_probe (repeat (SelectCount table) k).
Proof.
  induction k as [|k IH]; [constructor|].
  constructor; [exists table; reflexivity | exact IH].
Qed.

Lemma in_repeat_pos {A} (x : A) (k : nat) : (1 <= k)%nat -> In x (repeat x k).
Proof. destruct k; [lia|]. intros _. left. reflexivity. Qed.

Lemma check_database_connection_up (w : world) (r1 r2 r3 r4 : response)
    (rest : list outcome) :
  script w = Reply r1 :: Reply r2 :: Reply r3 :: Reply r4 :: rest ->
  check_database_connection w =
    (Ok true,
     mk_world (clock w) rest
       ([SelectCount "gun_licences"; SelectCount "loan_payments";
         SelectCount "clients"; SelectCount "loans"] ++ sent w)
       (slept w)).
Proof.
  intros Hs. unfold check_database_connection, try_except.
  unfold bind at 1. rewrite (with_retry_reply _ _ _ _ Hs).
  unfold bind at 1. erewrite with_retry_reply by reflexivity.
  unfold bind at 1. erewrite with_retry_reply by reflexivity.
  unfold bind at 1. erewrite with_retry_reply by reflexivity.
  reflexivity.
Qed.

Lemma check_database_connection_down (w : world) (e1 e2 e3 : exn)
    (rest : list outcome) :
  script w = Fail e1 :: Fail e2 :: Fail e3 :: rest ->
  check_database_connection w =
    (Ok false,
     mk_world (clock w) rest (repeat (SelectCount "loans") 3 ++ sent w)
       (2 :: 1 :: slept w)).
Proof.
  intros Hs. unfold check_database_connection, try_except.
  unfold bind at 1. rewrite (with_retry_fails _ _ _ _ _ _ Hs). reflexivity.
Qed.

Lemma probes_app (l1 l2 : list request) :
  Forall is_probe l1 -> Forall is_probe l2 -> Forall is_probe (l1 ++ l2).
Proof. intros H1 H2. apply Forall_app. split; assumption. Qed.

Lemma check_database_connection_run (w : world) :
  exists (ok : bool) (w' : world) (l : list request),
    check_database_connection w = (Ok ok, w') /\
    clock w' = clock w /\
    sent w' = l ++ sent w /\
    Forall is_probe l /\
    (length l <= 12)%nat /\
    (ok = true ->
     forall table,
       In table ["loans"; "clients"; "loan_payments"; "gun_licences"] ->
       In (SelectCount table) l).
Proof.
  unfold check_database_connection, try_except.
  destruct (probe_run "loans" w) as (k1 & r1 & w1 & H1 & Hk1 & Hs1 & Hc1).
  unfold bind at 1. rewrite H1.
  destruct r1 as [o1|e1].
  2:{ exists false, w1, (repeat (SelectCount "loans") k1).
      split; [reflexivity|]. split; [exact Hc1|]. split; [exact Hs1|].
      split; [apply probes_repeat|].
      split; [rewrite repeat_length; lia | discriminate]. }
  destruct (probe_run "clients" w1) as (k2 & r2 & w2 & H2 & Hk2 & Hs2 & Hc2).
  unfold bind at 1. rewrite H2.
  destruct r2 as [o2|e2].
  2:{ exists false, w2,
        (repeat (SelectCount "clients") k2 ++ repeat (SelectCount "loans") k1).
      split; [reflexivity|]. split; [congruence|].
      split; [rewrite Hs2, Hs1, app_assoc; reflexivity|].
      split; [apply probes_app; apply probes_repeat|].
      split; [rewrite length_app, !repeat_length; lia | discriminate]. }
  destruct (probe_run "loan_payments" w2)
    as (k3 & r3 & w3 & H3 & Hk3 & Hs3 & Hc3).
  unfold bind at 1. rewrite H3.
  destruct r3 as [o3|e3].
  2:{ exists false, w3,
        (repeat (SelectCount "loan_payments") k3
           ++ repeat (SelectCount "clients") k2
           ++ repeat (SelectCount "loans") k1).
      split; [reflexivity|]. split; [congruence|].
      split; [rewrite Hs3, Hs2, Hs1, <- !app_assoc; reflexivity|].
      split; [repeat apply probes_app; apply probes_repeat|].
      split; [rewrite !length_app, !repeat_length; lia | discriminate]. }
  destruct (probe_run "gun_licences" w3)
    as (k4 & r4 & w4 & H4 & Hk4 & Hs4 & Hc4).
  unfold bind at 1. rewrite H4.
  destruct r4 as [o4|e4].
  2:{ exists false, w4,
        (repeat (SelectCount "gun_licences") k4
           ++ repeat (SelectCount "loan_payments") k3
           ++ repeat (SelectCount "clients") k2
           ++ repeat (SelectCount "loans") k1).
      split; [reflexivity|]. split; [congruence|].
      split; [rewrite Hs4, Hs3, Hs2, Hs1, <- !app_assoc; reflexivity|].
      split; [repeat apply probes_app; apply probes_repeat|].
      split; [rewrite !length_app, !repeat_length; lia | discriminate]. }
  exists true, w4,
    (repeat (SelectCount "gun_licences") k4
       ++ repeat (SelectCount "loan_payments") k3
       ++ repeat (SelectCount "clients") k2
       ++ repeat (SelectCount "loans") k1).
  split; [reflexivity|]. split; [congruence|].
  split; [rewrite Hs4, Hs3, Hs2, Hs1, <- !app_assoc; reflexivity|].
  split; [repeat apply probes_app; apply probes_repeat|].
  split; [rewrite !length_app, !repeat_length; lia|].
  intros _ table Hin. rewrite !in_app_iff.
  cbn [In] in Hin.
  destruct Hin as [<-|[<-|[<-|[<-|[]]]]];
    [do 3 right | right; right; left | right; left | left];
    apply in_repeat_pos; lia.
Qed.

(** X3: check_database_connection never raises.  It sends count probes and
    nothing else, at most twelve; it answers [True] only after each of the
    four tables has been probed.  Four answers in a row make it [True] after
    four probes, in the order loans, clients, loan_payments, gun_licences;
    three failures in a row on the table of loans make it [False], and the
    other tables are not tried. *)
Theorem check_database_connection_spec :
  (forall w, exists (ok : bool) (w' : world) (l : list request),
     check_database_connection w = (Ok ok, w') /\
     clock w' = clock w /\
     sent w' = l ++ sent w /\
     Forall is_probe l /\
     (length l <= 12)%nat /\
     (ok = true ->
      forall table,
        In table ["loans"; "clients"; "loan_payments"; "gun_licences"] ->
        In (SelectCount table) l)) /\
  (forall w r1 r2 r3 r4 rest,
     script w = Reply r1 :: Reply r2 :: Reply r3 :: Reply r4 :: rest ->
     check_database_connection w =
       (Ok true,
        mk_world (clock w) rest
          ([SelectCount "gun_licences"; SelectCount "loan_payments";
            SelectCount "clients"; SelectCount "loans"] ++ sent w)
          (slept w))) /\
  (forall w e1 e2 e3 rest,
     script w = Fail e1 :: Fail e2 :: Fail e3 :: rest ->
     check_database_connection w =
       (Ok false,
        mk_world (clock w) rest (repeat (SelectCount "loans") 3 ++ sent w)
          (2 :: 1 :: slept w))).
Proof.
  split; [exact check_database_connection_run|].
  split; [exact check_database_connection_up|].
  exact check_database_connection_down.
Qed.

(** ** Running without sending *)

Section Quiet.

(** Whatever is no e-mail may be sent. *)
Variable P : request -> Prop.
Hypothesis P_quiet : forall r, is_mail r = false -> P r.

Ltac quiet_side := apply P_quiet; reflexivity.
Ltac emits_quiet := emits_auto quiet_side.

Lemma quiet_is_3rd : emits P is_3rd_of_month.
Proof. unfold is_3rd_of_month. emits_quiet. Qed.

Lemma quiet_is_22nd : emits P is_22nd_of_month.
Proof. unfold is_22nd_of_month. emits_quiet. Qed.

Lemma quiet_is_28th : emits P is_28th_of_month.
Proof. unfold is_28th_of_month. emits_quiet. Qed.

Lemma quiet_check_loans_table : emits P check_loans_table.
Proof. unfold check_loans_table. emits_quiet. Qed.

Lemma quiet_check_database_connection : emits P check_database_connection.
Proof. unfold check_database_connection. emits_quiet. Qed.

Lemma quiet_log_client v : emits P (log_client v).
Proof. unfold log_client, get_client_names. emits_quiet. Qed.

#[local] Hint Resolve quiet_is_3rd quiet_is_22nd quiet_is_28th
  quiet_check_loans_table quiet_check_database_connection quiet_log_client
  : emits.

Lemma quiet_after_update loan c : emits P (after_update loan c).
Proof. unfold after_update. emits_quiet. Qed.

Lemma quiet_payments_of v f n : emits P (payments_of v f n).
Proof. unfold payments_of, query_payments. emits_quiet. Qed.

#[local] Hint Resolve quiet_after_update quiet_payments_of : emits.

Lemma quiet_overdue_payment_test loan f n :
  emits P (overdue_payment_test loan f n).
Proof. unfold overdue_payment_test. emits_quiet. Qed.

Lemma quiet_penalty_payment_test loan f n :
  emits P (penalty_payment_test loan f n).
Proof. unfold penalty_payment_test. emits_quiet. Qed.

Lemma quiet_attach_licence loan : emits P (attach_licence loan).
Proof. unfold attach_licence, get_licence_info. emits_quiet. Qed.

#[local] Hint Resolve quiet_overdue_payment_test quiet_penalty_payment_test
  quiet_attach_licence : emits.

Lemma quiet_attach_client loan acc : emits P (attach_client loan acc).
Proof. unfold attach_client, get_client_info. emits_quiet. Qed.

#[local] Hint Resolve quiet_attach_client : emits.

Lemma quiet_get_loans_due_next_month : emits P get_loans_due_next_month.
Proof. unfold get_loans_due_next_month, query_loans. emits_quiet. Qed.

Lemma quiet_find_client loan c : emits P (find_client loan c).
Proof. unfold find_client, get_client_info. emits_quiet. Qed.

Lemma quiet_try_attach_licence loan : emits P (try_attach_licence loan).
Proof. unfold try_attach_licence. emits_quiet. Qed.

Lemma quiet_payments_this_month loan f n :
  emits P (payments_this_month loan f n).
Proof. unfold payments_this_month. emits_quiet. Qed.

Lemma quiet_deliver client subject body c :
  emits P (deliver false client subject body c).
Proof. unfold deliver. emits_quiet. Qed.

#[local] Hint Resolve quiet_get_loans_due_next_month quiet_find_client
  quiet_try_attach_licence quiet_payments_this_month quiet_deliver : emits.

Lemma quiet_notify_step f n loan c : emits P (notify_step false f n loan c).
Proof. unfold notify_step. emits_quiet. Qed.

Lemma quiet_payment_reminder_step loan c :
  emits P (payment_reminder_step false loan c).
Proof. unfold payment_reminder_step. emits_quiet. Qed.

Lemma quiet_due_date_reminder_step f n loan c :
  emits P (due_date_reminder_step false f n loan c).
Proof. unfold due_date_reminder_step. emits_quiet. Qed.

Lemma quiet_main_step t loan n : emits P (main_step t false loan n).
Proof. unfold main_step. cbv iota. emits_quiet. Qed.

#[local] Hint Resolve quiet_notify_step quiet_payment_reminder_step
  quiet_due_date_reminder_step quiet_main_step : emits.

Lemma quiet_overdue_step f n loan c : emits P (overdue_step f n loan c).
Proof. unfold overdue_step, write_and_count. emits_quiet. Qed.

Lemma quiet_penalty_step f n loan c : emits P (penalty_step f n loan c).
Proof. unfold penalty_step, write_and_count. emits_quiet. Qed.

#[local] Hint Resolve quiet_overdue_step quiet_penalty_step : emits.

Lemma quiet_update_overdue_loans : emits P update_overdue_loans.
Proof. unfold update_overdue_loans, query_overdue_loans. emits_quiet. Qed.

Lemma quiet_apply_penalties b :
  emits P (apply_penalties_to_overdue_loans b).
Proof.
  unfold apply_penalties_to_overdue_loans, query_overdue_for_penalties.
  emits_quiet.
Qed.

Lemma quiet_notify_overdue_loans : emits P (notify_overdue_loans false).
Proof. unfold notify_overdue_loans, query_overdue_for_notice. emits_quiet. Qed.

Lemma quiet_send_payment_reminders_with gate :
  emits P gate -> emits P (send_payment_reminders_with gate false).
Proof. intros Hg. unfold send_payment_reminders_with. emits_quiet. Qed.

Lemma quiet_send_due_date_reminders_with gate :
  emits P gate -> emits P (send_due_date_reminders_with gate false).
Proof.
  intros Hg. unfold send_due_date_reminders_with, query_active_loans.
  emits_quiet.
Qed.

#[local] Hint Resolve quiet_update_overdue_loans quiet_apply_penalties
  quiet_notify_overdue_loans quiet_send_payment_reminders_with
  quiet_send_due_date_reminders_with : emits.

Lemma quiet_main t a : emits P (main t false a).
Proof.
  pose proof (quiet_send_payment_reminders_with _ quiet_is_22nd) as H22.
  pose proof (quiet_send_due_date_reminders_with _ quiet_is_28th) as H28.
  change (send_payment_reminders_with is_22nd_of_month false)
    with (send_payment_reminders false) in H22.
  change (send_due_date_reminders_with is_28th_of_month false)
    with (send_due_date_reminders false) in H28.
  unfold main. cbn [andb]. cbv iota. emits_quiet.
Qed.

Lemma quiet_run_cli args :
  no_send args = true -> test args = false -> emits P (run_cli args).
Proof.
  intros Hn Ht.
  pose proof (quiet_main false (admin_summary args)) as Hmain.
  pose proof (quiet_send_payment_reminders_with (ret true) (emits_ret _ _))
    as H22.
  pose proof (quiet_send_due_date_reminders_with (ret true) (emits_ret _ _))
    as H28.
  unfold run_cli. rewrite Hn, Ht. cbn [negb]. cbv iota. emits_quiet.
Qed.

End Quiet.

(** ** run_cli *)

Lemma never_raises_guarded {A} (op : M A) (fallback : A) :
  never_raises (guarded op fallback).
Proof. apply never_raises_try_except. intros e. apply never_raises_ret. Qed.

Lemma never_raises_tell_admin (subject : string) :
  never_raises (tell_admin subject).
Proof. apply never_raises_try_except. intros e. apply never_raises_ret. Qed.

Lemma never_raises_main t s a : never_raises (main t s a).
Proof.
  unfold main. apply never_raises_try_except. intros e.
  destruct (s && a); [apply never_raises_guarded | apply never_raises_ret].
Qed.

Lemma never_raises_apply_penalties b :
  never_raises (apply_penalties_to_overdue_loans b).
Proof.
  unfold apply_penalties_to_overdue_loans. apply never_raises_try_except.
  intros e. apply never_raises_ret.
Qed.

Lemma never_raises_send_payment_reminders_with gate b :
  never_raises (send_payment_reminders_with gate b).
Proof.
  unfold send_payment_reminders_with. apply never_raises_try_except.
  intros e. apply never_raises_ret.
Qed.

Lemma never_raises_send_due_date_reminders_with gate b :
  never_raises (send_due_date_reminders_with gate b).
Proof.
  unfold send_due_date_reminders_with. apply never_raises_try_except.
  intros e. apply never_raises_ret.
Qed.

Lemma bind_run {A B} (m : M A) (k : A -> M B) (w w' : world) (a : A) :
  m w = (Ok a, w') -> bind m k w = k a w'.
Proof. intros H. unfold bind. rewrite H. reflexivity. Qed.

(** A computation that never raises hands a value on. *)
Lemma bind_total {A B} (m : M A) (k : A -> M B) (w : world) :
  never_raises m ->
  exists a w', m w = (Ok a, w') /\ bind m k w = k a w'.
Proof.
  intros Hm. destruct (Hm w) as [a Ha]. unfold bind.
  destruct (m w) as [[a'|e] w']; cbn in Ha; [|discriminate].
  exists a', w'. split; reflexivity.
Qed.

Lemma emits_try_except_total {A} (P : request -> Prop) (m : M A)
    (classes : list exn_class) (h : exn -> M A) :
  emits P m -> never_raises m -> emits P (try_except m classes h).
Proof.
  intros Hm Hn w. unfold try_except. destruct (Hn w) as [a Ha].
  specialize (Hm w).
  destruct (m w) as [[a'|e] w']; cbn in Ha; [exact Hm | discriminate].
Qed.

(** The operation that the flags select, once the store has been found
    reachable. *)
Lemma never_raises_dispatch (args : cli_args) (send_emails : bool) :
  never_raises
    (if apply_penalties args then
       do apply_penalties_to_overdue_loans true then ret tt
     else if payment_reminders args then
       do send_payment_reminders_with (ret true) send_emails then ret tt
     else if due_date_reminders args then
       do send_due_date_reminders_with (ret true) send_emails then ret tt
     else main (test args) send_emails (admin_summary args)).
Proof.
  intros w.
  destruct (apply_penalties args).
  { destruct (bind_total (apply_penalties_to_overdue_loans true)
                (fun _ => ret tt) w (never_raises_apply_penalties true))
      as (a & w' & _ & ->). exists tt. reflexivity. }
  destruct (payment_reminders args).
  { destruct (bind_total (send_payment_reminders_with (ret true) send_emails)
                (fun _ => ret tt) w
                (never_raises_send_payment_reminders_with _ _))
      as (a & w' & _ & ->). exists tt. reflexivity. }
  destruct (due_date_reminders args).
  { destruct (bind_total (send_due_date_reminders_with (ret true) send_emails)
                (fun _ => ret tt) w
                (never_raises_send_due_date_reminders_with _ _))
      as (a & w' & _ & ->). exists tt. reflexivity. }
  apply never_raises_main.
Qed.

(** X4: run_cli never raises and exits with 0 or 1.  The exit code is 0
    exactly when the connection check passes: whatever happens afterwards
    in the operation that the flags select, the code stays 0. *)
Theorem run_cli_exit_code (args : cli_args) (w : world) :
  exists (code : Z) (w' : world),
    run_cli args w = (Ok code, w') /\
    (code = 0 \/ code = 1) /\
    (code = 0 <-> fst (check_database_connection w) = Ok true).
Proof.
  destruct (check_database_connection_run w) as (ok & w1 & l & Hrun & _).
  unfold run_cli, try_except. rewrite Hrun. cbn [fst].
  destruct (check_db args).
  - unfold bind. rewrite Hrun.
    destruct ok; eexists; eexists; (split; [reflexivity|]);
      (split; [auto|]); split; congruence.
  - unfold bind at 1. rewrite Hrun. destruct ok; cbn [negb].
    + destruct (bind_total _ (fun _ => ret 0) w1
                  (never_raises_dispatch args
                     (if test args then true else negb (no_send args))))
        as (a & w2 & _ & ->).
      exists 0, w2. split; [reflexivity|]. split; [auto|]. split; congruence.
    + destruct (negb (no_send args)).
      * destruct (bind_total _ (fun _ => ret 1) w1
                    (never_raises_tell_admin
                       "ERROR: Loan Payment System - Database Connection Failure"))
          as (a & w2 & _ & ->).
        exists 1, w2. split; [reflexivity|]. split; [auto|].
        split; [discriminate | congruence].
      * exists 1, w1. split; [reflexivity|]. split; [auto|].
        split; [discriminate | congruence].
Qed.

Lemma never_raises_check_database_connection :
  never_raises check_database_connection.
Proof.
  intros w. destruct (check_database_connection_run w) as (ok & w' & l & H & _).
  exists ok. rewrite H. reflexivity.
Qed.

(** X5: with [--check-db], run_cli sends count probes and nothing else (no
    query of rows, no update, no e-mail), whatever the other flags are,
    and its exit code is 0 when the check passes and 1 when it does not. *)
Theorem run_cli_check_db_only_probes (args : cli_args) :
  check_db args = true ->
  emits is_probe (run_cli args) /\
  forall w,
    fst (run_cli args w) =
      res_map (fun ok : bool => if ok then 0 else 1)
        (fst (check_database_connection w)).
Proof.
  intros Hc. unfold run_cli. rewrite Hc. split.
  - apply emits_try_except_total.
    + apply emits_bind.
      * unfold check_database_connection.
        emits_auto ltac:(eexists; reflexivity).
      * intros ok. destruct ok; apply emits_ret.
    + intros w.
      destruct (bind_total check_database_connection
                  (fun ok : bool => if ok then ret 0 else ret 1) w
                  never_raises_check_database_connection)
        as (ok & w' & _ & ->).
      destruct ok; eexists; reflexivity.
  - intros w. unfold try_except.
    destruct (bind_total check_database_connection
                (fun ok : bool => if ok then ret 0 else ret 1) w
                never_raises_check_database_connection)
      as (ok & w' & Hrun & ->).
    rewrite Hrun. destruct ok; reflexivity.
Qed.

(** X6: dry run.  With [send_emails=False] neither [main] nor the three
    notification operations send an e-mail, and run_cli with [--no-send]
    and without [--test] sends none either, whichever operation the flags
    select and whether or not the connection check passes. *)
Theorem dry_run_sends_no_mail :
  (forall test_mode send_admin_summary_email,
     emits no_mail (main test_mode false send_admin_summary_email)) /\
  emits no_mail (notify_overdue_loans false) /\
  emits no_mail (send_payment_reminders false) /\
  emits no_mail (send_due_date_reminders false) /\
  (forall args,
     no_send args = true -> test args = false ->
     emits no_mail (run_cli args)).
Proof.
  assert (Hq : forall r, is_mail r = false -> no_mail r) by (intros r H; exact H).
  split; [intros; apply quiet_main; exact Hq|].
  split; [apply quiet_notify_overdue_loans; exact Hq|].
  split.
  { apply (quiet_send_payment_reminders_with _ Hq is_22nd_of_month).
    apply quiet_is_22nd; exact Hq. }
  split.
  { apply (quiet_send_due_date_reminders_with _ Hq is_28th_of_month).
    apply quiet_is_28th; exact Hq. }
  intros args Hn Ht. apply quiet_run_cli; assumption.
Qed.

(** X7: once the connection check has passed, [--test] makes run_cli send
    whether [--no-send] is given or not: the two runs are the same.  When
    the check fails, [--no-send] is obeyed, with or without [--test]: no
    error mail goes to the administrator, and the exit code is 1. *)
Theorem run_cli_test_overrides_no_send (args : cli_args) (w : world) :
  (test args = true ->
   fst (check_database_connection w) = Ok true ->
   forall b, run_cli (with_no_send b args) w = run_cli args w) /\
  (check_db args = false -> no_send args = true ->
   fst (check_database_connection w) = Ok false ->
   run_cli args w = (Ok 1, snd (check_database_connection w))).
Proof.
  destruct (check_database_connection_run w) as (ok & w1 & l & Hrun & _).
  rewrite Hrun. cbn [fst snd]. split.
  - intros Ht Hok b. injection Hok as ->.
    unfold run_cli, with_no_send.
    cbn [test no_send admin_summary apply_penalties payment_reminders
         due_date_reminders check_db verbose].
    rewrite Ht. destruct (check_db args); [reflexivity|].
    unfold try_except. rewrite !(bind_run _ _ _ _ _ Hrun). reflexivity.
  - intros Hc Hn Hok. injection Hok as ->.
    unfold run_cli, try_except. rewrite Hc, Hn.
    rewrite (bind_run _ _ _ _ _ Hrun). reflexivity.
Qed.

(** X8: with [--apply-penalties] run_cli reads, and writes penalties only:
    every request is a read or the penalty update of a loan, and none sets
    a loan's status. *)
Theorem run_cli_apply_penalties_requests (args : cli_args) :
  apply_penalties args = true ->
  emits penalty_request (run_cli args) /\
  forall w,
    Forall (fun r => ~ status_write r)
      (take (length (sent (snd (run_cli args w))) - length (sent w))
         (sent (snd (run_cli args w)))).
Proof.
  intros Ha.
  assert (He : emits penalty_request (run_cli args)).
  { pose proof (emits_apply_penalties true) as Hpen.
    unfold run_cli, tell_admin, check_database_connection. rewrite Ha.
    emits_auto ltac:(left; reflexivity). }
  split; [exact He|]. intros w.
  destruct (He w) as (_ & l & Hl & Pl). rewrite Hl.
  rewrite length_app. replace (length l + length (sent w) - length (sent w))%nat
    with (length l) by lia.
  rewrite take_app_length.
  eapply Forall_impl; [exact Pl|]. intros r [Hr|(loan & id & p & _ & _ & ->)].
  - intros [id ->]. discriminate Hr.
  - intros [id' Heq]. unfold update_loan_penalty, update_loan_status in Heq.
    discriminate Heq.
Qed.

(** ** What a computation returns *)

Lemma returns_ret {A} (Q : A -> Prop) (a : A) : Q a -> returns Q (ret a).
Proof. intros H w a' w' E. inversion E; subst. exact H. Qed.

Lemma returns_raise {A} (Q : A -> Prop) (e : exn) : returns Q (raise e).
Proof. intros w a w' E. discriminate E. Qed.

Lemma returns_lift {A} (Q : A -> Prop) (r : res A) :
  (forall a, r = Ok a -> Q a) -> returns Q (lift r).
Proof. intros H w a w' E. inversion E; subst. apply H. reflexivity. Qed.

Lemma returns_bind {A B} (Q : B -> Prop) (m : M A) (k : A -> M B) :
  (forall a, returns Q (k a)) -> returns Q (bind m k).
Proof.
  intros Hk w b w' E. unfold bind in E.
  destruct (m w) as [[a|e] w1]; [|discriminate].
  exact (Hk a w1 b w' E).
Qed.

Lemma returns_bind_lift {A B} (Q : B -> Prop) (r : res A) (k : A -> M B) :
  (forall a, r = Ok a -> returns Q (k a)) -> returns Q (bind (lift r) k).
Proof.
  intros Hk w b w' E. unfold bind, lift in E.
  destruct r as [a|e]; [|discriminate].
  exact (Hk a eq_refl w b w' E).
Qed.

(** [bind] when the first computation is known by what it returns. *)
Lemma returns_bind_post {A B} (R : A -> Prop) (Q : B -> Prop) (m : M A)
    (k : A -> M B) :
  returns R m -> (forall a, R a -> returns Q (k a)) -> returns Q (bind m k).
Proof.
  intros Hm Hk w b w' E. unfold bind in E.
  destruct (m w) as [[a|e] w1] eqn:Em; [|discriminate].
  exact (Hk a (Hm w a w1 Em) w1 b w' E).
Qed.

Lemma returns_try_except {A} (Q : A -> Prop) (m : M A)
    (classes : list exn_class) (h : exn -> M A) :
  returns Q m -> (forall e, returns Q (h e)) ->
  returns Q (try_except m classes h).
Proof.
  intros Hm Hh w a w' E. unfold try_except in E.
  destruct (m w) as [[a1|e] w1] eqn:Em.
  - inversion E; subst. exact (Hm w a w' Em).
  - destruct (caught_by classes e); [|discriminate].
    exact (Hh e w1 a w' E).
Qed.

Lemma returns_for_each {A S} (I : S -> Prop) (body : A -> S -> M S)
    (l : list A) :
  (forall x s, I s -> returns I (body x s)) ->
  forall s, I s -> returns I (for_each body l s).
Proof.
  intros Hb. induction l as [|x l IH]; intros s Hs; cbn [for_each].
  - apply returns_ret. exact Hs.
  - apply (returns_bind_post I); [apply Hb; exact Hs | exact IH].
Qed.

Lemma returns_weaken {A} (Q R : A -> Prop) (m : M A) :
  (forall a, Q a -> R a) -> returns Q m -> returns R m.
Proof. intros H Hm w a w' E. apply H. exact (Hm w a w' E). Qed.

(** One structural step of a [returns] goal; what a returned value must
    satisfy is left to [side]. *)
Ltac returns_step side :=
  lazymatch goal with
  | |- returns _ (bind (lift _) _) => apply returns_bind_lift; intros ? ?
  | |- returns _ (bind _ _) => apply returns_bind; intros ?
  | |- returns _ (try_except _ _ _) => apply returns_try_except; [| intros ?]
  | |- returns _ (guarded _ _) => apply returns_try_except; [| intros ?]
  | |- returns _ (ret _) => apply returns_ret; side
  | |- returns _ (raise _) => apply returns_raise
  | |- returns _ (if ?b then _ else _) => destruct b
  | |- returns _ (match ?x with _ => _ end) => destruct x
  end.

Ltac returns_auto side := repeat returns_step side.

(** ** get_loans_due_next_month *)

Lemma normalized_due_date_day (loan : dict) (due : datetime) :
  normalized_due_date loan = Ok due -> day due = 28.
Proof.
  intros H. unfold normalized_due_date in H. rbind_inv H.
  unfold last_day_of in *. unfold with_day, replace_day, replace_ymd in H.
  match goal with
  | E : match monthrange ?y ?m with _ => _ end = Ok ?last |- _ =>
      destruct (monthrange y m) as [last'|] eqn:Hm; [|discriminate E];
      inversion E; subst; clear E
  end.
  pose proof (monthrange_bounds _ _ _ Hm) as Hb.
  destruct (valid_date _ _ _); [|discriminate H].
  inversion H; subst. cbn [day]. lia.
Qed.

Lemma attach_licence_keeps (loan : dict) :
  returns
    (fun loan' =>
       loan' !! "client" = loan !! "client" /\
       loan' !! "deposit_amount" = loan !! "deposit_amount")
    (attach_licence loan).
Proof.
  unfold attach_licence.
  returns_auto ltac:(idtac); try (split; reflexivity).
  rewrite !lookup_insert_ne by discriminate. split; reflexivity.
Qed.

Lemma attach_client_prepared (loan : dict) (acc : list dict) :
  Forall prepared acc -> returns (Forall prepared) (attach_client loan acc).
Proof.
  intros Hacc. unfold attach_client.
  apply returns_bind_lift; intros client_id _.
  apply returns_bind; intros client_response.
  apply returns_bind; intros clients.
  destruct clients as [|client _]; [apply returns_ret; exact Hacc|].
  cbv zeta.
  apply returns_bind_lift; intros deposit _.
  eapply returns_bind_post; [apply attach_licence_keeps|].
  cbv beta. intros loan1 [Hclient Hdeposit].
  apply returns_bind_lift; intros loan2 Hstore.
  apply returns_ret. apply Forall_app. split; [exact Hacc|].
  constructor; [|constructor].
  unfold store_due_date in Hstore.
  destruct (normalized_due_date loan1) as [due|e] eqn:Hdue; [|discriminate].
  cbn [rbind] in Hstore. inversion Hstore; subst; clear Hstore.
  split; [|split].
  - exists client. rewrite lookup_insert_ne by discriminate.
    rewrite Hclient, lookup_insert_ne by discriminate.
    apply lookup_insert_eq.
  - exists deposit. rewrite lookup_insert_ne by discriminate.
    rewrite Hdeposit. apply lookup_insert_eq.
  - exists due. split; [apply lookup_insert_eq|].
    exact (normalized_due_date_day _ _ Hdue).
Qed.

Lemma never_raises_get_loans_due_next_month :
  never_raises get_loans_due_next_month.
Proof.
  unfold get_loans_due_next_month. apply never_raises_try_except.
  intros e. apply never_raises_ret.
Qed.

(** X9: get_loans_due_next_month never raises, and every loan it returns
    has its client row attached under [client], a [deposit_amount], and a
    [payment_due_date] rewritten as the text of a date on the 28th. *)
Theorem loans_due_next_month_prepared (w : world) :
  exists (loans : list dict) (w' : world),
    get_loans_due_next_month w = (Ok loans, w') /\ Forall prepared loans.
Proof.
  destruct (never_raises_get_loans_due_next_month w) as [loans Hl].
  destruct (get_loans_due_next_month w) as [r w'] eqn:Hrun.
  cbn [fst] in Hl. subst r. exists loans, w'. split; [reflexivity|].
  revert Hrun. generalize w, loans, w'.
  change (returns (Forall prepared) get_loans_due_next_month).
  unfold get_loans_due_next_month.
  apply returns_try_except; [|intros e; apply returns_ret; constructor].
  apply returns_bind; intros now_. cbv zeta.
  apply returns_bind_lift; intros last_day _.
  apply returns_bind; intros response.
  apply returns_bind; intros rows.
  apply returns_for_each; [|constructor].
  intros loan acc Hacc. apply attach_client_prepared. exact Hacc.
Qed.

Lemma for_each_app {A S} (body : A -> S -> M S) (l1 l2 : list A) (s : S)
    (w : world) :
  for_each body (l1 ++ l2) s w =
    bind (for_each body l1 s) (for_each body l2) w.
Proof.
  revert s w. induction l1 as [|x l1 IH]; intros s w; cbn [app for_each].
  - reflexivity.
  - unfold bind. destruct (body x s w) as [[s'|e] w1]; [|reflexivity].
    rewrite IH. reflexivity.
Qed.

(** X10: get_loans_due_next_month gives up as a whole.  When the client
    lookup of one row fails on all three attempts, the result is the empty
    list: the loans prepared before that row are dropped with it, and the
    rows after it are not looked at. *)
Theorem failed_client_lookup_drops_all (w w1 w2 : world) (r : response)
    (before after prepared_loans : list dict) (row : dict) (client_id : value)
    (last_day : Z) (e1 e2 e3 : exn) (rest : list outcome) :
  last_day_of (next_month_start_of (clock w)) = Ok last_day ->
  with_retry
    (execute
       (query_loans (next_month_start_of (clock w))
          (mk_datetime (year (next_month_start_of (clock w)))
             (month (next_month_start_of (clock w))) last_day 23 59 59 0
             None))) w = (Ok (Some r), w1) ->
  data r = before ++ row :: after ->
  for_each attach_client before [] w1 = (Ok prepared_loans, w2) ->
  row !! "client_id" = Some client_id ->
  script w2 = Fail e1 :: Fail e2 :: Fail e3 :: rest ->
  get_loans_due_next_month w =
    (Ok [],
     mk_world (clock w2) rest
       (repeat (get_client_info client_id) 3 ++ sent w2) (2 :: 1 :: slept w2)).
Proof.
  intros Hlast Hquery Hdata Hbefore Hid Hdown.
  unfold get_loans_due_next_month, try_except.
  unfold bind at 1. unfold now at 1. cbv zeta.
  unfold bind at 1. unfold lift at 1. rewrite Hlast.
  unfold bind at 1. rewrite Hquery.
  unfold bind at 1. unfold data_of, ret at 1. rewrite Hdata.
  rewrite for_each_app. unfold bind at 1. rewrite Hbefore.
  cbn [for_each]. unfold bind at 1. unfold attach_client.
  unfold bind at 1. unfold lift at 1. rewrite (getitem_some _ _ _ Hid).
  unfold bind at 1. rewrite (with_retry_fails _ _ _ _ _ _ Hdown).
  reflexivity.
Qed.

(** ** create_invoice_email *)

Lemma parse_date_inv (v : value) (t : datetime) :
  parse_date v = Ok t ->
  exists s, v = VStr s /\ fromisoformat (replace_Z s) = Some t.
Proof.
  destruct v as [| | |s|]; cbn; try discriminate.
  destruct (fromisoformat (replace_Z s)) as [t'|] eqn:E; [|discriminate].
  intros H. inversion H; subst. eauto.
Qed.

(** The steps of create_invoice_email that can raise, all passed. *)
Lemma create_invoice_email_parts (loan : dict) (q : bool)
    (page : invoice_email) :
  create_invoice_email loan q = Ok page ->
  exists client due amounts schedule b remaining invoice first_name last_name,
    getitem loan "client" = Ok client /\
    normalized_due_date loan = Ok due /\
    payment_amounts loan = Ok amounts /\
    payment_schedule loan = Ok schedule /\
    getitem loan "remaining_balance" = Ok b /\
    py_float b = Ok remaining /\
    getitem loan "invoice_number" = Ok invoice /\
    subscript client "first_name" = Ok first_name /\
    subscript client "last_name" = Ok last_name /\
    format_2f (get loan "deposit_amount" (VInt 0)) = Ok tt /\
    first_payment_month page = fst (fst schedule) /\
    second_payment_month page = snd (fst schedule) /\
    third_payment_month page = snd schedule.
Proof.
  intros H. unfold create_invoice_email in H.
  destruct (getitem loan "client") as [client|] eqn:E1; [|discriminate].
  cbn [rbind] in H.
  destruct (normalized_due_date loan) as [due|] eqn:E2; [|discriminate].
  cbn [rbind] in H.
  destruct (payment_amounts loan) as [amounts|] eqn:E3; [|discriminate].
  cbn [rbind] in H.
  destruct (payment_schedule loan) as [schedule|] eqn:E4; [|discriminate].
  cbn [rbind] in H.
  destruct (getitem loan "remaining_balance") as [b|] eqn:E5; [|discriminate].
  cbn [rbind] in H.
  destruct (py_float b) as [remaining|] eqn:E6; [|discriminate].
  cbn [rbind] in H.
  destruct (getitem loan "invoice_number") as [invoice|] eqn:E7;
    [|discriminate].
  cbn [rbind] in H.
  destruct (subscript client "first_name") as [first_name|] eqn:E8;
    [|discriminate].
  cbn [rbind] in H.
  destruct (subscript client "last_name") as [last_name|] eqn:E9;
    [|discriminate].
  cbn [rbind] in H.
  destruct (format_2f (get loan "deposit_amount" (VInt 0))) as [[]|] eqn:E10;
    [|discriminate].
  cbn [rbind] in H. inversion H; subst; clear H.
  exists client, due, amounts, schedule, b, remaining, invoice, first_name,
    last_name.
  cbn [first_payment_month second_payment_month third_payment_month].
  repeat split; assumption || reflexivity.
Qed.

(** X11: create_invoice_email renders a page only for a loan that holds a
    client with a first and a last name, a payment due date and a start date
    that are ISO dates in text, a loan amount and a remaining balance that
    convert to floats, an invoice number, penalties that are a number when
    the key is there, and a deposit amount that is a number when the key is
    there. *)
Theorem create_invoice_email_needs (loan : dict) (q : bool)
    (page : invoice_email) :
  create_invoice_email loan q = Ok page ->
  (exists client first_name last_name,
     loan !! "client" = Some client /\
     subscript client "first_name" = Ok first_name /\
     subscript client "last_name" = Ok last_name) /\
  (exists s t,
     loan !! "payment_due_date" = Some (VStr s) /\
     fromisoformat (replace_Z s) = Some t) /\
  (exists s t,
     loan !! "start_date" = Some (VStr s) /\
     fromisoformat (replace_Z s) = Some t) /\
  (exists v loan_amount,
     loan !! "loan_amount" = Some v /\ py_float v = Ok loan_amount) /\
  (exists v remaining_balance,
     loan !! "remaining_balance" = Some v /\
     py_float v = Ok remaining_balance) /\
  (exists invoice_number, loan !! "invoice_number" = Some invoice_number) /\
  (exists has_penalties,
     gt_zero (get loan "penalties" (VInt 0)) = Ok has_penalties) /\
  format_2f (get loan "deposit_amount" (VInt 0)) = Ok tt.
Proof.
  intros H.
  destruct (create_invoice_email_parts _ _ _ H)
    as (client & due & amounts & schedule & b & remaining & invoice
          & first_name & last_name & Hc & Hd & Ha & Hs & Hb & Hr & Hi & Hf
          & Hl & Hdep & _).
  split. { exists client, first_name, last_name.
           split; [exact (getitem_inv _ _ _ Hc) | split; assumption]. }
  split.
  { unfold normalized_due_date in Hd.
    destruct (getitem loan "payment_due_date") as [v|] eqn:Ev; [|discriminate].
    cbn [rbind] in Hd.
    destruct (parse_date v) as [t|] eqn:Et; [|discriminate].
    destruct (parse_date_inv _ _ Et) as (s & -> & Hp).
    exists s, t. split; [exact (getitem_inv _ _ _ Ev) | exact Hp]. }
  split.
  { unfold payment_schedule in Hs.
    destruct (getitem loan "start_date") as [v|] eqn:Ev; [|discriminate].
    cbn [rbind] in Hs.
    destruct (parse_date v) as [t|] eqn:Et; [|discriminate].
    destruct (parse_date_inv _ _ Et) as (s & -> & Hp).
    exists s, t. split; [exact (getitem_inv _ _ _ Ev) | exact Hp]. }
  unfold payment_amounts in Ha.
  destruct (getitem loan "loan_amount") as [v|] eqn:Ev; [|discriminate].
  cbn [rbind] in Ha.
  destruct (py_float v) as [loan_amount|] eqn:Ef; [|discriminate].
  cbn [rbind] in Ha.
  destruct (gt_zero (get loan "penalties" (VInt 0))) as [has|] eqn:Eg;
    [|discriminate].
  split. { exists v, loan_amount. split; [exact (getitem_inv _ _ _ Ev) | exact Ef]. }
  split. { exists b, remaining. split; [exact (getitem_inv _ _ _ Hb) | exact Hr]. }
  split. { exists invoice. exact (getitem_inv _ _ _ Hi). }
  split. { exists has. reflexivity. }
  exact Hdep.
Qed.

(** X12: a loan whose [penalties] is there but is no number ([None] from a
    NULL column, or text) gets no page from create_invoice_email, whatever
    its other fields: [penalties > 0] raises.  The notification loops get
    nothing to send for it, and [main] passes the loan over: nothing is
    sent, the count stays. *)
Theorem penalties_not_a_number_no_page (loan : dict) (v : value) :
  loan !! "penalties" = Some v ->
  gt_zero v = Raise TypeError ->
  (forall q page, create_invoice_email loan q <> Ok page) /\
  (forall q, render loan q = Ok None) /\
  (forall test_mode send_emails n w,
     main_step test_mode send_emails loan n w = (Ok n, w)).
Proof.
  intros Hp Hv.
  assert (Hno : forall q page, create_invoice_email loan q <> Ok page).
  { intros q page H.
    destruct (create_invoice_email_parts _ _ _ H)
      as (client & due & amounts & schedule & b & remaining & invoice
            & first_name & last_name & _ & _ & Ha & _).
    unfold payment_amounts in Ha.
    destruct (getitem loan "loan_amount") as [x|]; [|discriminate].
    cbn [rbind] in Ha.
    destruct (py_float x) as [loan_amount|]; [|discriminate].
    cbn [rbind] in Ha. unfold get in Ha. rewrite Hp, Hv in Ha.
    discriminate Ha. }
  split; [exact Hno|]. split.
  - intros q. unfold render.
    destruct (create_invoice_email loan q) as [page|e] eqn:E.
    + exfalso. exact (Hno _ _ E).
    + reflexivity.
  - intros. apply main_step_unrendered. exact Hno.
Qed.

(** X13: in a page that create_invoice_email renders, the three payment
    months are the three calendar months after the month of the start date,
    on the day and at the time of day of the start date; after December
    comes January of the next year. *)
Theorem payment_schedule_months (loan : dict) (q : bool)
    (page : invoice_email) (s : string) (t : datetime) :
  create_invoice_email loan q = Ok page ->
  loan !! "start_date" = Some (VStr s) ->
  fromisoformat (replace_Z s) = Some t ->
  let on ym :=
    mk_datetime (fst ym) (snd ym) (day t) (hour t) (minute t) (second t)
      (microsecond t) (tzoffset t) in
  let m1 := next_ym (year t, month t) in
  let m2 := next_ym m1 in
  let m3 := next_ym m2 in
  first_payment_month page = on m1 /\
  second_payment_month page = on m2 /\
  third_payment_month page = on m3 /\
  next_ym (2024, 11) = (2024, 12) /\ next_ym (2024, 12) = (2025, 1).
Proof.
  intros H Hl Hp. cbv zeta.
  destruct (create_invoice_email_parts _ _ _ H)
    as (client & due & amounts & schedule & b & remaining & invoice
          & first_name & last_name & _ & _ & _ & Hs & _ & _ & _ & _ & _ & _
          & H1 & H2 & H3).
  rewrite H1, H2, H3. clear H1 H2 H3.
  unfold payment_schedule in Hs. rewrite (getitem_some _ _ _ Hl) in Hs.
  cbn [rbind] in Hs. rewrite (parse_date_str _ _ Hp) in Hs. cbn [rbind] in Hs.
  assert (Hnext : forall x y, next_payment_month x = Ok y ->
            y = mk_datetime (fst (next_ym (year x, month x)))
                  (snd (next_ym (year x, month x))) (day x) (hour x)
                  (minute x) (second x) (microsecond x) (tzoffset x)).
  { intros x y Hx. unfold next_payment_month, replace_ymd in Hx.
    unfold next_ym. cbn [fst snd].
    destruct (valid_date _ _ _); [|discriminate].
    inversion Hx. destruct (month x <? 12); reflexivity. }
  destruct (next_payment_month t) as [t1|] eqn:E1; [|discriminate].
  cbn [rbind] in Hs.
  destruct (next_payment_month t1) as [t2|] eqn:E2; [|discriminate].
  cbn [rbind] in Hs.
  destruct (next_payment_month t2) as [t3|] eqn:E3; [|discriminate].
  cbn [rbind] in Hs. inversion Hs; subst; clear Hs. cbn [fst snd].
  apply Hnext in E1. subst t1. apply Hnext in E2.
  cbn [year month day hour minute second microsecond tzoffset] in E2.
  rewrite <- surjective_pairing in E2. subst t2. apply Hnext in E3.
  cbn [year month day hour minute second microsecond tzoffset] in E3.
  rewrite <- surjective_pairing in E3. subst t3.
  repeat split; reflexivity.
Qed.

(** ** The days of the month *)

(** X14: the reminders are tied to their day.  On a day other than the
    22nd send_payment_reminders returns 0 and does nothing at all, like
    send_due_date_reminders on a day other than the 28th: no query, no
    mail, no wait.  On their day they do what the forced runs of run_cli
    ([--payment-reminders], [--due-date-reminders]) do on any day. *)
Theorem reminders_run_on_their_day_only :
  (forall send_emails w,
     day (clock w) <> 22 -> send_payment_reminders send_emails w = (Ok 0, w)) /\
  (forall send_emails w,
     day (clock w) <> 28 ->
     send_due_date_reminders send_emails w = (Ok 0, w)) /\
  (forall send_emails w,
     day (clock w) = 22 ->
     send_payment_reminders_with (ret true) send_emails w =
       send_payment_reminders send_emails w) /\
  (forall send_emails w,
     day (clock w) = 28 ->
     send_due_date_reminders_with (ret true) send_emails w =
       send_due_date_reminders send_emails w).
Proof.
  assert (H22 : forall w,
            is_22nd_of_month w = (Ok (day (clock w) =? 22), w))
    by reflexivity.
  assert (H28 : forall w,
            is_28th_of_month w = (Ok (day (clock w) =? 28), w))
    by reflexivity.
  split; [|split; [|split]].
  - intros b w Hd. unfold send_payment_reminders, try_except.
    rewrite (bind_run _ _ _ _ _ (H22 w)).
    replace (day (clock w) =? 22) with false by lia. reflexivity.
  - intros b w Hd. unfold send_due_date_reminders, try_except.
    rewrite (bind_run _ _ _ _ _ (H28 w)).
    replace (day (clock w) =? 28) with false by lia. reflexivity.
  - intros b w Hd.
    unfold send_payment_reminders, send_payment_reminders_with, try_except.
    rewrite (bind_run _ _ _ _ _ (H22 w)). rewrite Hd.
    rewrite (bind_run (ret true) _ w w true eq_refl). reflexivity.
  - intros b w Hd.
    unfold send_due_date_reminders, send_due_date_reminders_with, try_except.
    rewrite (bind_run _ _ _ _ _ (H28 w)). rewrite Hd.
    rewrite (bind_run (ret true) _ w w true eq_refl). reflexivity.
Qed.

Lemma emits_when_of_emits {A} (C : datetime -> Prop) (P : request -> Prop)
    (m : M A) :
  emits P m -> emits_when C P m.
Proof. intros H w _. apply H. Qed.

Lemma emits_when_bind {A B} (C : datetime -> Prop) (P : request -> Prop)
    (m : M A) (k : A -> M B) :
  emits_when C P m -> (forall a, emits_when C P (k a)) ->
  emits_when C P (bind m k).
Proof.
  intros Hm Hk w HC. unfold bind.
  destruct (Hm w HC) as (Hc & l & Hl & Pl).
  destruct (m w) as [[a|e] w']; cbn [snd] in *.
  - assert (HC' : C (clock w')) by (rewrite Hc; exact HC).
    destruct (Hk a w' HC') as (Hc' & l' & Hl' & Pl').
    split; [congruence|].
    exists (l' ++ l). rewrite Hl', Hl, app_assoc. split; [reflexivity|].
    apply Forall_app; auto.
  - split; [exact Hc|]. exists l. auto.
Qed.

Lemma emits_when_try_except {A} (C : datetime -> Prop) (P : request -> Prop)
    (m : M A) (classes : list exn_class) (h : exn -> M A) :
  emits_when C P m -> (forall e, emits_when C P (h e)) ->
  emits_when C P (try_except m classes h).
Proof.
  intros Hm Hh w HC. unfold try_except.
  destruct (Hm w HC) as (Hc & l & Hl & Pl).
  destruct (m w) as [[a|e] w']; cbn [snd] in *.
  - split; [exact Hc|]. exists l. auto.
  - destruct (caught_by classes e); [|split; [exact Hc|]; exists l; auto].
    assert (HC' : C (clock w')) by (rewrite Hc; exact HC).
    destruct (Hh e w' HC') as (Hc' & l' & Hl' & Pl').
    split; [congruence|].
    exists (l' ++ l). rewrite Hl', Hl, app_assoc. split; [reflexivity|].
    apply Forall_app; auto.
Qed.

(** Off the 3rd the test of the day answers [False]. *)
Lemma emits_when_not_the_3rd {B} (P : request -> Prop) (k : bool -> M B) :
  emits_when (fun t => day t <> 3) P (k false) ->
  emits_when (fun t => day t <> 3) P (bind is_3rd_of_month k).
Proof.
  intros Hk w HC.
  assert (H3 : is_3rd_of_month w = (Ok (day (clock w) =? 3), w))
    by reflexivity.
  rewrite (bind_run _ _ _ _ _ H3).
  replace (day (clock w) =? 3) with false by lia.
  exact (Hk w HC).
Qed.

Lemma main_off_the_3rd (send_emails send_admin_summary_email : bool) :
  emits_when (fun t => day t <> 3) overdue_request
    (main false send_emails send_admin_summary_email).
Proof.
  pose proof emits_update_overdue_loans as Hup.
  unfold main. cbv iota.
  apply emits_when_try_except.
  2:{ intros e. apply emits_when_of_emits.
      emits_auto ltac:(left; reflexivity). }
  apply emits_when_bind.
  { apply emits_when_of_emits. emits_auto ltac:(left; reflexivity). }
  intros _.
  apply emits_when_bind.
  { apply emits_when_of_emits. emits_auto ltac:(left; reflexivity). }
  intros overdue_count.
  apply emits_when_not_the_3rd.
  apply emits_when_of_emits.
  emits_auto ltac:(left; reflexivity).
Qed.

(** X15: outside test mode, a run of [main] on a day other than the 3rd
    writes no penalty: every request it sends is a read or the status
    update of a loan. *)
Theorem no_penalty_off_the_3rd (send_emails send_admin_summary_email : bool)
    (w : world) :
  day (clock w) <> 3 ->
  exists l,
    sent (snd (main false send_emails send_admin_summary_email w)) =
      l ++ sent w /\
    Forall overdue_request l /\
    Forall (fun r => ~ penalty_write r) l.
Proof.
  intros Hd.
  destruct (main_off_the_3rd send_emails send_admin_summary_email w Hd)
    as (_ & l & Hl & Pl).
  exists l. split; [exact Hl|]. split; [exact Pl|].
  eapply Forall_impl; [exact Pl|].
  intros r [Hr|[id ->]] (loan & id' & p & _ & _ & Heq).
  - subst r. discriminate Hr.
  - unfold update_loan_status, update_loan_penalty in Heq. discriminate Heq.
Qed.

(** ** is_third_last_day_of_month *)

(** X16: on a valid date is_third_last_day_of_month raises nothing and
    sends nothing; it holds exactly on the day [last_day - 2] of the month,
    which lies between the 26th and the 29th: never on the 3rd or the 22nd,
    the days of the penalties and of the statements, and on the 28th, the
    day of the due date reminders, only in a month of 30 days. *)
Theorem third_last_day_spec (w : world) :
  valid_datetime (clock w) = true ->
  exists (last_day : Z) (b : bool),
    monthrange (year (clock w)) (month (clock w)) = Some last_day /\
    is_third_last_day_of_month w = (Ok b, w) /\
    (b = true <-> day (clock w) = last_day - 2) /\
    (b = true -> 26 <= day (clock w) <= 29) /\
    (b = true -> is_3rd_of_month w = (Ok false, w) /\
                 is_22nd_of_month w = (Ok false, w)) /\
    (b = true -> (is_28th_of_month w = (Ok true, w) <-> last_day = 30)).
Proof.
  intros Hv. apply valid_date_inv in Hv as (last & Hm & Hy & Hd).
  pose proof (monthrange_bounds _ _ _ Hm) as Hb.
  exists last, (day (clock w) =? last - 2).
  split; [exact Hm|]. split.
  { unfold is_third_last_day_of_month, bind, now, lift, last_day_of, ret.
    rewrite Hm. reflexivity. }
  split; [lia|]. split; [lia|].
  unfold is_3rd_of_month, is_22nd_of_month, is_28th_of_month, bind, now, ret.
  split.
  - intros H. split; do 2 f_equal; lia.
  - intros H. split.
    + intros E. inversion E. lia.
    + intros E. do 2 f_equal. lia.
Qed.

(** ** The sum of the payments *)

(** X17: in the sum of the month's payments a payment whose amount does not
    convert to a float (a [None], text that is no number) is left out and
    the others are summed as if it were not there; a payment row without
    the key [amount] is not forgiven: the sum raises [KeyError]. *)
Theorem sum_payments_skips_invalid_amount (before after : list dict)
    (payment : dict) (v : value) (e : exn) (total : float) :
  payment !! "amount" = Some v ->
  py_float v = Raise e ->
  e = ValueError \/ e = TypeError ->
  sum_payments (before ++ payment :: after) total =
    sum_payments (before ++ after) total /\
  (forall row rest t,
     row !! "amount" = None -> sum_payments (row :: rest) t = Raise KeyError) /\
  py_float VNone = Raise TypeError.
Proof.
  intros Hv Hf He. split; [|split].
  - revert total. induction before as [|p before IH]; intros total.
    + cbn [app sum_payments]. rewrite (getitem_some _ _ _ Hv).
      cbn [rbind]. rewrite Hf.
      destruct He as [-> | ->]; reflexivity.
    + cbn [app sum_payments].
      destruct (rcatch _ _ _) as [t|e']; [|reflexivity].
      cbn [rbind]. apply IH.
  - intros row rest t Hrow. cbn [sum_payments]. unfold getitem.
    rewrite Hrow. reflexivity.
  - reflexivity.
Qed.

(** ** main *)

(** X18: [main] never raises.  When its probe of the store fails it does
    nothing else but, with [send_emails] and the admin summary both on,
    report the failure to the administrator: no loan is read, updated or
    notified. *)
Theorem main_never_raises :
  (forall test_mode send_emails send_admin_summary_email w,
     exists w',
       main test_mode send_emails send_admin_summary_email w = (Ok tt, w')) /\
  (forall test_mode w e rest,
     script w = Fail e :: rest ->
     main test_mode true true w =
       tell_admin "ERROR: Loan Payment Notification System Failure"
         (mk_world (clock w) rest (SelectCount "loans" :: sent w) (slept w))).
Proof.
  split.
  - intros t s a w. destruct (never_raises_main t s a w) as [[] H].
    destruct (main t s a w) as [r w']. cbn [fst] in H. subst r.
    exists w'. reflexivity.
  - intros t w e rest Hs. unfold main. unfold try_except at 1.
    unfold bind at 1. unfold try_except at 1. unfold bind at 1.
    unfold execute at 1. rewrite Hs. reflexivity.
Qed.

(** ** The counters of the loops *)

Lemma deliver_counts send_emails client subject body c :
  returns (counted_once c) (deliver send_emails client subject body c).
Proof.
  unfold deliver, counted_once.
  returns_auto ltac:(solve [left; reflexivity | right; reflexivity]).
Qed.

Lemma find_client_counts loan c :
  returns
    (fun found =>
       match found with inl c' => c' = count_error c | inr _ => True end)
    (find_client loan c).
Proof.
  unfold find_client.
  returns_auto ltac:(solve [reflexivity | exact I]).
Qed.

(** One step of a [returns] goal in a notification loop. *)
Ltac counts_step :=
  lazymatch goal with
  | |- returns _ (bind (find_client _ _) _) =>
      eapply returns_bind_post; [apply find_client_counts | cbv beta; intros ? ?]
  | |- returns _ (deliver _ _ _ _ _) => apply deliver_counts
  | |- returns _ _ =>
      returns_step
        ltac:(subst; solve [left; reflexivity | right; reflexivity])
  end.

Lemma notify_step_counts b f n loan c :
  returns (counted_once c) (notify_step b f n loan c).
Proof.
  unfold notify_step. repeat counts_step.
Qed.

Lemma due_date_reminder_step_counts b f n loan c :
  returns (counted_once c) (due_date_reminder_step b f n loan c).
Proof.
  unfold due_date_reminder_step. repeat counts_step.
Qed.

Lemma payment_reminder_step_counts b loan c :
  returns (counted_once c) (payment_reminder_step b loan c).
Proof. unfold payment_reminder_step. repeat counts_step. Qed.

(** A loop whose every step counts its loan once has counted them all. *)
Lemma for_each_counted_once (step : dict -> counters -> M counters)
    (loans : list dict) :
  (forall loan c, returns (counted_once c) (step loan c)) ->
  forall c,
    returns
      (fun c' =>
         done_count c' + error_count c' =
           done_count c + error_count c + Z.of_nat (length loans) /\
         done_count c <= done_count c' /\
         error_count c <= error_count c' /\
         skipped_count c' = skipped_count c)
      (for_each step loans c).
Proof.
  intros Hstep. induction loans as [|loan loans IH]; intros c;
    cbn [for_each].
  - apply returns_ret. cbn [length]. lia.
  - eapply returns_bind_post; [apply Hstep|]. cbv beta.
    intros c1 Hc1. eapply returns_weaken; [|apply IH].
    cbv beta. intros c2 (Hsum & Hd & He & Hs).
    destruct Hc1 as [-> | ->]; cbn [count_done count_error done_count
      error_count skipped_count length] in *; lia.
Qed.

Lemma overdue_step_counts f n loan c :
  returns
    (fun c' => done_count c <= done_count c' <= done_count c + 1)
    (overdue_step f n loan c).
Proof.
  unfold overdue_step, write_and_count, after_update.
  returns_auto ltac:(cbn; lia).
Qed.

Lemma penalty_step_counts f n loan c :
  returns
    (fun c' =>
       done_count c <= done_count c' /\
       skipped_count c <= skipped_count c' /\
       done_count c' + skipped_count c' <=
         done_count c + skipped_count c + 1)
    (penalty_step f n loan c).
Proof.
  unfold penalty_step, write_and_count, after_update.
  returns_auto ltac:(cbn; lia).
Qed.

Lemma returns_total {A} (Q : A -> Prop) (m : M A) (w : world) :
  returns Q m -> never_raises m ->
  exists a w', m w = (Ok a, w') /\ Q a.
Proof.
  intros Hr Hn. destruct (Hn w) as [a Ha].
  destruct (m w) as [r w'] eqn:E. cbn [fst] in Ha. subst r.
  exists a, w'. split; [reflexivity|]. exact (Hr w a w' E).
Qed.

Lemma never_raises_for_each {A S} (body : A -> S -> M S) (l : list A) :
  (forall x s, never_raises (body x s)) ->
  forall s, never_raises (for_each body l s).
Proof.
  intros Hb. induction l as [|x l IH]; intros s w; cbn [for_each].
  - exists s. reflexivity.
  - unfold bind. destruct (Hb x s w) as [s' Hs'].
    destruct (body x s w) as [[s1|e] w']; cbn [fst] in Hs';
      [apply IH | discriminate].
Qed.

Lemma for_each_overdue_counts f n rows c :
  returns
    (fun c' =>
       done_count c <= done_count c' <=
         done_count c + Z.of_nat (length rows))
    (for_each (overdue_step f n) rows c).
Proof.
  revert c. induction rows as [|row rows IH]; intros c; cbn [for_each].
  - apply returns_ret. cbn [length]. lia.
  - eapply returns_bind_post; [apply overdue_step_counts|]. cbv beta.
    intros c1 Hc1. eapply returns_weaken; [|apply IH].
    cbv beta. intros c2 Hc2. cbn [length]. lia.
Qed.

Lemma for_each_penalty_counts f n rows c :
  returns
    (fun c' =>
       done_count c <= done_count c' /\
       skipped_count c <= skipped_count c' /\
       done_count c' + skipped_count c' <=
         done_count c + skipped_count c + Z.of_nat (length rows))
    (for_each (penalty_step f n) rows c).
Proof.
  revert c. induction rows as [|row rows IH]; intros c; cbn [for_each].
  - apply returns_ret. cbn [length]. lia.
  - eapply returns_bind_post; [apply penalty_step_counts|]. cbv beta.
    intros c1 Hc1. eapply returns_weaken; [|apply IH].
    cbv beta. intros c2 Hc2. cbn [length]. lia.
Qed.

(** X19: the counts that update_overdue_loans and
    apply_penalties_to_overdue_loans return stay within the rows that their
    query was answered with: the number of loans made overdue lies between
    0 and the number of rows, and the loans penalised and the loans skipped
    are, together, no more than the rows. *)
Theorem counts_within_rows :
  (forall w r rest,
     script w = Reply r :: rest ->
     exists n w',
       update_overdue_loans w = (Ok n, w') /\
       0 <= n <= Z.of_nat (length (data r))) /\
  (forall bypass w r rest,
     bypass = true \/ day (clock w) = 3 ->
     script w = Reply r :: rest -> data r <> [] ->
     exists counts w',
       apply_penalties_to_overdue_loans bypass w = (Ok counts, w') /\
       0 <= fst counts /\ 0 <= snd counts /\
       fst counts + snd counts <= Z.of_nat (length (data r))).
Proof.
  split.
  - intros w r rest Hs. rewrite (update_overdue_loans_loop _ _ _ Hs).
    apply returns_total; [|apply never_raises_guarded].
    apply returns_try_except; [|intros e; apply returns_ret; lia].
    eapply returns_bind_post; [apply for_each_overdue_counts|].
    cbv beta. intros c Hc. apply returns_ret.
    cbn [no_counts done_count] in Hc. lia.
  - intros bypass w r rest Hgate Hs Hne.
    rewrite (apply_penalties_loop _ _ _ _ Hgate Hs Hne).
    apply returns_total; [|apply never_raises_guarded].
    apply returns_try_except; [|intros e; apply returns_ret; cbn; lia].
    eapply returns_bind_post; [apply for_each_penalty_counts|].
    cbv beta. intros c Hc. apply returns_ret.
    cbn [no_counts done_count skipped_count fst snd] in *. lia.
Qed.

(** X20: the three notification loops account for every loan exactly once.
    Each step returns, whatever happens, with the loan either counted as
    notified or counted as an error; so after the loop the notifications
    and the errors add up to the number of loans, and the count returned is
    at most that number. *)
Theorem notification_loops_count_every_loan (send_emails : bool)
    (first_day_of_month now_ : datetime) (loans : list dict) (w : world) :
  let accounted (c : counters) :=
    done_count c + error_count c = Z.of_nat (length loans) /\
    0 <= done_count c /\ 0 <= error_count c /\ skipped_count c = 0 in
  (exists c w',
     for_each (notify_step send_emails first_day_of_month now_) loans
       no_counts w = (Ok c, w') /\ accounted c) /\
  (exists c w',
     for_each (payment_reminder_step send_emails) loans no_counts w
       = (Ok c, w') /\ accounted c) /\
  (exists c w',
     for_each (due_date_reminder_step send_emails first_day_of_month now_)
       loans no_counts w = (Ok c, w') /\ accounted c).
Proof.
  cbv zeta.
  assert (Hpost : forall step,
            (forall loan c, returns (counted_once c) (step loan c)) ->
            (forall loan c, never_raises (step loan c)) ->
            exists c w',
              for_each step loans no_counts w = (Ok c, w') /\
              done_count c + error_count c = Z.of_nat (length loans) /\
              0 <= done_count c /\ 0 <= error_count c /\
              skipped_count c = 0).
  { intros step Hc Hn.
    destruct (returns_total _ _ w
                (for_each_counted_once step loans Hc no_counts)
                (never_raises_for_each step loans Hn no_counts))
      as (c & w' & Hrun & Hsum & Hd & He & Hs).
    exists c, w'. split; [exact Hrun|].
    cbn [no_counts done_count error_count skipped_count] in *. lia. }
  split; [|split]; apply Hpost.
  - intros; apply notify_step_counts.
  - intros loan c. unfold notify_step. apply never_raises_try_except.
    intros e. apply never_raises_ret.
  - intros; apply payment_reminder_step_counts.
  - intros loan c. unfold payment_reminder_step.
    apply never_raises_try_except. intros e. apply never_raises_ret.
  - intros; apply due_date_reminder_step_counts.
  - intros loan c. unfold due_date_reminder_step.
    apply never_raises_try_except. intros e. apply never_raises_ret.
Qed.

(** ** The due date of the notifications *)


End Engine.

(** * The engine on data *)

(** C8, counterexample: a store call that first fails with a [ValueError],
    which is no transport or timeout error, is attempted again after a
    second's sleep, and the second answer is returned.  And one remote call
    does not go through the wrapper: when the probe that opens [main] meets
    a timeout, [main] gives up after that one attempt, without a sleep,
    which no call of retry_with_backoff would do. *)
Lemma retry_on_any_exception :
  check_loans_table
    (mk_world noon [Fail ValueError; Reply (mk_response [] 7)] [] []) =
  (Ok true,
   mk_world noon [] [SelectCount "loans"; SelectCount "loans"] [1]) /\
  let w := mk_world noon [Fail TimeoutError; Reply (mk_response [] 7)] [] [] in
  main sample_float sample_fromisoformat sample_isoformat sample_str
    sample_strftime false true false w =
  (Ok tt, mk_world noon [Reply (mk_response [] 7)] [SelectCount "loans"] []) /\
  ~ retried_calls w
      (snd (main sample_float sample_fromisoformat sample_isoformat sample_str
              sample_strftime false true false w)).
Proof.
  split; [reflexivity|]. cbv zeta. split; [reflexivity|].
  change (snd (main sample_float sample_fromisoformat sample_isoformat
                 sample_str sample_strftime false true false
                 (mk_world noon
                    [Fail TimeoutError; Reply (mk_response [] 7)] [] [])))
    with (mk_world noon [Reply (mk_response [] 7)] [SelectCount "loans"] []).
  intros H. inversion H as [w0 Hw|req w0 w' Hm Hrest|to s b w0 w' Hrest
                            |w0 w' Hrest]; subst;
    apply retried_calls_grow in Hrest; vm_compute in Hrest;
    destruct Hrest as [Hsent Hslept]; lia.
Qed.


(** The payment reminder of the 22nd works on the loans of
    get_loans_due_next_month: for a loan stored as due on 31 July its banner
    and its page both give 28 July. *)
Lemma payment_reminder_banner :
  mail_due_dates
    (snd (send_payment_reminders sample_float sample_fromisoformat
            sample_isoformat sample_str sample_strftime true
            (on_june_22nd
               [mk_response
                  [sample_loan (VFloat 9000) (VFloat 6000) (VInt 0)
                     "2024-07-31" "2024-04-15"] 1;
                mk_response [sample_client] 1]))) =
  [(Some "28 July 2024"%string, mk_datetime 2024 7 28 0 0 0 0 None);
   (Some "28 July 2024"%string, mk_datetime 2024 7 28 0 0 0 0 None)].
Proof. vm_compute. reflexivity. Qed.

(** C9, counterexample: a loan that started on 30 March 2023.  April has
    fewer days than March, yet the schedule is 30 April, 30 May and 30 June
    and the page is rendered. *)
Lemma start_on_30_march_renders :
  let loan :=
    sample_loan (VFloat 9000) (VFloat 6000) (VInt 0) "2023-06-28" "2023-03-30" in
  monthrange 2023 3 = Some 31 /\ monthrange 2023 4 = Some 30 /\
  payment_schedule sample_fromisoformat loan =
    Ok (mk_datetime 2023 4 30 0 0 0 0 None,
        mk_datetime 2023 5 30 0 0 0 0 None,
        mk_datetime 2023 6 30 0 0 0 0 None) /\
  exists page,
    create_invoice_email sample_float sample_fromisoformat sample_str loan true
      = Ok page.
Proof.
  cbv zeta. repeat split. eexists. vm_compute. reflexivity.
Qed.

(** C9, witness: a loan that started on 31 January 2024. *)
Lemma schedule_breaks_witness :
  let loan :=
    sample_loan (VFloat 9000) (VFloat 6000) (VInt 0) "2024-06-28" "2024-01-31" in
  payment_schedule sample_fromisoformat loan = Raise ValueError /\
  (forall q page,
     create_invoice_email sample_float sample_fromisoformat sample_str loan q
       <> Ok page) /\
  (forall q client due amounts,
     getitem loan "client" = Ok client ->
     normalized_due_date sample_fromisoformat loan = Ok due ->
     payment_amounts sample_float loan = Ok amounts ->
     create_invoice_email sample_float sample_fromisoformat sample_str loan q
       = Raise ValueError) /\
  (forall q,
     render sample_float sample_fromisoformat sample_str loan q = Ok None) /\
  (forall test_mode send_emails n w,
     main_step sample_float sample_fromisoformat sample_str test_mode
       send_emails loan n w = (Ok n, w)).
Proof.
  cbv zeta.
  apply (schedule_breaks_on_missing_day sample_float sample_fromisoformat
           sample_str
           (sample_loan (VFloat 9000) (VFloat 6000) (VInt 0) "2024-06-28"
              "2024-01-31")
           "2024-01-31" (mk_datetime 2024 1 31 0 0 0 0 None));
    reflexivity.
Defined.

(** C3, witness: a loan of 9000 with [penalties = 2] shows
    3000 + 2 * 3000 + 600 = 9600. *)
Lemma shown_payment_amount_witness :
  let loan :=
    sample_loan (VFloat 9000) (VFloat 6000) (VInt 2) "2024-06-28" "2024-03-15" in
  exists page,
    create_invoice_email sample_float sample_fromisoformat sample_str loan true
      = Ok page /\
    shown_payment_amount page = 9600%float /\
    exists v loan_amount,
      loan !! "loan_amount" = Some v /\
      py_float sample_float v = Ok loan_amount /\
      let base := py_round2 (PrimFloat.div loan_amount 3) in
      let penalties := get loan "penalties" (VInt 0) in
      base_payment page = base /\
      (loan !! "penalties" = None -> shown_payment_amount page = base) /\
      (eq_zero penalties = true -> shown_payment_amount page = base) /\
      (gt_zero penalties = Ok true ->
         exists missed,
           mul_float penalties base = Ok missed /\
           shown_payment_amount page =
             py_round2
               (PrimFloat.add (PrimFloat.add base missed)
                  (PrimFloat.mul missed one_tenth))).
Proof.
  cbv zeta. eexists. split; [vm_compute; reflexivity|].
  split; [vm_compute; reflexivity|].
  apply (shown_payment_amount_spec sample_float sample_fromisoformat
           sample_str _ true).
  vm_compute. reflexivity.
Defined.


(** The whole of update_overdue_loans on that loan: with 3000 paid nothing
    is written and no loan is counted. *)
Lemma update_overdue_loans_paid :
  update_overdue_loans sample_float sample_fromisoformat
    (world_answering
       [mk_response [april_loan (VInt 0)] 1; paid_in_may (VFloat 3000)]) =
  (Ok 0,
   mk_world noon []
     [query_payments (VInt 1) first_of_may noon; query_overdue_loans noon] []).
Proof. vm_compute. reflexivity. Qed.

(** With 2999.99 paid the status is written, the store answers with the
    row, and the loan is counted. *)
Lemma update_overdue_loans_short :
  update_overdue_loans sample_float sample_fromisoformat
    (world_answering
       [mk_response [april_loan (VInt 0)] 1; paid_in_may (VFloat 2999.99);
        mk_response [april_loan (VInt 0)] 1; mk_response [sample_client] 1]) =
  (Ok 1,
   mk_world noon []
     [get_client_names (VInt 7); update_loan_status (VInt 1);
      query_payments (VInt 1) first_of_may noon; query_overdue_loans noon] []).
Proof. vm_compute. reflexivity. Qed.

(** C2, witness: a loan of 5000 without penalties and without payments in
    May gets the update that sets its penalties to 500, which the store
    confirms; the row with penalties of 500 gets the update that sets them
    to 1000. *)
Lemma penalties_accumulate_witness :
  let payments_query :=
    Select "loan_payments" "payment_date, amount"
      [mk_filter op_eq "loan_id" (arg_value (VInt 1));
       mk_filter op_gte "payment_date" (arg_time first_of_may);
       mk_filter op_lte "payment_date" (arg_time noon)] in
  let w :=
    world_answering
      [mk_response [] 0; mk_response [loan_of_5000 (VFloat 500)] 1;
       mk_response [sample_client] 1] in
  (exists c' w' reads,
     penalty_step sample_float sample_fromisoformat first_of_may noon
       (loan_of_5000 (VInt 0)) no_counts w = (Ok c', w') /\
     sent w' =
       reads ++
       [Update "loans" [("penalties", VFloat 500)]
          [mk_filter op_eq "id" (arg_value (VInt 1))];
        payments_query] /\
     Forall read_only reads /\
     done_count c' = 1) /\
  (exists c' w' reads,
     penalty_step sample_float sample_fromisoformat first_of_may noon
       (<["penalties" := VFloat 500]> (loan_of_5000 (VInt 0))) no_counts w
       = (Ok c', w') /\
     sent w' =
       reads ++
       [Update "loans" [("penalties", VFloat 1000)]
          [mk_filter op_eq "id" (arg_value (VInt 1))];
        payments_query] /\
     Forall read_only reads /\
     done_count c' = 1).
Proof.
  cbv zeta.
  destruct (penalties_accumulate sample_float sample_fromisoformat
              first_of_may noon (loan_of_5000 (VInt 0)) no_counts
              (world_answering
                 [mk_response [] 0; mk_response [loan_of_5000 (VFloat 500)] 1;
                  mk_response [sample_client] 1])
              (mk_world noon
                 [Reply (mk_response [loan_of_5000 (VFloat 500)] 1);
                  Reply (mk_response [sample_client] 1)]
                 [query_payments (VInt 1) first_of_may noon] [])
              (VInt 1) (VStr "INV-001") (VFloat 5000) (VFloat 5000)
              (mk_datetime 2024 4 28 0 0 0 0 None) 5000 5000 0 0
              (mk_response [] 0)
              eq_refl eq_refl eq_refl eq_refl eq_refl eq_refl eq_refl eq_refl
              eq_refl eq_refl eq_refl eq_refl eq_refl)
    as (H1 & H2 & _).
  split.
  - destruct H1 as (c' & w' & k & reads & Hrun & _ & Hsent & Hreads & Hfirst).
    destruct (Hfirst _ _ eq_refl) as [-> Hcount]; [discriminate|].
    exists c', w', reads.
    split; [exact Hrun|]. split; [exact Hsent|]. split; [exact Hreads|].
    exact Hcount.
  - destruct H2 as (c' & w' & k & reads & Hrun & _ & Hsent & Hreads & Hfirst).
    destruct (Hfirst _ _ eq_refl) as [-> Hcount]; [discriminate|].
    exists c', w', reads.
    split; [exact Hrun|]. split; [exact Hsent|]. split; [exact Hreads|].
    exact Hcount.
Defined.

(** The whole of apply_penalties_to_overdue_loans on the 3rd of May: a loan
    of 5000 without penalties is written with 500 and counted. *)
Lemma apply_penalties_once :
  apply_penalties_to_overdue_loans sample_float sample_fromisoformat false
    (world_answering
       [mk_response [loan_of_5000 (VInt 0)] 1; mk_response [] 0;
        mk_response [loan_of_5000 (VFloat 500)] 1;
        mk_response [sample_client] 1]) =
  (Ok (1, 0),
   mk_world noon []
     [get_client_names (VInt 7); update_loan_penalty (VInt 1) 500;
      query_payments (VInt 1) first_of_may noon; query_overdue_for_penalties]
     []).
Proof. vm_compute. reflexivity. Qed.

(** Run again the same day on the row it left: 500 more. *)
Lemma apply_penalties_twice :
  apply_penalties_to_overdue_loans sample_float sample_fromisoformat false
    (world_answering
       [mk_response [loan_of_5000 (VFloat 500)] 1; mk_response [] 0;
        mk_response [loan_of_5000 (VFloat 1000)] 1;
        mk_response [sample_client] 1]) =
  (Ok (1, 0),
   mk_world noon []
     [get_client_names (VInt 7); update_loan_penalty (VInt 1) 1000;
      query_payments (VInt 1) first_of_may noon; query_overdue_for_penalties]
     []).
Proof. vm_compute. reflexivity. Qed.

(** C5, witness: a loan of 9000 and a payment of 2999.99: both tests let
    the loan through. *)
Lemma payment_tests_agree_witness :
  overdue_payment_test sample_float (april_loan (VInt 0)) first_of_may noon
    (world_answering [paid_in_may (VFloat 2999.99)]) =
  (res_map fst
     (fst (penalty_payment_test sample_float sample_fromisoformat
             (april_loan (VInt 0)) first_of_may noon
             (world_answering [paid_in_may (VFloat 2999.99)]))),
   snd (penalty_payment_test sample_float sample_fromisoformat
          (april_loan (VInt 0)) first_of_may noon
          (world_answering [paid_in_may (VFloat 2999.99)]))).
Proof.
  apply (payment_tests_agree sample_float sample_fromisoformat
           (april_loan (VInt 0)) first_of_may noon
           (world_answering [paid_in_may (VFloat 2999.99)])).
  reflexivity.
Defined.

(** Both verdicts on that loan, as values. *)
Lemma payment_tests_verdicts :
  fst (overdue_payment_test sample_float (april_loan (VInt 0))
         first_of_may noon
         (world_answering [paid_in_may (VFloat 2999.99)])) =
    Ok (Insufficient 2999.99 3000) /\
  fst (overdue_payment_test sample_float (april_loan (VInt 0))
         first_of_may noon
         (world_answering [paid_in_may (VFloat 3000)])) = Ok Sufficient.
Proof. split; vm_compute; reflexivity. Qed.

(** C6, witness: a remaining balance of 750.00 makes a Statement. *)
Lemma statement_or_invoice_witness :
  classify sample_str false (july_loan (VFloat 750)) (VDict sample_client) =
  Ok (true, "Statement", "Gunnery Payment Due Quote: INV-001"%string).
Proof.
  refine (proj1 (statement_or_invoice sample_float sample_fromisoformat
                   sample_isoformat sample_str sample_strftime false
                   (july_loan (VFloat 750))
                   (VDict sample_client) (VFloat 750) (VStr "INV-001")
                   (VStr "Thandi") (VStr "Mokoena") _ _ _ _) _);
    reflexivity.
Defined.

(** [main] on 22 June with that loan: the reminder of the 22nd, then the
    statement, each with its copy. *)
Lemma main_sends_statement :
  mail_subjects
    (snd (main sample_float sample_fromisoformat sample_isoformat sample_str
            sample_strftime false true false
            (on_june_22nd (answers_on_the_22nd (july_loan (VFloat 750)))))) =
  ["Payment Reminder: INV-001 - Thandi Mokoena";
   "COPY: Payment Reminder: INV-001 - Thandi Mokoena";
   "Gunnery Payment Due Quote: INV-001";
   "COPY: Gunnery Payment Due Quote: INV-001"]%string.
Proof. vm_compute. reflexivity. Qed.

(** With nothing left to pay the loan gets its invoice. *)
Lemma main_sends_invoice :
  mail_subjects
    (snd (main sample_float sample_fromisoformat sample_isoformat sample_str
            sample_strftime false true false
            (on_june_22nd (answers_on_the_22nd (july_loan (VInt 0)))))) =
  ["Payment Reminder: INV-001 - Thandi Mokoena";
   "COPY: Payment Reminder: INV-001 - Thandi Mokoena";
   "Loan Paid: Invoice INV-001 - Thandi Mokoena";
   "COPY: Loan Paid: Invoice INV-001 - Thandi Mokoena"]%string.
Proof. vm_compute. reflexivity. Qed.

(** On another day, without test mode, [main] probes the store, looks for
    overdue loans, counts the loans, and stops. *)
Lemma main_off_the_22nd :
  main sample_float sample_fromisoformat sample_isoformat sample_str
    sample_strftime false true false
    (on_june_10th (answers_on_the_22nd (july_loan (VFloat 750)))) =
  (Ok tt,
   mk_world (mk_datetime 2024 6 10 9 0 0 0 None)
     (map Reply (drop 3 (answers_on_the_22nd (july_loan (VFloat 750)))))
     [SelectCount "loans";
      query_overdue_loans (mk_datetime 2024 6 10 9 0 0 0 None);
      SelectCount "loans"] []).
Proof. vm_compute. reflexivity. Qed.

(** C10, witness: the store is down. *)
Lemma batch_operations_witness :
  let w :=
    mk_world noon [Fail ConnectionError; Fail ConnectionError; Fail TimeoutError]
      [] [] in
  fst (update_overdue_loans sample_float sample_fromisoformat w) = Ok 0 /\
  fst (notify_overdue_loans sample_float sample_fromisoformat sample_isoformat
         sample_str true w) = Ok 0 /\
  fst (apply_penalties_to_overdue_loans sample_float sample_fromisoformat
         true w) = Ok (0, 0) /\
  fst (send_payment_reminders sample_float sample_fromisoformat
         sample_isoformat sample_str sample_strftime true w) = Ok 0 /\
  fst (send_due_date_reminders sample_float sample_fromisoformat sample_str
         sample_strftime true w) = Ok 0.
Proof.
  cbv zeta.
  destruct (batch_operations_never_raise sample_float sample_fromisoformat
              sample_isoformat sample_str sample_strftime) as (_ & _ & _ & _ & _ & H).
  apply (H _ ConnectionError ConnectionError TimeoutError [] true).
  reflexivity.
Defined.

(** C7, witness: apply_penalties_to_overdue_loans on 3 May, with one
    overdue loan of 5000 that has no payment in May: three reads and one
    write, which sets the penalties of loan 1 to 0 + 500. *)
Lemma engine_writes_witness :
  let w :=
    world_answering
      [mk_response [loan_of_5000 (VInt 0)] 1; mk_response [] 0;
       mk_response [loan_of_5000 (VFloat 500)] 1;
       mk_response [sample_client] 1] in
  let requests :=
    [Select "clients" "first_name, last_name, email"
       [mk_filter op_eq "id" (arg_value (VInt 7))];
     Update "loans" [("penalties", VFloat 500)]
       [mk_filter op_eq "id" (arg_value (VInt 1))];
     Select "loan_payments" "payment_date, amount"
       [mk_filter op_eq "loan_id" (arg_value (VInt 1));
        mk_filter op_gte "payment_date" (arg_time first_of_may);
        mk_filter op_lte "payment_date" (arg_time noon)];
     Select "loans"
       "id, invoice_number, loan_amount, remaining_balance, penalties, client_id, payment_due_date"
       [mk_filter op_eq "status" (arg_value (VStr "overdue"))]] in
  sent (snd (apply_penalties_to_overdue_loans sample_float
               sample_fromisoformat false w)) = requests /\
  Forall (penalty_request_on_rows sample_float (script w)) requests.
Proof.
  cbv zeta.
  assert (Hsent :
    sent (snd (apply_penalties_to_overdue_loans sample_float
                 sample_fromisoformat false
                 (world_answering
                    [mk_response [loan_of_5000 (VInt 0)] 1; mk_response [] 0;
                     mk_response [loan_of_5000 (VFloat 500)] 1;
                     mk_response [sample_client] 1]))) =
    [Select "clients" "first_name, last_name, email"
       [mk_filter op_eq "id" (arg_value (VInt 7))];
     Update "loans" [("penalties", VFloat 500)]
       [mk_filter op_eq "id" (arg_value (VInt 1))];
     Select "loan_payments" "payment_date, amount"
       [mk_filter op_eq "loan_id" (arg_value (VInt 1));
        mk_filter op_gte "payment_date" (arg_time first_of_may);
        mk_filter op_lte "payment_date" (arg_time noon)];
     Select "loans"
       "id, invoice_number, loan_amount, remaining_balance, penalties, client_id, payment_due_date"
       [mk_filter op_eq "status" (arg_value (VStr "overdue"))]]).
  { vm_compute. reflexivity. }
  split; [exact Hsent|].
  destruct (engine_writes sample_float sample_fromisoformat sample_isoformat
              sample_str sample_strftime) as (_ & H & _).
  destruct (H false
              (world_answering
                 [mk_response [loan_of_5000 (VInt 0)] 1; mk_response [] 0;
                  mk_response [loan_of_5000 (VFloat 500)] 1;
                  mk_response [sample_client] 1]))
    as (_ & l & Hl & HP).
  rewrite Hsent in Hl. change (sent (world_answering _)) with (@nil request) in Hl.
  rewrite app_nil_r in Hl. rewrite Hl. exact HP.
Defined.

(** C8, witness: a store call whose first two attempts fail: three
    attempts, sleeps of 1 and 2 seconds, and the third answer returned. *)
Lemma retry_with_backoff_witness :
  let w :=
    mk_world noon
      [Fail ConnectionError; Fail ValueError; Reply (mk_response [] 7)] [] [] in
  exists (k : nat) (r : res (option response)) (w' : world),
    retry_with_backoff (execute (SelectCount "loans")) 3 1 2 [Exception] w
      = (r, w') /\
    (1 <= k <= 3)%nat /\
    sent w' = repeat (SelectCount "loans") k ++ sent w /\
    script w' = drop k (script w) /\
    slept w' = rev (take (k - 1) [1; 2 * 1]) ++ slept w /\
    (forall i, (i < k - 1)%nat ->
       exists e, outcome_at w i = Fail e /\ caught_by [Exception] e = true) /\
    match outcome_at w (k - 1) with
    | Reply resp => r = Ok (Some resp)
    | Fail e => r = Raise e /\ (k = 3%nat \/ caught_by [Exception] e = false)
    end.
Proof.
  cbv zeta.
  apply (proj1 (retry_with_backoff_attempts sample_float sample_fromisoformat
                  sample_isoformat sample_str sample_strftime)).
  lia.
Defined.

(** A loan due on 10 February 2023, a month of 28 days, is shown as due on
    the 28th as well. *)
Lemma due_in_february :
  normalized_due_date sample_fromisoformat
    (sample_loan (VFloat 9000) (VFloat 6000) (VInt 0) "2023-02-10" "2022-11-15")
  = Ok (mk_datetime 2023 2 28 0 0 0 0 None).
Proof. reflexivity. Qed.

(** * The further properties on data *)

(** X1, witness: four attempts allowed, a delay of 2 and a factor of 3; the
    store fails four times: waits of 2, 6 and 18, then the last error. *)
Lemma retry_exhausts_witness :
  retry_with_backoff (execute (SelectCount "loans")) 4 2 3 [Exception]
    (mk_world noon
       (map Fail [ConnectionError; ConnectionError; TimeoutError; APIError])
       [] []) =
  (Raise APIError,
   mk_world noon [] (repeat (SelectCount "loans") 4) [18; 6; 2]).
Proof.
  apply (retry_exhausts_after_max_retries (SelectCount "loans") 2 3
           [Exception] ConnectionError
           [ConnectionError; TimeoutError; APIError]
           (mk_world noon
              (map Fail
                 [ConnectionError; ConnectionError; TimeoutError; APIError])
              [] []) []).
  - lia.
  - lia.
  - repeat constructor.
  - reflexivity.
Defined.

(** With a negative delay the wait after the first failure is no length
    that [time.sleep] accepts: its [ValueError] ends the call after one
    attempt. *)
Lemma retry_with_negative_delay :
  retry_with_backoff (execute (SelectCount "loans")) 3 (-5) 2 [Exception]
    (mk_world noon [Fail TimeoutError; Reply (mk_response [] 7)] [] []) =
  (Raise ValueError,
   mk_world noon [Reply (mk_response [] 7)] [SelectCount "loans"] []).
Proof. reflexivity. Qed.

(** X2, witness: five attempts allowed on connection and timeout errors;
    after one of each a [ValueError] ends the loop at the third attempt. *)
Lemma retry_stops_witness :
  retry_with_backoff (execute (SelectCount "loans")) 5 1 2
    [Class ConnectionError; Class TimeoutError]
    (mk_world noon
       [Fail ConnectionError; Fail TimeoutError; Fail ValueError;
        Reply empty_response] [] []) =
  (Raise ValueError,
   mk_world noon [Reply empty_response] (repeat (SelectCount "loans") 3)
     [2; 1]).
Proof.
  apply (retry_stops_at_first_decisive_outcome (SelectCount "loans") 5 1 2
           [Class ConnectionError; Class TimeoutError] (Fail ValueError)
           [ConnectionError; TimeoutError]
           (mk_world noon
              [Fail ConnectionError; Fail TimeoutError; Fail ValueError;
               Reply empty_response] [] [])
           [Reply empty_response]).
  - lia.
  - lia.
  - repeat constructor.
  - reflexivity.
  - reflexivity.
  - reflexivity.
Defined.

(** X5, witness: [--check-db] alone. *)
Lemma run_cli_check_db_witness :
  emits is_probe
    (run_cli sample_float sample_fromisoformat sample_isoformat sample_str
       sample_strftime check_only).
Proof.
  exact (proj1 (run_cli_check_db_only_probes sample_float
                  sample_fromisoformat sample_isoformat sample_str
                  sample_strftime check_only eq_refl)).
Defined.

(** X8, witness: [--apply-penalties] alone. *)
Lemma run_cli_apply_penalties_witness :
  emits (penalty_request sample_float)
    (run_cli sample_float sample_fromisoformat sample_isoformat sample_str
       sample_strftime penalties_only).
Proof.
  exact (proj1 (run_cli_apply_penalties_requests sample_float
                  sample_fromisoformat sample_isoformat sample_str
                  sample_strftime penalties_only eq_refl)).
Defined.

(** X10, witness: the first loan is prepared, the lookup of the second
    client fails three times, and no loan comes back. *)
Lemma failed_client_lookup_witness :
  exists w2,
    get_loans_due_next_month sample_fromisoformat sample_isoformat
      lookup_fails_on_second =
    (Ok [],
     mk_world (clock w2) []
       (repeat (get_client_info (VInt 8)) 3 ++ sent w2)
       (2 :: 1 :: slept w2)).
Proof.
  eexists.
  eapply (failed_client_lookup_drops_all sample_fromisoformat
            sample_isoformat lookup_fails_on_second _ _
            (mk_response [july_loan (VFloat 750); second_july_loan] 2)
            [july_loan (VFloat 750)] [] _ second_july_loan (VInt 8) 31
            ConnectionError ConnectionError TimeoutError []).
  - reflexivity.
  - reflexivity.
  - reflexivity.
  - reflexivity.
  - reflexivity.
  - reflexivity.
Defined.

(** X11, witness: the loan of the examples is rendered, so it holds what
    the page needs. *)
Lemma create_invoice_email_needs_witness :
  let loan := july_loan (VFloat 750) in
  exists page,
    create_invoice_email sample_float sample_fromisoformat sample_str loan true
      = Ok page /\
    (exists v loan_amount,
       loan !! "loan_amount" = Some v /\
       py_float sample_float v = Ok loan_amount) /\
    (exists invoice_number, loan !! "invoice_number" = Some invoice_number).
Proof.
  cbv zeta. eexists. split; [vm_compute; reflexivity|].
  assert (H : create_invoice_email sample_float sample_fromisoformat sample_str
                (july_loan (VFloat 750)) true = Ok _)
    by (vm_compute; reflexivity).
  destruct (create_invoice_email_needs sample_float sample_fromisoformat
              sample_str _ _ _ H)
    as (_ & _ & _ & Hamount & _ & Hinvoice & _).
  split; [exact Hamount | exact Hinvoice].
Defined.

(** X12, witness: a loan whose [penalties] is [None]. *)
Lemma penalties_not_a_number_witness :
  (forall q page,
     create_invoice_email sample_float sample_fromisoformat sample_str
       loan_without_penalties_value q <> Ok page) /\
  (forall q,
     render sample_float sample_fromisoformat sample_str
       loan_without_penalties_value q = Ok None) /\
  (forall test_mode send_emails n w,
     main_step sample_float sample_fromisoformat sample_str test_mode
       send_emails loan_without_penalties_value n w = (Ok n, w)).
Proof.
  apply (penalties_not_a_number_no_page sample_float sample_fromisoformat
           sample_str loan_without_penalties_value VNone);
    reflexivity.
Defined.

(** With 0 for [penalties] the same loan is rendered. *)
Lemma penalties_zero_renders :
  exists page,
    create_invoice_email sample_float sample_fromisoformat sample_str
      (sample_loan (VFloat 9000) (VFloat 6000) (VInt 0) "2024-07-28"
         "2024-04-15") true = Ok page.
Proof. eexists. vm_compute. reflexivity. Qed.

(** X13, witness: started on 15 November 2024, a loan is to be paid on
    15 December, 15 January 2025 and 15 February 2025. *)
Lemma payment_schedule_months_witness :
  exists page,
    create_invoice_email sample_float sample_fromisoformat sample_str
      november_loan true = Ok page /\
    first_payment_month page = mk_datetime 2024 12 15 0 0 0 0 None /\
    second_payment_month page = mk_datetime 2025 1 15 0 0 0 0 None /\
    third_payment_month page = mk_datetime 2025 2 15 0 0 0 0 None.
Proof.
  eexists. split; [vm_compute; reflexivity|].
  assert (H : create_invoice_email sample_float sample_fromisoformat sample_str
                november_loan true = Ok _)
    by (vm_compute; reflexivity).
  destruct (payment_schedule_months sample_float sample_fromisoformat
              sample_str november_loan true _ "2024-11-15"
              (mk_datetime 2024 11 15 0 0 0 0 None) H eq_refl eq_refl)
    as (H1 & H2 & H3 & _).
  split; [exact H1|]. split; [exact H2 | exact H3].
Defined.

(** X15, witness: a run of [main] on 10 June. *)
Lemma no_penalty_off_the_3rd_witness :
  let w := on_june_10th (answers_on_the_22nd (july_loan (VFloat 750))) in
  exists l,
    sent (snd (main sample_float sample_fromisoformat sample_isoformat
                 sample_str sample_strftime false true false w)) =
      l ++ sent w /\
    Forall overdue_request l /\
    Forall (fun r => ~ penalty_write sample_float r) l.
Proof.
  cbv zeta.
  apply (no_penalty_off_the_3rd sample_float sample_fromisoformat
           sample_isoformat sample_str sample_strftime true false
           (on_june_10th (answers_on_the_22nd (july_loan (VFloat 750))))).
  cbn. lia.
Defined.

(** X16, witness: 28 June 2024, in a month of 30 days, is the third last
    day. *)
Lemma third_last_day_witness :
  is_third_last_day_of_month (on_june_28th []) = (Ok true, on_june_28th []).
Proof.
  destruct (third_last_day_spec (on_june_28th []) eq_refl)
    as (last_day & b & Hm & Hrun & _).
  rewrite Hrun. vm_compute in Hrun. injection Hrun as <-. reflexivity.
Defined.

(** X17, witness: payments of 1000, of [None] and of 2000 sum up like
    payments of 1000 and of 2000. *)
Lemma sum_payments_skips_witness :
  sum_payments sample_float
    [sample_payment "2024-05-02" (VFloat 1000);
     sample_payment "2024-05-03" VNone;
     sample_payment "2024-05-04" (VFloat 2000)] 0 =
  sum_payments sample_float
    [sample_payment "2024-05-02" (VFloat 1000);
     sample_payment "2024-05-04" (VFloat 2000)] 0.
Proof.
  exact (proj1 (sum_payments_skips_invalid_amount sample_float
                  [sample_payment "2024-05-02" (VFloat 1000)]
                  [sample_payment "2024-05-04" (VFloat 2000)]
                  (sample_payment "2024-05-03" VNone) VNone TypeError 0
                  eq_refl eq_refl (or_intror eq_refl))).
Defined.

(** The sum is 3000. *)
Lemma sum_payments_of_three :
  sum_payments sample_float
    [sample_payment "2024-05-02" (VFloat 1000);
     sample_payment "2024-05-03" VNone;
     sample_payment "2024-05-04" (VFloat 2000)] 0 = Ok 3000%float.
Proof. vm_compute. reflexivity. Qed.

(** A dry run is not a run without effects: with [--no-send] alone the
    overdue loan is still marked overdue in the store; no mail is sent, and
    the exit code is 0. *)
Lemma dry_run_still_writes :
  let r :=
    run_cli sample_float sample_fromisoformat sample_isoformat sample_str
      sample_strftime dry_run overdue_on_june_10th in
  fst r = Ok 0 /\
  writes_of (snd r) = [update_loan_status (VInt 1)] /\
  mail_subjects (snd r) = [].
Proof. vm_compute. repeat split; reflexivity. Qed.

(** The same run with mails: the overdue notice and its copy go out. *)
Lemma run_with_mails :
  mail_subjects
    (snd (run_cli sample_float sample_fromisoformat sample_isoformat
            sample_str sample_strftime
            (with_no_send false dry_run) overdue_on_june_10th)) =
  ["OVERDUE PAYMENT NOTICE: INV-001 - Thandi Mokoena";
   "COPY: OVERDUE PAYMENT NOTICE: INV-001 - Thandi Mokoena"]%string.
Proof. vm_compute. reflexivity. Qed.

(** When the table of loans cannot be reached, run_cli exits with 1 after
    three probes and one mail to the administrator. *)
Lemma run_cli_store_down :
  let r :=
    run_cli sample_float sample_fromisoformat sample_isoformat sample_str
      sample_strftime (with_no_send false dry_run)
      (mk_world noon
         [Fail ConnectionError; Fail ConnectionError; Fail TimeoutError]
         [] []) in
  fst r = Ok 1 /\
  mail_subjects (snd r) =
    ["ERROR: Loan Payment System - Database Connection Failure"%string] /\
  length (sent (snd r)) = 4%nat.
Proof. vm_compute. repeat split; reflexivity. Qed.

